(** * PUDL ETL package coordinator ([src/pudl/etl_pkg.py])

    A shallow embedding of the input validators, the dataset adapters and
    the package coordinator of [pudl.etl_pkg], followed by the properties
    of its specification.

    Python values are embedded as the inductive type [pyval]; a Python
    [dict] with string keys is an insertion-ordered association list with
    unique keys.  Exceptions are values of [exn] carried by [result]; code
    that writes through the loader runs in the state-and-exception monad
    [M] over a [world] that records the writer's calls. *)

From Stdlib Require Import List String Ascii ZArith Bool Lia.
From Stdlib Require Import DecimalString.
Import ListNotations.
Open Scope string_scope.
Open Scope Z_scope.

Set Implicit Arguments.
Set Warnings "-register-all".

(* ================================================================== *)
(** ** Python values *)

Module Py.

Inductive pyval : Type :=
| VNone
| VBool (b : bool)
| VInt (z : Z)
| VStr (s : string)
| VList (l : list pyval)
| VDict (d : list (string * pyval)).

(** A [dict] keyed by strings, in insertion order. *)
Definition dict := list (string * pyval).

(** Exceptions raised by the modelled code or by its collaborators. *)
Inductive exn : Type :=
| AssertionError (msg : string)
| KeyError (key : string)
| IndexError
| TypeError
| AttributeError
| RuntimeIOError (msg : string).

Inductive result (A : Type) : Type :=
| Ok (a : A)
| Err (e : exn).
Arguments Ok {A} a.
Arguments Err {A} e.

Definition rbind {A B} (r : result A) (k : A -> result B) : result B :=
  match r with
  | Ok a => k a
  | Err e => Err e
  end.

(** [bool(v)]: Python truthiness. *)
Definition truthy (v : pyval) : bool :=
  match v with
  | VNone => false
  | VBool b => b
  | VInt z => negb (z =? 0)
  | VStr s => negb (String.eqb s "")
  | VList l => match l with [] => false | _ => true end
  | VDict d => match d with [] => false | _ => true end
  end.

(** [d.get(k)] as an option: the first (and only) binding of [k]. *)
Fixpoint lookup (k : string) (d : dict) : option pyval :=
  match d with
  | [] => None
  | (k', v) :: d' => if String.eqb k k' then Some v else lookup k d'
  end.

(** [d[k] = v]: replaces the binding in place, or appends a new one. *)
Fixpoint dict_set (k : string) (v : pyval) (d : dict) : dict :=
  match d with
  | [] => [(k, v)]
  | (k', v') :: d' =>
      if String.eqb k k' then (k, v) :: d' else (k', v') :: dict_set k v d'
  end.

(** [list(d.keys())]. *)
Definition keys (d : dict) : list string := map fst d.

(** [k in d.keys()] for a string [k]. *)
Definition has_key (k : string) (d : dict) : bool :=
  existsb (String.eqb k) (keys d).

(** [a == b].  [bool] is a subclass of [int]; dicts compare as maps. *)
Fixpoint eqb (a b : pyval) {struct a} : bool :=
  match a, b with
  | VNone, VNone => true
  | VBool x, VBool y => Bool.eqb x y
  | VBool x, VInt y => (if x then 1 else 0) =? y
  | VInt x, VBool y => x =? (if y then 1 else 0)
  | VInt x, VInt y => x =? y
  | VStr x, VStr y => String.eqb x y
  | VList xs, VList ys =>
      (fix go (xs ys : list pyval) {struct xs} : bool :=
         match xs, ys with
         | [], [] => true
         | x :: xs', y :: ys' => eqb x y && go xs' ys'
         | _, _ => false
         end) xs ys
  | VDict xs, VDict ys =>
      Nat.eqb (List.length xs) (List.length ys) &&
      (fix go (xs : list (string * pyval)) {struct xs} : bool :=
         match xs with
         | [] => true
         | (k, v) :: xs' =>
             match lookup k ys with
             | Some w => eqb v w && go xs'
             | None => false
             end
         end) xs
  | _, _ => false
  end.

(** [x in t] for a tuple or list [t]: membership by [==]. *)
Definition mem (x : pyval) (t : list pyval) : bool := existsb (eqb x) t.

(** [v in d.keys()]: an unhashable [v] raises [TypeError]; the keys are
    strings, so a hashable [v] that is not a string is never a member. *)
Definition in_keys (v : pyval) (d : dict) : result bool :=
  match v with
  | VStr s => Ok (has_key s d)
  | VList _ | VDict _ => Err TypeError
  | _ => Ok false
  end.

(** [obj[k]] for a string key [k]. *)
Definition getitem (obj : pyval) (k : string) : result pyval :=
  match obj with
  | VDict d => match lookup k d with
               | Some v => Ok v
               | None => Err (KeyError k)
               end
  | _ => Err TypeError
  end.

(** [obj[0]]. *)
Definition getitem0 (obj : pyval) : result pyval :=
  match obj with
  | VList l => match l with
               | x :: _ => Ok x
               | [] => Err IndexError
               end
  | VStr s => match s with
              | String c _ => Ok (VStr (String c EmptyString))
              | EmptyString => Err IndexError
              end
  | VDict _ => Err (KeyError "0")
  | _ => Err TypeError
  end.

(** [obj[i]] for an int [i]; a negative index counts from the end. *)
Definition index_int (obj : pyval) (i : Z) : result pyval :=
  let at_ (A : Type) (l : list A) : option A :=
    let n := Z.of_nat (List.length l) in
    let j := if i <? 0 then i + n else i in
    if (0 <=? j) && (j <? n) then nth_error l (Z.to_nat j) else None in
  match obj with
  | VList l => match at_ _ l with Some x => Ok x | None => Err IndexError end
  | VStr s => match at_ _ (list_ascii_of_string s) with
              | Some c => Ok (VStr (String c EmptyString))
              | None => Err IndexError
              end
  | VDict _ => Err (KeyError (NilZero.string_of_int (Z.to_int i)))
  | _ => Err TypeError
  end.

(** [obj[k]] for a key that is itself a value. *)
Definition index (obj k : pyval) : result pyval :=
  match k with
  | VStr s => getitem obj s
  | VInt i => index_int obj i
  | VBool b => index_int obj (if b then 1 else 0)
  | VNone => match obj with
             | VDict _ => Err (KeyError "None")
             | _ => Err TypeError
             end
  | VList _ | VDict _ => Err TypeError
  end.

(** [obj[k] = v]. *)
Definition setitem (obj : pyval) (k : string) (v : pyval) : result pyval :=
  match obj with
  | VDict d => Ok (VDict (dict_set k v d))
  | _ => Err TypeError
  end.

Fixpoint chars (s : string) : list pyval :=
  match s with
  | EmptyString => []
  | String c s' => VStr (String c EmptyString) :: chars s'
  end.

(** The items produced by [for x in v]. *)
Definition iter (v : pyval) : result (list pyval) :=
  match v with
  | VList l => Ok l
  | VStr s => Ok (chars s)
  | VDict d => Ok (map VStr (keys d))
  | _ => Err TypeError
  end.

Definition lower_ascii (c : ascii) : ascii :=
  let n := nat_of_ascii c in
  if (Nat.leb 65 n && Nat.leb n 90)%bool then ascii_of_nat (n + 32) else c.

Fixpoint lower_string (s : string) : string :=
  match s with
  | EmptyString => EmptyString
  | String c s' => String (lower_ascii c) (lower_string s')
  end.

(** [v.lower()]: only strings have the method. *)
Definition lower (v : pyval) : result string :=
  match v with
  | VStr s => Ok (lower_string s)
  | _ => Err AttributeError
  end.

Fixpoint is_infix (s1 s2 : string) : bool :=
  (String.prefix s1 s2 ||
   match s2 with
   | EmptyString => false
   | String _ s2' => is_infix s1 s2'
   end)%bool.

(** [x in c] for an arbitrary container [c]. *)
Definition contains (c x : pyval) : result bool :=
  match c with
  | VList l => Ok (mem x l)
  | VStr s => match x with
              | VStr t => Ok (is_infix t s)
              | _ => Err TypeError
              end
  | VDict d => in_keys x d
  | _ => Err TypeError
  end.

(** [str(v)] as an f-string interpolates it.  Containers print their
    items with [repr], here without the escaping of quotes inside
    strings. *)
Fixpoint str_aux (quote : bool) (v : pyval) {struct v} : string :=
  match v with
  | VNone => "None"
  | VBool true => "True"
  | VBool false => "False"
  | VInt z => NilZero.string_of_int (Z.to_int z)
  | VStr s => if quote then "'" ++ s ++ "'" else s
  | VList l =>
      "[" ++
      (fix go (l : list pyval) : string :=
         match l with
         | [] => ""
         | [x] => str_aux true x
         | x :: l' => str_aux true x ++ ", " ++ go l'
         end) l ++ "]"
  | VDict d =>
      "{" ++
      (fix go (d : list (string * pyval)) : string :=
         match d with
         | [] => ""
         | [(k, x)] => "'" ++ k ++ "': " ++ str_aux true x
         | (k, x) :: d' => "'" ++ k ++ "': " ++ str_aux true x ++ ", " ++ go d'
         end) d ++ "}"
  end.

Definition str (v : pyval) : string := str_aux false v.

(** [a.update(b)] on a copy of [a]. *)
Definition dict_update (a b : dict) : dict :=
  fold_left (fun acc kv => dict_set (fst kv) (snd kv) acc) b a.

(** A tuple of strings, and a tuple of ints, as Python values. *)
Definition strs (l : list string) : pyval := VList (map VStr l).
Definition ints (l : list Z) : pyval := VList (map VInt l).

End Py.
Import Py.

Notation "x <- c1 ;; c2" := (rbind c1 (fun x => c2))
  (at level 61, c1 at next level, right associativity).

(** [for x in xs: body(x)] where the body either raises or falls through. *)
Fixpoint for_each {A} (xs : list A) (body : A -> result unit) : result unit :=
  match xs with
  | [] => Ok tt
  | x :: xs' => _ <- body x ;; for_each xs' body
  end.

(** [try: v = obj[k]] / [except KeyError: v = dflt]. *)
Definition get_or (obj : pyval) (k : string) (dflt : pyval) : result pyval :=
  match getitem obj k with
  | Err (KeyError _) => Ok dflt
  | r => r
  end.

(* ================================================================== *)
(** ** The constants of [pudl.constants] used by the coordinator *)

(** Modelled from the spec: the module [pudl.constants] is not part of the
    sources at hand; the spec calls its tables the "kind-specific fixed
    universe" of tables, years and states, "process-wide static data".
    The coordinator only reads the entries below.  Tuples are given as
    lists; [pudl_tables] and [working_years] are dicts read at keys that
    they define, hence functions. *)
Record Constants : Type := {
  pudl_tables : string -> list string;
  eia860_pudl_tables : list string;
  eia923_pudl_tables : list string;
  ferc1_pudl_tables : list string;
  working_years : string -> list Z;
  cems_states : list string;       (* the keys of [pc.cems_states] *)
  epacems_tables : string
}.

(* ================================================================== *)
(** ** Input validators *)

Section Validators.

Variable pc : Constants.

Definition _validate_input_partition (etl_params_og : pyval)
    (tables : list string) : result pyval :=
  let partition_dict := VDict [] in
  match getitem etl_params_og "partition" with
  | Err (KeyError _) => setitem partition_dict "partition" VNone
  | Err e => Err e
  | Ok partition_dict =>
      match
        for_each tables (fun table =>
          p <- getitem partition_dict table ;;
          ks <- match etl_params_og with
                | VDict d => Ok d
                | _ => Err AttributeError
                end ;;
          b <- in_keys p ks ;;
          if negb b then Err (AssertionError "Partion not recognized")
          else Ok tt)
      with
      | Err (KeyError _) => setitem partition_dict "partition" VNone
      | Err e => Err e
      | Ok _ => Ok partition_dict
      end
  end.

(** [for x in xs: if x not in universe: raise AssertionError(msg + str(x))] *)
Definition check_members (xs : list pyval) (universe : list pyval)
    (msg : string) (tail : string) : result unit :=
  for_each xs (fun x =>
    if negb (mem x universe)
    then Err (AssertionError (msg ++ str x ++ tail))
    else Ok tt).

Definition _validate_input_eia (etl_params : pyval) : result pyval :=
  let eia_input_dict := VDict [] in
  v <- get_or etl_params "eia860_years" (VList []) ;;
  eia_input_dict <- setitem eia_input_dict "eia860_years" v ;;
  v <- get_or etl_params "eia860_tables" (strs (pudl_tables pc "eia860")) ;;
  eia_input_dict <- setitem eia_input_dict "eia860_tables" v ;;
  v <- get_or etl_params "eia923_years" (VList []) ;;
  eia_input_dict <- setitem eia_input_dict "eia923_years" v ;;
  v <- get_or etl_params "eia923_tables" (strs (pudl_tables pc "eia923")) ;;
  eia_input_dict <- setitem eia_input_dict "eia923_tables" v ;;
  (* only 860 requested: pull in the 923 tables it needs *)
  y923 <- getitem eia_input_dict "eia923_years" ;;
  y860 <- getitem eia_input_dict "eia860_years" ;;
  eia_input_dict <-
    (if negb (truthy y923) && truthy y860 then
       eia_input_dict <- setitem eia_input_dict "eia923_years" y860 ;;
       setitem eia_input_dict "eia923_tables"
         (strs ["boiler_fuel_eia923"; "generation_eia923"])
     else Ok eia_input_dict) ;;
  (* 923 without 860: force the same 860 years *)
  y860 <- getitem eia_input_dict "eia860_years" ;;
  y923 <- getitem eia_input_dict "eia923_years" ;;
  eia_input_dict <-
    (if negb (truthy y860) && truthy y923 then
       setitem eia_input_dict "eia860_years" y923
     else Ok eia_input_dict) ;;
  (* validate *)
  t860 <- getitem eia_input_dict "eia860_tables" ;;
  _ <- (if truthy t860 then
          ts <- iter t860 ;;
          check_members ts (map VStr (eia860_pudl_tables pc))
            "Unrecognized EIA 860 table: " ""
        else Ok tt) ;;
  t923 <- getitem eia_input_dict "eia923_tables" ;;
  _ <- (if truthy t923 then
          ts <- iter t923 ;;
          check_members ts (map VStr (eia923_pudl_tables pc))
            "Unrecogized EIA 923 table: " ""
        else Ok tt) ;;
  y860 <- getitem eia_input_dict "eia860_years" ;;
  ys <- iter y860 ;;
  _ <- check_members ys (map VInt (working_years pc "eia860"))
         "Unrecognized EIA 860 year: " "" ;;
  y923 <- getitem eia_input_dict "eia923_years" ;;
  ys <- iter y923 ;;
  _ <- check_members ys (map VInt (working_years pc "eia923"))
         "Unrecognized EIA 923 year: " "" ;;
  y923 <- getitem eia_input_dict "eia923_years" ;;
  y860 <- getitem eia_input_dict "eia860_years" ;;
  if negb (truthy y923) && negb (truthy y860) then Ok VNone
  else Ok eia_input_dict.

Definition _validate_input_ferc1 (etl_params : pyval) : result pyval :=
  let ferc1_dict := VDict [] in
  v <- get_or etl_params "ferc1_years" (VList [VNone]) ;;
  ferc1_dict <- setitem ferc1_dict "ferc1_years" v ;;
  v <- get_or etl_params "ferc1_tables" (strs (pudl_tables pc "ferc1")) ;;
  ferc1_dict <- setitem ferc1_dict "ferc1_tables" v ;;
  v <- get_or etl_params "ferc1_testing" (VBool false) ;;
  ferc1_dict <- setitem ferc1_dict "ferc1_testing" v ;;
  v <- get_or etl_params "debug" (VBool false) ;;
  ferc1_dict <- setitem ferc1_dict "debug" v ;;
  dbg <- getitem ferc1_dict "debug" ;;
  _ <- (if negb (truthy dbg) then
          tbls <- getitem ferc1_dict "ferc1_tables" ;;
          if truthy tbls then
            ts <- iter tbls ;;
            check_members ts (map VStr (ferc1_pudl_tables pc))
              "Unrecognized FERC table: " "."
          else Ok tt
        else Ok tt) ;;
  ys <- getitem ferc1_dict "ferc1_years" ;;
  if negb (truthy ys) then Ok (VDict [])
  else Ok ferc1_dict.

Definition _validate_input_epacems (etl_params : pyval) : result pyval :=
  let epacems_dict := VDict [] in
  v <- get_or etl_params "epacems_years" (VList [VNone]) ;;
  epacems_dict <- setitem epacems_dict "epacems_years" v ;;
  v <- get_or etl_params "epacems_states" (VList []) ;;
  epacems_dict <- setitem epacems_dict "epacems_states" v ;;
  (* if states are All, grab all of the states from constants *)
  sts <- getitem epacems_dict "epacems_states" ;;
  epacems_dict <-
    (if truthy sts then
       s0 <- getitem0 sts ;;
       l <- lower s0 ;;
       if String.eqb l "all"
       then setitem epacems_dict "epacems_states" (strs (cems_states pc))
       else Ok epacems_dict
     else Ok epacems_dict) ;;
  p <- _validate_input_partition etl_params [epacems_tables pc] ;;
  epacems_dict <- setitem epacems_dict "partition" p ;;
  p <- getitem epacems_dict "partition" ;;
  _ <- (if negb (truthy p) then
          Err (AssertionError
                 ("No partition found for EPA CEMS. " ++
                  "EPA CEMS requires either states or years as a partion"))
        else Ok tt) ;;
  ys <- getitem epacems_dict "epacems_years" ;;
  sts <- getitem epacems_dict "epacems_states" ;;
  if negb (truthy ys) || negb (truthy sts) then Ok VNone
  else Ok epacems_dict.

Definition _validate_input_epaipm (etl_params : pyval) : result pyval :=
  let epaipm_dict := VDict [] in
  v <- get_or etl_params "epaipm_tables" (VList [VNone]) ;;
  setitem epaipm_dict "epaipm_tables" v.

Definition _validate_input_glue (etl_params : pyval) : result pyval :=
  let glue_dict := VDict [] in
  v <- get_or etl_params "ferc1" (VBool false) ;;
  glue_dict <- setitem glue_dict "ferc1" v ;;
  v <- get_or etl_params "eia" (VBool false) ;;
  glue_dict <- setitem glue_dict "eia" v ;;
  f <- getitem glue_dict "ferc1" ;;
  e <- getitem glue_dict "eia" ;;
  if negb (truthy f) && negb (truthy e) then Ok (VDict [])
  else Ok glue_dict.

End Validators.

(* ================================================================== *)
(** ** The writer, the collaborators and the effect monad *)

(** A dataframe is an opaque Python object; a transform returns a dict
    from table names to dataframes. *)
Definition dataframe := pyval.

(** The calls that reach the file system and the writer, in the order in
    which they happen. *)
Inductive event : Type :=
| PrepDir (pkg_dir : string)
| DictDump (label : string) (tables : list string) (pkg_dir : string)
| SessionOpen (table_name pkg_dir : string)
| SessionAdd (table_name : string) (df : dataframe)
| SessionClose (table_name : string).

Record world : Type := {
  open_sessions : list string;   (* tables with an open bulk-copy session *)
  log : list event
}.

Definition M (A : Type) : Type := world -> result A * world.

Definition ret {A} (a : A) : M A := fun w => (Ok a, w).
Definition raise {A} (e : exn) : M A := fun w => (Err e, w).
Definition lift {A} (r : result A) : M A := fun w => (r, w).
Definition bind {A B} (m : M A) (k : A -> M B) : M B :=
  fun w => match m w with
           | (Ok a, w') => k a w'
           | (Err e, w') => (Err e, w')
           end.

Notation "x <~ c1 ;; c2" := (bind c1 (fun x => c2))
  (at level 61, c1 at next level, right associativity).

(** One item of a generator: a value, or the exception that ends it. *)
Inductive gen_item (A : Type) : Type :=
| Yield (a : A)
| Raise (e : exn).
Arguments Yield {A} a.
Arguments Raise {A} e.

(** A finite generator, consumed front to back; nothing after a [Raise]
    is ever produced. *)
Definition generator (A : Type) : Type := list (gen_item A).

(** Modelled from the spec: the modules [pudl.extract], [pudl.transform],
    [pudl.glue] and [pudl.load] are not part of the sources at hand.  The
    spec gives their interfaces: extraction returns raw tabular data "(or
    lazy sequence of raw tabular data, partitioned case)", transformation
    a "mapping from table name to tabular data (or lazy sequence
    thereof)".  [write_error] tells whether the writer or the file system
    refuses a call; releasing a session is "guaranteed-release" and never
    asked. *)
Record Collaborators : Type := {
  extract_eia923 : pyval -> pyval -> result dict;
  extract_eia860 : pyval -> pyval -> result dict;
  transform_eia923 : dict -> pyval -> result dict;
  transform_eia860 : dict -> pyval -> result dict;
  transform_eia : dict -> pyval -> pyval -> result (dict * dict);
  extract_ferc1 : pyval -> pyval -> pyval -> pyval -> result dict;
  transform_ferc1 : dict -> pyval -> result dict;
  extract_epacems : pyval -> pyval -> pyval -> result (generator dict);
  transform_pkg_epacems : generator dict -> string -> result (generator dict);
  extract_epaipm : pyval -> pyval -> result dict;
  transform_epaipm : dict -> pyval -> result dict;
  glue_ferc1_eia : pyval -> pyval -> result dict;
  write_error : event -> option exn
}.

Fixpoint remove_one (x : string) (l : list string) : list string :=
  match l with
  | [] => []
  | y :: l' => if String.eqb x y then l' else y :: remove_one x l'
  end.

Fixpoint for_eachM {A} (xs : list A) (body : A -> M unit) : M unit :=
  match xs with
  | [] => ret tt
  | x :: xs' => _ <~ body x ;; for_eachM xs' body
  end.

(** [for x in g: body(x)] over a generator. *)
Fixpoint for_gen {A} (g : generator A) (body : A -> M unit) : M unit :=
  match g with
  | [] => ret tt
  | Yield a :: g' => _ <~ body a ;; for_gen g' body
  | Raise e :: _ => raise e
  end.

Section Adapters.

Variable pc : Constants.
Variable io : Collaborators.

(** A call of the writer or of the file system: refused, or logged. *)
Definition emit (ev : event) : M unit :=
  fun w => match write_error io ev with
           | Some e => (Err e, w)
           | None => (Ok tt, {| open_sessions := open_sessions w;
                                log := log w ++ [ev] |})
           end.

(** Modelled from the spec: [pudl.load.dict_dump(dfs, label,
    pkg_dir=pkg_dir)] is not part of the sources at hand; it is the
    "bulk one-shot write" of a mapping from table names to data. *)
Definition dict_dump (dfs : dict) (label : string) (pkg_dir : string)
    : M unit :=
  emit (DictDump label (keys dfs) pkg_dir).

(** Modelled from the spec: [loader.add(df)], the "session.add" of a
    chunk to the open session of [table_name]. *)
Definition loader_add (table_name : string) (df : dataframe) : M unit :=
  emit (SessionAdd table_name df).

(** Modelled from the spec: the class [pudl.load.BulkCopyPkg] is not
    part of the sources at hand; the spec gives it as "a scoped streaming
    session" with "guaranteed-release" close.  This is the statement
    [with pudl.load.BulkCopyPkg(table_name=.., pkg_dir=..) as loader: body]:
    entering opens the session; leaving the block, normally or by an
    exception, closes it, and the exception goes on. *)
Definition with_BulkCopyPkg {A} (table_name pkg_dir : string) (body : M A)
    : M A :=
  fun w =>
    match write_error io (SessionOpen table_name pkg_dir) with
    | Some e => (Err e, w)
    | None =>
        let w1 := {| open_sessions := table_name :: open_sessions w;
                     log := log w ++ [SessionOpen table_name pkg_dir] |} in
        let (r, w2) := body w1 in
        (r, {| open_sessions := remove_one table_name (open_sessions w2);
               log := log w2 ++ [SessionClose table_name] |})
    end.

(* ------------------------------------------------------------------ *)
(** *** EIA *)

(** The static loaders build their dataframes from [pudl.constants];
    only the names of the tables matter here, the frames are left
    opaque. *)
Definition _load_static_tables_eia (pkg_dir : string) : M (list string) :=
  let static_dfs : dict :=
    [("fuel_type_eia923", VNone); ("prime_movers_eia923", VNone);
     ("fuel_type_aer_eia923", VNone); ("energy_source_eia923", VNone);
     ("transport_modes_eia923", VNone)] in
  _ <~ dict_dump static_dfs "Static EIA Tables" pkg_dir ;;
  ret (keys static_dfs).

Definition _etl_eia_pkg (etl_params data_dir : pyval) (pkg_dir : string)
    : M pyval :=
  eia_inputs <~ lift (_validate_input_eia pc etl_params) ;;
  eia923_tables <~ lift (getitem eia_inputs "eia923_tables") ;;
  eia923_years <~ lift (getitem eia_inputs "eia923_years") ;;
  eia860_tables <~ lift (getitem eia_inputs "eia860_tables") ;;
  eia860_years <~ lift (getitem eia_inputs "eia860_years") ;;
  if (negb (truthy eia923_tables) || negb (truthy eia923_years)) &&
     (negb (truthy eia860_tables) || negb (truthy eia860_years))
  then ret (VList [])
  else
    static_tables <~ _load_static_tables_eia pkg_dir ;;
    eia923_raw_dfs <~ lift (extract_eia923 io eia923_years data_dir) ;;
    eia860_raw_dfs <~ lift (extract_eia860 io eia860_years data_dir) ;;
    eia923_transformed_dfs <~
      lift (transform_eia923 io eia923_raw_dfs eia923_tables) ;;
    eia860_transformed_dfs <~
      lift (transform_eia860 io eia860_raw_dfs eia860_tables) ;;
    let eia_transformed_dfs :=
      dict_update eia860_transformed_dfs eia923_transformed_dfs in
    pr <~ lift (transform_eia io eia_transformed_dfs
                  eia923_years eia860_years) ;;
    let entities_dfs := fst pr in
    let eia_transformed_dfs := snd pr in
    _ <~ dict_dump entities_dfs "Entities" pkg_dir ;;
    _ <~ dict_dump eia_transformed_dfs "EIA" pkg_dir ;;
    ret (strs (keys eia_transformed_dfs ++ keys entities_dfs
               ++ static_tables)).

(* ------------------------------------------------------------------ *)
(** *** FERC 1 *)

Definition _load_static_tables_ferc (pkg_dir : string) : M (list string) :=
  let static_dfs : dict :=
    [("ferc_accounts", VNone); ("ferc_depreciation_lines", VNone)] in
  _ <~ dict_dump static_dfs "Static FERC Tables" pkg_dir ;;
  ret (keys static_dfs).

Definition _etl_ferc1_pkg (etl_params pudl_settings : pyval)
    (pkg_dir : string) : M pyval :=
  ferc1_inputs <~ lift (_validate_input_ferc1 pc etl_params) ;;
  ferc1_years <~ lift (getitem ferc1_inputs "ferc1_years") ;;
  ferc1_tables <~ lift (getitem ferc1_inputs "ferc1_tables") ;;
  if negb (truthy ferc1_years) || negb (truthy ferc1_tables)
  then ret (VList [])
  else
    static_tables <~ _load_static_tables_ferc pkg_dir ;;
    testing <~ lift (getitem ferc1_inputs "ferc1_testing") ;;
    ferc1_raw_dfs <~
      lift (extract_ferc1 io ferc1_tables ferc1_years pudl_settings
              testing) ;;
    ferc1_transformed_dfs <~
      lift (transform_ferc1 io ferc1_raw_dfs ferc1_tables) ;;
    _ <~ dict_dump ferc1_transformed_dfs "FERC 1" pkg_dir ;;
    ret (strs (keys ferc1_transformed_dfs ++ static_tables)).

(* ------------------------------------------------------------------ *)
(** *** EPA CEMS *)

Definition _etl_epacems_part (part epacems_years epacems_states
    data_dir : pyval) (pkg_dir : string) : M string :=
  epacems_raw_dfs <~
    lift (extract_epacems io (VList [part]) epacems_states data_dir) ;;
  epacems_transformed_dfs <~
    lift (transform_pkg_epacems io epacems_raw_dfs pkg_dir) ;;
  let table_name := "hourly_emissions_epacems_" ++ str part in
  _ <~ with_BulkCopyPkg table_name pkg_dir
         (for_gen epacems_transformed_dfs (fun transformed_df_dict =>
            for_eachM (map snd transformed_df_dict) (fun transformed_df =>
              loader_add table_name transformed_df))) ;;
  ret table_name.

(** The body of [for part in ...] of [_etl_epacems_pkg]; the loop
    variables [epacems_years] and [epacems_states] are rebound on the
    way. *)
Fixpoint epacems_parts (parts : list pyval)
    (epacems_years epacems_states data_dir : pyval) (pkg_dir : string)
    : M unit :=
  match parts with
  | [] => ret tt
  | part :: parts' =>
      in_years <~ lift (contains epacems_years part) ;;
      let epacems_years :=
        if in_years then VList [part] else epacems_years in
      in_states <~ lift (contains epacems_states part) ;;
      let epacems_states :=
        if in_states then VList [part] else epacems_states in
      _ <~ _etl_epacems_part part epacems_years epacems_states
             data_dir pkg_dir ;;
      epacems_parts parts' epacems_years epacems_states data_dir pkg_dir
  end.

Definition _etl_epacems_pkg (etl_params data_dir : pyval)
    (pkg_dir : string) : M pyval :=
  epacems_dict <~ lift (_validate_input_epacems pc etl_params) ;;
  epacems_years <~ lift (getitem epacems_dict "epacems_years") ;;
  epacems_states <~ lift (getitem epacems_dict "epacems_states") ;;
  epacems_partition <~ lift (getitem epacems_dict "partition") ;;
  if negb (truthy epacems_states) || negb (truthy epacems_years)
  then ret (VList [])
  else
    dimension <~ lift (getitem epacems_partition (epacems_tables pc)) ;;
    parts_obj <~ lift (index epacems_dict dimension) ;;
    parts <~ lift (iter parts_obj) ;;
    _ <~ epacems_parts parts epacems_years epacems_states
           data_dir pkg_dir ;;
    ret (strs ["hourly_emissions_epacems"]).

(* ------------------------------------------------------------------ *)
(** *** EPA IPM *)

Definition _load_static_tables_epaipm (pkg_dir : string)
    : M (list string) :=
  let static_dfs : dict := [("regions_entity_epaipm", VNone)] in
  _ <~ dict_dump static_dfs "Static IPM Tables" pkg_dir ;;
  ret (keys static_dfs).

Definition _etl_epaipm (etl_params data_dir : pyval) (pkg_dir : string)
    : M pyval :=
  epaipm_dict <~ lift (_validate_input_epaipm etl_params) ;;
  epaipm_tables <~ lift (getitem epaipm_dict "epaipm_tables") ;;
  static_tables <~ _load_static_tables_epaipm pkg_dir ;;
  epaipm_raw_dfs <~ lift (extract_epaipm io epaipm_tables data_dir) ;;
  epaipm_transformed_dfs <~
    lift (transform_epaipm io epaipm_raw_dfs epaipm_tables) ;;
  _ <~ dict_dump epaipm_transformed_dfs "EPA IPM" pkg_dir ;;
  ret (strs (keys epaipm_transformed_dfs ++ static_tables)).

(* ------------------------------------------------------------------ *)
(** *** Glue *)

Definition _etl_glue (etl_params : pyval) (pkg_dir : string) : M pyval :=
  glue_dict <~ lift (_validate_input_glue etl_params) ;;
  ferc1 <~ lift (getitem glue_dict "ferc1") ;;
  eia <~ lift (getitem glue_dict "eia") ;;
  if negb (truthy eia) && negb (truthy ferc1)
  then ret (VStr "ahhhh this is not werking")
  else
    f <~ lift (getitem glue_dict "ferc1") ;;
    e <~ lift (getitem glue_dict "eia") ;;
    glue_dfs <~ lift (glue_ferc1_eia io f e) ;;
    _ <~ dict_dump glue_dfs "Glue" pkg_dir ;;
    ret (strs (keys glue_dfs)).

End Adapters.

(* ================================================================== *)
(** ** Coordinating functions *)

(** A package of the settings file: [pkg['name']], [pkg['title']],
    [pkg['description']] and the list [pkg['datasets']] of dicts, each
    from a dataset name to its parameters. *)
Record package : Type := {
  name : string;
  title : string;
  description : string;
  datasets : list dict
}.

(** [os.path.join(a, b)] on POSIX paths. *)
Definition os_path_join (a b : string) : string :=
  if String.prefix "/" b then b
  else if String.eqb a "" then b
  else if String.eqb (String.substring (String.length a - 1) 1 a) "/"
       then a ++ b
       else a ++ "/" ++ b.

Section Coordinator.

Variable pc : Constants.
Variable io : Collaborators.

(** Deletes the package directory if it exists and creates it anew with
    its [data] subdirectory. *)
Definition _prep_directories (pkg_dir : string) : M unit :=
  emit io (PrepDir pkg_dir).

Definition input_validation_functions (dataset : string)
    : result (pyval -> result pyval) :=
  if String.eqb dataset "eia" then Ok (_validate_input_eia pc)
  else if String.eqb dataset "ferc1" then Ok (_validate_input_ferc1 pc)
  else if String.eqb dataset "epacems" then Ok (_validate_input_epacems pc)
  else if String.eqb dataset "glue" then Ok _validate_input_glue
  else if String.eqb dataset "epaipm" then Ok _validate_input_epaipm
  else Err (KeyError dataset).

(** The loop [for dataset in settings_dataset_dict] of [validate_input]. *)
Fixpoint validate_dataset_dict (settings_dataset_dict : dict)
    (ds : list string) (dataset_dicts : list dict) : result (list dict) :=
  match ds with
  | [] => Ok dataset_dicts
  | dataset :: ds' =>
      validate <- input_validation_functions dataset ;;
      params <- getitem (VDict settings_dataset_dict) dataset ;;
      etl_params <- validate params ;;
      let validacted_dataset_dict := [(dataset, etl_params)] in
      validate_dataset_dict settings_dataset_dict ds'
        (if truthy etl_params
         then (dataset_dicts ++ [validacted_dataset_dict])%list
         else dataset_dicts)
  end.

(** The loop [for settings_dataset_dict in pkg['datasets']]. *)
Fixpoint validate_datasets (dss : list dict) (dataset_dicts : list dict)
    : result (list dict) :=
  match dss with
  | [] => Ok dataset_dicts
  | settings_dataset_dict :: dss' =>
      dataset_dicts <-
        validate_dataset_dict settings_dataset_dict
          (keys settings_dataset_dict) dataset_dicts ;;
      validate_datasets dss' dataset_dicts
  end.

Fixpoint validate_input (pkg_bundle_settings : list package)
    : result (list package) :=
  match pkg_bundle_settings with
  | [] => Ok []
  | pkg :: pkgs =>
      dataset_dicts <- validate_datasets (datasets pkg) [] ;;
      rest <- validate_input pkgs ;;
      match dataset_dicts with
      | [] => Ok rest
      | _ => Ok ({| name := name pkg; title := title pkg;
                    description := description pkg;
                    datasets := dataset_dicts |} :: rest)
      end
  end.

(** The [if]/[elif] chain of [etl_pkg] for one dataset name. *)
Definition etl_dataset (dataset_dict : dict) (dataset : string)
    (pudl_settings : pyval) (pkg_dir : string) : M pyval :=
  if String.eqb dataset "eia" then
    etl_params <~ lift (getitem (VDict dataset_dict) "eia") ;;
    data_dir <~ lift (getitem pudl_settings "data_dir") ;;
    _etl_eia_pkg pc io etl_params data_dir pkg_dir
  else if String.eqb dataset "ferc1" then
    etl_params <~ lift (getitem (VDict dataset_dict) "ferc1") ;;
    _etl_ferc1_pkg pc io etl_params pudl_settings pkg_dir
  else if String.eqb dataset "epacems" then
    etl_params <~ lift (getitem (VDict dataset_dict) "epacems") ;;
    data_dir <~ lift (getitem pudl_settings "data_dir") ;;
    _etl_epacems_pkg pc io etl_params data_dir pkg_dir
  else if String.eqb dataset "glue" then
    etl_params <~ lift (getitem (VDict dataset_dict) "glue") ;;
    _etl_glue io etl_params pkg_dir
  else if String.eqb dataset "epaipm" then
    etl_params <~ lift (getitem (VDict dataset_dict) "epaipm") ;;
    data_dir <~ lift (getitem pudl_settings "data_dir") ;;
    _etl_epaipm io etl_params data_dir pkg_dir
  else
    raise (AssertionError
             ("Invalid dataset " ++ dataset ++ " found in input.")).

(** The loop [for dataset in dataset_dict], extending [tables]. *)
Fixpoint etl_dataset_dict (dataset_dict : dict) (ds : list string)
    (pudl_settings : pyval) (pkg_dir : string) (tables : list pyval)
    : M (list pyval) :=
  match ds with
  | [] => ret tables
  | dataset :: ds' =>
      tbls <~ etl_dataset dataset_dict dataset pudl_settings pkg_dir ;;
      tables <~ (if truthy tbls
                 then new <~ lift (iter tbls) ;; ret (tables ++ new)%list
                 else ret tables) ;;
      etl_dataset_dict dataset_dict ds' pudl_settings pkg_dir tables
  end.

(** The loop [for dataset_dict in pkg_settings['datasets']]. *)
Fixpoint etl_datasets (dss : list dict) (pudl_settings : pyval)
    (pkg_dir : string) (tables : list pyval) : M (list pyval) :=
  match dss with
  | [] => ret tables
  | dataset_dict :: dss' =>
      tables <~ etl_dataset_dict dataset_dict (keys dataset_dict)
                  pudl_settings pkg_dir tables ;;
      etl_datasets dss' pudl_settings pkg_dir tables
  end.

Definition etl_pkg (pkg_settings : package) (pudl_settings : pyval)
    (pkg_bundle_dir : string) : M (list pyval) :=
  let pkg_dir := os_path_join pkg_bundle_dir (name pkg_settings) in
  _ <~ _prep_directories pkg_dir ;;
  etl_datasets (datasets pkg_settings) pudl_settings pkg_dir [].

End Coordinator.

(* ================================================================== *)
(** ** Test doubles: a restricted universe and quiet collaborators *)

Definition sample_pc : Constants := {|
  pudl_tables := fun k =>
    if String.eqb k "eia860" then ["plants_eia860"; "generators_eia860"]
    else if String.eqb k "eia923"
    then ["generation_fuel_eia923"; "boiler_fuel_eia923";
          "generation_eia923"]
    else if String.eqb k "ferc1" then ["fuel_ferc1"; "plants_steam_ferc1"]
    else [];
  eia860_pudl_tables := ["plants_eia860"; "generators_eia860"];
  eia923_pudl_tables :=
    ["generation_fuel_eia923"; "boiler_fuel_eia923"; "generation_eia923"];
  ferc1_pudl_tables := ["fuel_ferc1"; "plants_steam_ferc1"];
  working_years := fun k =>
    if String.eqb k "eia860" then [2016; 2017; 2018]
    else if String.eqb k "eia923" then [2016; 2017; 2018]
    else if String.eqb k "ferc1" then [2016; 2017; 2018]
    else if String.eqb k "epacems" then [2016; 2017; 2018]
    else [];
  cems_states := ["CO"; "ID"; "TX"];
  epacems_tables := "hourly_emissions_epacems"
|}.

(** Collaborators that return one table per requested source and a
    writer that accepts every call. *)
Definition sample_io : Collaborators := {|
  extract_eia923 := fun _ _ => Ok [("raw_eia923", VNone)];
  extract_eia860 := fun _ _ => Ok [("raw_eia860", VNone)];
  transform_eia923 := fun _ _ => Ok [("generation_eia923", VNone)];
  transform_eia860 := fun _ _ => Ok [("plants_eia860", VNone)];
  transform_eia := fun dfs _ _ => Ok ([("plants_entity_eia", VNone)], dfs);
  extract_ferc1 := fun _ _ _ _ => Ok [("raw_ferc1", VNone)];
  transform_ferc1 := fun _ _ => Ok [("fuel_ferc1", VNone)];
  extract_epacems := fun _ _ _ => Ok [Yield [("raw", VNone)]];
  transform_pkg_epacems := fun g _ => Ok g;
  extract_epaipm := fun _ _ => Ok [("raw_epaipm", VNone)];
  transform_epaipm := fun _ _ =>
    Ok [("transmission_single_epaipm", VNone)];
  glue_ferc1_eia := fun _ _ => Ok [("plants_pudl", VNone)];
  write_error := fun _ => None
|}.

Definition empty_world : world := {| open_sessions := []; log := [] |}.

(** Collaborators whose transformation yields three sub-chunks for a
    partition and raises on the second. *)
Definition failing_io : Collaborators := {|
  extract_eia923 := extract_eia923 sample_io;
  extract_eia860 := extract_eia860 sample_io;
  transform_eia923 := transform_eia923 sample_io;
  transform_eia860 := transform_eia860 sample_io;
  transform_eia := transform_eia sample_io;
  extract_ferc1 := extract_ferc1 sample_io;
  transform_ferc1 := transform_ferc1 sample_io;
  extract_epacems := extract_epacems sample_io;
  transform_pkg_epacems := fun _ _ =>
    Ok [Yield [("2018-01-CO", VInt 1)];
        Raise (RuntimeIOError "transform failed");
        Yield [("2018-03-CO", VInt 3)]];
  extract_epaipm := extract_epaipm sample_io;
  transform_epaipm := transform_epaipm sample_io;
  glue_ferc1_eia := glue_ferc1_eia sample_io;
  write_error := fun _ => None
|}.

(* ------------------------------------------------------------------ *)
(** *** Vocabulary of the statements *)

(** The world after the calls [evs] have been logged. *)
Definition logged (w : world) (evs : list event) : world :=
  {| open_sessions := open_sessions w; log := log w ++ evs |}.

Definition is_add (t : string) (ev : event) : Prop :=
  exists df, ev = SessionAdd t df.

(** The [add] calls that the sub-chunks [chunks] cause on table [t]. *)
Definition adds_of (t : string) (chunks : list dict) : list event :=
  flat_map (fun d => map (SessionAdd t) (map snd d)) chunks.

(** The message of the guard of [_validate_input_epacems]. *)
Definition no_partition_msg : string :=
  "No partition found for EPA CEMS. " ++
  "EPA CEMS requires either states or years as a partion".

(** [etl_params.get(k, False)]: a flag of the glue parameters after
    defaulting. *)
Definition flag (d : dict) (k : string) : pyval :=
  match lookup k d with Some v => v | None => VBool false end.

(** The physical table of one partition key of the emissions data. *)
Definition partition_table (part : pyval) : string :=
  "hourly_emissions_epacems_" ++ str part.

(** The table that a writer call is about. *)
Definition event_table (ev : event) : option string :=
  match ev with
  | SessionOpen t _ | SessionAdd t _ | SessionClose t => Some t
  | _ => None
  end.

(** The tables for which a session was opened, in order. *)
Fixpoint opened_tables (evs : list event) : list string :=
  match evs with
  | [] => []
  | SessionOpen t _ :: evs' => t :: opened_tables evs'
  | _ :: evs' => opened_tables evs'
  end.

(** What [_validate_input_epacems] returns: [None], or a dict of years,
    states and partition, all three truthy. *)
Definition epacems_shape (cfg : pyval) : Prop :=
  cfg = VNone \/
  exists ys sts p,
    cfg = VDict [("epacems_years", ys); ("epacems_states", sts);
                 ("partition", p)] /\
    truthy ys = true /\ truthy sts = true /\ truthy p = true.

(** The call [ev] is about the table of one of the keys [parts]. *)
Definition on_partition_of (parts : list pyval) (ev : event) : Prop :=
  exists part, In part parts /\ event_table ev = Some (partition_table part).

(** The names of the static tables of each kind that has some. *)
Definition static_eia : list string :=
  ["fuel_type_eia923"; "prime_movers_eia923"; "fuel_type_aer_eia923";
   "energy_source_eia923"; "transport_modes_eia923"].
Definition static_ferc : list string :=
  ["ferc_accounts"; "ferc_depreciation_lines"].
Definition static_epaipm : list string := ["regions_entity_epaipm"].

(** The adapter returned the names [statics] among its tables and wrote
    them under [label]. *)
Definition static_loaded (label : string) (statics : list string)
    (pkg_dir : string) (tbls : pyval) (w' : world) : Prop :=
  exists names,
    tbls = strs names /\ incl statics names /\
    In (DictDump label statics pkg_dir) (log w').

(** The run [rw] of an adapter from the world [w] began by dumping its
    static tables: the dump was refused and its error came out with
    nothing written, or the dump is the first call that the run logged
    and every list that the run returns holds the static names. *)
Definition static_materialized (io : Collaborators) (label : string)
    (statics : list string) (pkg_dir : string) (w : world)
    (rw : result pyval * world) : Prop :=
  (exists e,
      write_error io (DictDump label statics pkg_dir) = Some e /\
      rw = (Err e, w)) \/
  (exists evs,
      snd rw = logged w (DictDump label statics pkg_dir :: evs) /\
      forall tbls, fst rw = Ok tbls ->
                   static_loaded label statics pkg_dir tbls (snd rw)).

(** A package with FERC 1 years but an empty list of tables. *)
Definition ferc1_no_tables_pkg : package := {|
  name := "ferc1-static-only";
  title := "FERC 1";
  description := "years without tables";
  datasets :=
    [[("ferc1", VDict [("ferc1_years", ints [2018]);
                       ("ferc1_tables", VList [])])]]
|}.

(** Two packages with the same two dataset entries, in either order. *)
Definition glue_then_epaipm_pkg : package := {|
  name := "pkg";
  title := "Glue and IPM";
  description := "glue first";
  datasets := [[("glue", VDict [("ferc1", VBool true)])];
               [("epaipm", VDict [])]]
|}.

Definition epaipm_then_glue_pkg : package := {|
  name := "pkg";
  title := "Glue and IPM";
  description := "IPM first";
  datasets := [[("epaipm", VDict [])];
               [("glue", VDict [("ferc1", VBool true)])]]
|}.

(** The value of the field [k] of a raw configuration after defaulting. *)
Definition resolved (d : dict) (k : string) (dflt : pyval) : pyval :=
  match lookup k d with Some v => v | None => dflt end.

(** The four fields of the EIA validator after its two inferences. *)
Definition eia_companion_forced (d : dict) : bool :=
  negb (truthy (resolved d "eia923_years" (VList []))) &&
  truthy (resolved d "eia860_years" (VList [])).

Definition eia923_years_inferred (d : dict) : pyval :=
  if eia_companion_forced d then resolved d "eia860_years" (VList [])
  else resolved d "eia923_years" (VList []).

Definition eia923_tables_inferred (pc : Constants) (d : dict) : pyval :=
  if eia_companion_forced d
  then strs ["boiler_fuel_eia923"; "generation_eia923"]
  else resolved d "eia923_tables" (strs (pudl_tables pc "eia923")).

Definition eia860_years_inferred (d : dict) : pyval :=
  if negb (truthy (resolved d "eia860_years" (VList []))) &&
     truthy (eia923_years_inferred d)
  then eia923_years_inferred d
  else resolved d "eia860_years" (VList []).

(* ================================================================== *)
(** ** The years of the datastore command line ([pudl/datastore/cli.py]) *)

Section DatastoreCli.

(** [int(year)] on a command-line word, a built-in of Python: a number,
    or the exception that the conversion raises. *)
Variable py_int : string -> result Z.

(** [pc.data_years], a dict from a data source to its valid years. *)
Variable data_years : list (string * list Z).

Definition data_years_of (source : string) : result (list Z) :=
  match find (fun kv => String.eqb source (fst kv)) data_years with
  | Some kv => Ok (snd kv)
  | None => Err (KeyError source)
  end.

(** [[int(year) for year in years if int(year) in pc.data_years[source]]]
    with [keep_valid] true, and the same with [not in] with [keep_valid]
    false: the condition is evaluated first, then the element. *)
Fixpoint select_years (keep_valid : bool) (source : string)
    (years : list string) : result (list Z) :=
  match years with
  | [] => Ok []
  | year :: years' =>
      n <- py_int year ;;
      valid <- data_years_of source ;;
      if Bool.eqb (existsb (Z.eqb n) valid) keep_valid then
        n' <- py_int year ;;
        rest <- select_years keep_valid source years' ;;
        Ok (n' :: rest)
      else select_years keep_valid source years'
  end.

(** The loop [for source in args.sources] of [main]: the years to
    download for each source, and the warnings about ignored years,
    which are only made when [verbose] is set. *)
Fixpoint years_by_source_loop (verbose : bool) (years : list string)
    (sources : list string) (years_by_source : list (string * list Z))
    (warnings : list (string * list Z))
    : result (list (string * list Z) * list (string * list Z)) :=
  match sources with
  | [] => Ok (years_by_source, warnings)
  | source :: sources' =>
      let assign (v : list Z) :=
        if existsb (fun kv => String.eqb source (fst kv)) years_by_source
        then map (fun kv => if String.eqb source (fst kv)
                            then (source, v) else kv) years_by_source
        else (years_by_source ++ [(source, v)])%list in
      match years with
      | [] =>
          valid <- data_years_of source ;;
          years_by_source_loop verbose years sources' (assign valid) warnings
      | _ =>
          kept <- select_years true source years ;;
          bad_years <- select_years false source years ;;
          years_by_source_loop verbose years sources' (assign kept)
            (if verbose && negb (Nat.eqb (List.length bad_years) 0)
             then (warnings ++ [(source, bad_years)])%list else warnings)
      end
  end.

(** The years recorded for [source] are valid years of that source; with
    no year requested they are all its valid years, otherwise each of
    them was requested. *)
Definition years_ok (years : list string) (entry : string * list Z) : Prop :=
  exists valid,
    data_years_of (fst entry) = Ok valid /\
    incl (snd entry) valid /\
    (years = [] -> snd entry = valid) /\
    (years <> [] ->
     forall n, In n (snd entry) -> exists y, In y years /\ py_int y = Ok n).

End DatastoreCli.

(** A stand-in for [int]: decimal numerals only. *)
Definition decimal_int (s : string) : result Z :=
  match NilZero.int_of_string s with
  | Some i => Ok (Z.of_int i)
  | None => Err TypeError
  end.

(* ------------------------------------------------------------------ *)
(** *** The writer's protocol *)

(** The protocol of the bulk-copy sessions, run over a log from the
    session state [st] ([None]: no session is open): a session is opened
    only when none is open, chunks are added only to the open session,
    only the open session is closed, and bulk dumps and directory resets
    happen outside sessions.  [None] as a result: the log breaks the
    protocol. *)
Fixpoint sessions_after (st : option string) (evs : list event)
    : option (option string) :=
  match evs with
  | [] => Some st
  | ev :: evs' =>
      match ev, st with
      | SessionOpen t _, None => sessions_after (Some t) evs'
      | SessionAdd t _, Some t' =>
          if String.eqb t t' then sessions_after st evs' else None
      | SessionClose t, Some t' =>
          if String.eqb t t' then sessions_after None evs' else None
      | PrepDir _, None => sessions_after None evs'
      | DictDump _ _ _, None => sessions_after None evs'
      | _, _ => None
      end
  end.

(** The call [ev] writes below [pkg_dir], and is no directory reset. *)
Definition writes_in (pkg_dir : string) (ev : event) : Prop :=
  match ev with
  | PrepDir _ => False
  | DictDump _ _ p => p = pkg_dir
  | SessionOpen _ p => p = pkg_dir
  | SessionAdd _ _ => True
  | SessionClose _ => True
  end.

(** A computation that only appends to the log, all its calls writing
    below [pkg_dir], and that leaves no session open, whether it returns
    or raises. *)
Definition disciplined {A} (pkg_dir : string) (m : M A) : Prop :=
  forall w, exists evs,
    snd (m w) = logged w evs /\
    sessions_after None evs = Some None /\
    Forall (writes_in pkg_dir) evs.





(** The five dataset kinds that the coordinator dispatches on. *)
Definition known_dataset (dataset : string) : bool :=
  existsb (String.eqb dataset) ["eia"; "ferc1"; "epacems"; "glue"; "epaipm"].

(** A dataset entry of a validated package: one kind with truthy
    parameters. *)
Definition validated_entry (ds : dict) : Prop :=
  exists k v, ds = [(k, v)] /\ known_dataset k = true /\ truthy v = true.

(** The keys of all dataset entries of a bundle. *)
Definition bundle_kinds (pkgs : list package) : list string :=
  flat_map (fun pkg => flat_map keys (datasets pkg)) pkgs.

(** A package whose two datasets are both not requested, and a package
    with a dataset kind that does not exist. *)
Definition nothing_requested_pkg : package := {|
  name := "nothing";
  title := "Nothing";
  description := "no years and no flags";
  datasets := [[("eia", VDict [])]; [("glue", VDict [("eia", VBool false)])]]
|}.

Definition unknown_kind_pkg : package := {|
  name := "unknown";
  title := "Unknown";
  description := "a kind that does not exist";
  datasets := [[("eia861", VDict [])]; [("epaipm", VDict [])]]
|}.

(** The states of the emissions validator after the expansion of
    ['all']: the first requested state decides, whatever its case. *)
Definition epacems_states_expanded (pc : Constants) (d : dict)
    : result pyval :=
  let sts := resolved d "epacems_states" (VList []) in
  if truthy sts then
    s0 <- getitem0 sts ;;
    l <- lower s0 ;;
    if String.eqb l "all" then Ok (strs (cems_states pc)) else Ok sts
  else Ok sts.

(* ------------------------------------------------------------------ *)
(** *** Proof steps *)

(** One stage of a validator: it raises, or the next stage runs. *)
Ltac raise_or_continue :=
  match goal with
  | |- exists e, rbind ?r _ = Err e =>
      destruct r; cbn [rbind]; [|eexists; reflexivity]
  end.

(** One stage of a validator that returned: the stage did not raise. *)
Ltac returned_step H :=
  match type of H with
  | rbind ?r _ = Ok _ =>
      destruct r; cbn [rbind] in H; [|discriminate H]
  end.

(** The same for a validator that may return its skip signal. *)
Ltac skip_or_continue :=
  match goal with
  | |- rbind ?r _ = Ok _ \/ (exists e, rbind ?r _ = Err e) =>
      destruct r; cbn [rbind]; [|right; eexists; reflexivity]
  end.

(* ================================================================== *)
(** * Properties *)

(** ** The scoped writer session of the emissions adapter *)

Section SessionDiscipline.

Variable io : Collaborators.

Lemma logged_nil w : logged w [] = w.
Proof. destruct w; unfold logged; simpl. now rewrite app_nil_r. Qed.

Lemma logged_app w evs evs' :
  logged (logged w evs) evs' = logged w (evs ++ evs').
Proof. unfold logged; simpl. now rewrite app_assoc. Qed.

Lemma emit_cases ev w :
  emit io ev w = (Ok tt, logged w [ev]) \/
  exists e, emit io ev w = (Err e, w).
Proof.
  unfold emit. destruct (write_error io ev) as [e|]; [right; eauto | now left].
Qed.

(** Appending the sub-chunks of one dict only adds to the log. *)
Lemma add_chunk_frame t (dfs : list pyval) w :
  exists r adds,
    for_eachM dfs (loader_add io t) w = (r, logged w adds) /\
    Forall (is_add t) adds.
Proof.
  revert w. induction dfs as [|df dfs IH]; intros w; simpl.
  - exists (Ok tt), []. now rewrite logged_nil.
  - unfold bind.
    change (loader_add io t df w) with (emit io (SessionAdd t df) w).
    destruct (emit_cases (SessionAdd t df) w) as [H | [e H]]; rewrite H.
    + destruct (IH (logged w [SessionAdd t df])) as (r & adds & Hr & Ha).
      exists r, (SessionAdd t df :: adds). rewrite Hr, logged_app. split.
      * reflexivity.
      * constructor; [now exists df | assumption].
    + exists (Err e), []. now rewrite logged_nil.
Qed.

(** So does the whole body of the [with] block. *)
Lemma body_frame t (g : generator dict) w :
  exists r adds,
    for_gen g (fun d => for_eachM (map snd d) (loader_add io t)) w
      = (r, logged w adds) /\
    Forall (is_add t) adds.
Proof.
  revert w. induction g as [|[d|e] g IH]; intros w; simpl.
  - exists (Ok tt), []. now rewrite logged_nil.
  - unfold bind.
    destruct (add_chunk_frame t (map snd d) w) as (r & adds & Hr & Ha).
    rewrite Hr. destruct r as [u|e].
    + destruct (IH (logged w adds)) as (r' & adds' & Hr' & Ha').
      exists r', (adds ++ adds')%list. rewrite Hr', logged_app. split.
      * reflexivity.
      * now apply Forall_app.
    + now exists (Err e), adds.
  - exists (Err e), []. unfold raise. now rewrite logged_nil.
Qed.

Hypothesis writer_accepts : forall ev, write_error io ev = None.

Lemma emit_accepted ev w : emit io ev w = (Ok tt, logged w [ev]).
Proof. unfold emit. now rewrite writer_accepts. Qed.

Lemma add_chunk_accepted t (dfs : list pyval) w :
  for_eachM dfs (loader_add io t) w
    = (Ok tt, logged w (map (SessionAdd t) dfs)).
Proof.
  revert w. induction dfs as [|df dfs IH]; intros w; simpl.
  - unfold ret. now rewrite logged_nil.
  - unfold bind.
    change (loader_add io t df w) with (emit io (SessionAdd t df) w).
    rewrite emit_accepted, IH, logged_app. reflexivity.
Qed.

(** A generator that raises after the sub-chunks [pre]: they have been
    appended, the exception comes out. *)
Lemma body_raises t (pre : list dict) e (post : generator dict) w :
  for_gen (map Yield pre ++ Raise e :: post)%list
    (fun d => for_eachM (map snd d) (loader_add io t)) w
    = (Err e, logged w (adds_of t pre)).
Proof.
  revert w. induction pre as [|d pre IH]; intros w; simpl.
  - unfold raise. now rewrite logged_nil.
  - unfold bind. rewrite add_chunk_accepted, IH, logged_app. reflexivity.
Qed.

End SessionDiscipline.

(** C1.  For every partition key handed to [_etl_epacems_part], the
    bulk-copy session opened for that partition's table is released on
    every path: the set of open sessions is the same after the call as
    before it, whatever the outcome, and whenever the session was opened
    the log is [SessionOpen], only [add] calls, then [SessionClose].  In
    particular, when the transformation generator yields some sub-chunks
    and then raises [e], the adapter ends with [Err e] after the session
    was closed. *)
Theorem etl_epacems_part_releases_session :
  forall (io : Collaborators) (part years states data_dir : pyval)
         (pkg_dir : string) (w : world),
    let t := "hourly_emissions_epacems_" ++ str part in
    let rw := _etl_epacems_part io part years states data_dir pkg_dir w in
    open_sessions (snd rw) = open_sessions w /\
    (log (snd rw) = log w \/
     exists adds, Forall (is_add t) adds /\
       log (snd rw)
         = (log w ++ SessionOpen t pkg_dir :: adds ++ [SessionClose t])%list)
    /\
    (forall raw pre e post,
        extract_epacems io (VList [part]) states data_dir = Ok raw ->
        transform_pkg_epacems io raw pkg_dir
          = Ok (map Yield pre ++ Raise e :: post)%list ->
        (forall ev, write_error io ev = None) ->
        rw = (Err e,
              {| open_sessions := open_sessions w;
                 log := (log w ++ SessionOpen t pkg_dir
                           :: adds_of t pre ++ [SessionClose t])%list |})).
Proof.
  intros io part years states data_dir pkg_dir w t rw.
  subst rw. unfold _etl_epacems_part, bind, lift. fold t.
  destruct (extract_epacems io (VList [part]) states data_dir)
    as [raw|e0] eqn:Hx; simpl.
  2:{ repeat split; auto. intros; discriminate. }
  destruct (transform_pkg_epacems io raw pkg_dir) as [g|e0] eqn:Ht; simpl.
  2:{ repeat split; auto. intros raw' pre e post Hr. inversion Hr; subst.
      rewrite Ht. discriminate. }
  unfold with_BulkCopyPkg.
  destruct (write_error io (SessionOpen t pkg_dir)) as [e0|] eqn:Ho.
  { simpl. repeat split; auto. intros raw' pre e post _ _ Hw.
    rewrite Hw in Ho. discriminate. }
  set (w1 := {| open_sessions := t :: open_sessions w;
                log := (log w ++ [SessionOpen t pkg_dir])%list |}).
  change (for_gen g _ w1)
    with (for_gen g (fun d => for_eachM (map snd d) (loader_add io t)) w1).
  split; [|split].
  - destruct (body_frame io t g w1) as (r & adds & Hr & _).
    rewrite Hr. simpl. destruct r; simpl; now rewrite String.eqb_refl.
  - right. destruct (body_frame io t g w1) as (r & adds & Hr & Ha).
    rewrite Hr. exists adds. split; [assumption|].
    destruct r; simpl; rewrite <- !app_assoc; reflexivity.
  - intros raw' pre e post Hr Hg Hw. inversion Hr; subst raw'.
    rewrite Ht in Hg. inversion Hg; subst g.
    rewrite (body_raises io Hw). simpl. rewrite String.eqb_refl.
    rewrite <- !app_assoc. reflexivity.
Qed.

Lemma etl_epacems_part_releases_session_witness :
  _etl_epacems_part failing_io (VInt 2018) (ints [2018]) (strs ["CO"])
    (VStr "data") "pkg" empty_world
  = (Err (RuntimeIOError "transform failed"),
     {| open_sessions := [];
        log := [SessionOpen "hourly_emissions_epacems_2018" "pkg";
                SessionAdd "hourly_emissions_epacems_2018" (VInt 1);
                SessionClose "hourly_emissions_epacems_2018"] |}).
Proof.
  apply (proj2 (proj2 (etl_epacems_part_releases_session failing_io
                         (VInt 2018) (ints [2018]) (strs ["CO"])
                         (VStr "data") "pkg" empty_world))
           [Yield [("raw", VNone)]]
           [[("2018-01-CO", VInt 1)]]
           (RuntimeIOError "transform failed")
           [Yield [("2018-03-CO", VInt 3)]]);
    reflexivity.
Defined.

(** ** Facts about the Python primitives *)

Lemma get_or_dict (d : dict) (k : string) (dflt : pyval) :
  get_or (VDict d) k dflt
  = Ok (match lookup k d with Some v => v | None => dflt end).
Proof. unfold get_or, getitem. now destruct (lookup k d). Qed.

Lemma mem_strs (s : string) (l : list string) :
  In s l -> mem (VStr s) (map VStr l) = true.
Proof.
  unfold mem. intros H. apply existsb_exists. exists (VStr s). split.
  - now apply in_map.
  - simpl. apply String.eqb_refl.
Qed.

Lemma mem_ints (z : Z) (l : list Z) :
  In z l -> mem (VInt z) (map VInt l) = true.
Proof.
  unfold mem. intros H. apply existsb_exists. exists (VInt z). split.
  - now apply in_map.
  - simpl. apply Z.eqb_refl.
Qed.

Lemma check_members_strs (l universe : list string) (msg tail : string) :
  incl l universe ->
  check_members (map VStr l) (map VStr universe) msg tail = Ok tt.
Proof.
  unfold check_members. induction l as [|s l IH]; intros H; simpl.
  - reflexivity.
  - rewrite mem_strs by (apply H; now left). simpl.
    apply IH. intros x Hx. apply H. now right.
Qed.

Lemma check_members_ints (l universe : list Z) (msg tail : string) :
  incl l universe ->
  check_members (map VInt l) (map VInt universe) msg tail = Ok tt.
Proof.
  unfold check_members. induction l as [|z l IH]; intros H; simpl.
  - reflexivity.
  - rewrite mem_ints by (apply H; now left). simpl.
    apply IH. intros x Hx. apply H. now right.
Qed.

Lemma checked_tables_strs (l universe : list string) (msg tail : string) :
  incl l universe ->
  (if truthy (strs l)
   then ts <- iter (strs l) ;;
        check_members ts (map VStr universe) msg tail
   else Ok tt) = Ok tt.
Proof.
  intros H. destruct (truthy (strs l)); [|reflexivity]. simpl.
  now apply check_members_strs.
Qed.

(** ** The partition of the emissions validator *)

(** C3 (the code at the failing input).  With years and states given
    and no ['partition'] entry at all, so that no partition dimension can
    be resolved, [_validate_input_epacems] raises nothing: it returns a
    populated config whose partition is [{'partition': None}]. *)
Theorem validate_input_epacems_without_partition :
  forall pc : Constants,
    _validate_input_epacems pc
      (VDict [("epacems_years", ints [2018]);
              ("epacems_states", strs ["CO"])])
    = Ok (VDict [("epacems_years", ints [2018]);
                 ("epacems_states", strs ["CO"]);
                 ("partition", VDict [("partition", VNone)])]).
Proof. intros pc. reflexivity. Qed.

Lemma dict_set_nonempty k v d : dict_set k v d <> [].
Proof.
  destruct d as [|[k' v'] d]; simpl; [discriminate|].
  destruct (String.eqb k k'); discriminate.
Qed.

Lemma setitem_truthy obj k v r :
  setitem obj k v = Ok r -> exists d, r = VDict d /\ d <> [].
Proof.
  destruct obj; simpl; try discriminate. intros H. inversion H.
  eexists. split; [reflexivity | apply dict_set_nonempty].
Qed.

Lemma nonempty_dict_truthy r :
  (exists d, r = VDict d /\ d <> []) -> truthy r = true.
Proof. intros (d & -> & H). destruct d; [contradiction | reflexivity]. Qed.

(** What the body of the loop of [_validate_input_partition] can raise. *)
Lemma partition_body_error (partition_dict etl_params_og : pyval)
    (table : string) (e : exn) :
  (p <- getitem partition_dict table ;;
   ks <- match etl_params_og with
         | VDict d => Ok d
         | _ => Err AttributeError
         end ;;
   b <- in_keys p ks ;;
   if negb b then Err (AssertionError "Partion not recognized")
   else Ok tt) = Err e ->
  e = TypeError \/ e = AttributeError \/ e = KeyError table \/
  e = AssertionError "Partion not recognized".
Proof.
  unfold getitem. destruct partition_dict; simpl;
    try (intros H; inversion H; auto).
  clear H. revert H1. destruct (lookup table d) as [p|]; simpl.
  2:{ intros H; inversion H; auto. }
  destruct etl_params_og; simpl; try (intros H; inversion H; tauto).
  destruct p; simpl; try (intros H; inversion H; tauto).
  destruct (has_key s d0); simpl; intros H; inversion H; tauto.
Qed.

Lemma for_each_error {A} (xs : list A) (body : A -> result unit) e :
  for_each xs body = Err e -> exists x, In x xs /\ body x = Err e.
Proof.
  induction xs as [|x xs IH]; simpl; [discriminate|].
  destruct (body x) as [u|e'] eqn:Hb; simpl.
  - intros H. destruct (IH H) as (y & Hy & Hby). exists y. auto.
  - intros H. inversion H; subst. exists x. auto.
Qed.

Lemma for_each_head {A} (x : A) (xs : list A) (body : A -> result unit) :
  for_each (x :: xs) body = Ok tt -> body x = Ok tt.
Proof. simpl. destruct (body x) as [u|]; [now destruct u | discriminate]. Qed.

(** With at least one table to look up, a result of
    [_validate_input_partition] is a non-empty dict. *)
Lemma partition_result_nonempty (etl_params_og : pyval)
    (tables : list string) (r : pyval) :
  tables <> [] ->
  _validate_input_partition etl_params_og tables = Ok r ->
  exists d, r = VDict d /\ d <> [].
Proof.
  intros Hne. unfold _validate_input_partition.
  destruct (getitem etl_params_og "partition") as [pd|e] eqn:Hp.
  - destruct (for_each tables _) as [u|e] eqn:Hl.
    + destruct u. intros H. inversion H; subst r.
      destruct tables as [|t ts]; [contradiction|].
      apply for_each_head in Hl. unfold getitem in Hl.
      destruct pd; simpl in Hl; try discriminate.
      exists d. split; [reflexivity|]. intros ->. discriminate.
    + destruct e; try discriminate. apply setitem_truthy.
  - destruct e; try discriminate. apply setitem_truthy.
Qed.

Lemma partition_errors (etl_params_og : pyval) (tables : list string)
    (e : exn) :
  _validate_input_partition etl_params_og tables = Err e ->
  e = TypeError \/ e = AttributeError \/
  e = AssertionError "Partion not recognized".
Proof.
  unfold _validate_input_partition.
  destruct (getitem etl_params_og "partition") as [pd|e0] eqn:Hp.
  - destruct (for_each tables _) as [u|e0] eqn:Hl; [discriminate|].
    apply for_each_error in Hl. destruct Hl as (t & _ & Hb).
    apply partition_body_error in Hb.
    destruct Hb as [-> | [-> | [-> | ->]]]; try (intros H; inversion H; tauto).
    destruct pd; simpl; intros H; inversion H; tauto.
  - unfold getitem in Hp. destruct etl_params_og; try (inversion Hp; subst);
      try (intros H; inversion H; tauto).
    destruct (lookup "partition" d); inversion Hp; subst. discriminate.
Qed.

Lemma lookup_dict_set_same k v d : lookup k (dict_set k v d) = Some v.
Proof.
  induction d as [|[k' v'] d IH]; simpl.
  - now rewrite String.eqb_refl.
  - destruct (String.eqb k k') eqn:E; simpl.
    + now rewrite String.eqb_refl.
    + now rewrite E.
Qed.

(** The guard on the partition in [_validate_input_epacems] never
    fires. *)
Lemma no_partition_branch_dead (pc : Constants) (etl_params : pyval) :
  _validate_input_epacems pc etl_params
    <> Err (AssertionError no_partition_msg).
Proof.
  unfold _validate_input_epacems.
  destruct etl_params as [| | | | |d]; try (simpl; discriminate).
  rewrite !get_or_dict. simpl.
  set (ys := match lookup "epacems_years" d with
             | Some v => v | None => VList [VNone] end).
  set (sts := match lookup "epacems_states" d with
              | Some v => v | None => VList [] end).
  assert (Hpart : forall rest : pyval -> result pyval,
    (forall p, rest p <> Err (AssertionError no_partition_msg)) ->
    (p <- _validate_input_partition (VDict d) [epacems_tables pc] ;;
     _ <- (if negb (truthy p)
           then Err (AssertionError no_partition_msg) else Ok tt) ;;
     rest p) <> Err (AssertionError no_partition_msg)).
  { intros rest Hrest.
    destruct (_validate_input_partition (VDict d) [epacems_tables pc])
      as [p|e] eqn:Hp; simpl.
    - assert (Ht : truthy p = true).
      { apply nonempty_dict_truthy.
        eapply partition_result_nonempty; [|eassumption]. discriminate. }
      rewrite Ht. simpl. apply Hrest.
    - apply partition_errors in Hp.
      destruct Hp as [-> | [-> | ->]]; discriminate. }
  assert (Hend : forall (b : bool) (cfg : pyval),
    (if b then Ok VNone else Ok cfg)
      <> Err (AssertionError no_partition_msg)).
  { intros [] cfg; discriminate. }
  destruct (truthy sts) eqn:Hsts; simpl.
  2:{ apply Hpart. intros p. apply Hend. }
  destruct (getitem0 sts) as [s0|e] eqn:H0; simpl.
  - destruct (lower s0) as [l|e] eqn:Hlow; simpl.
    + destruct (String.eqb l "all"); simpl.
      * apply Hpart. intros p. apply Hend.
      * apply Hpart. intros p. apply Hend.
    + destruct s0; inversion Hlow; discriminate.
  - clear Hsts. destruct sts as [| | |s|l|c]; simpl in H0;
      try (inversion H0; discriminate).
    + destruct s; inversion H0; discriminate.
    + destruct l; inversion H0; discriminate.
Qed.

(** C10 (amended).  When [_validate_input_partition] is called with at
    least one table, as [_validate_input_epacems] calls it, and returns
    without raising, its result is a non-empty dict; without a
    ['partition'] entry in the raw configuration it returns
    [{'partition': None}]; and for every input the guard of
    [_validate_input_epacems] on that result never fires: the
    "No partition found for EPA CEMS" error is never raised. *)
Theorem validate_input_partition_result_truthy :
  (forall (etl_params_og : pyval) (tables : list string) (r : pyval),
      tables <> [] ->
      _validate_input_partition etl_params_og tables = Ok r ->
      (exists d, r = VDict d /\ d <> []) /\ truthy r = true) /\
  (forall (d : dict) (tables : list string),
      lookup "partition" d = None ->
      _validate_input_partition (VDict d) tables
        = Ok (VDict [("partition", VNone)])) /\
  (forall (pc : Constants) (etl_params : pyval),
      _validate_input_epacems pc etl_params
        <> Err (AssertionError no_partition_msg)).
Proof.
  split; [|split].
  - intros etl_params_og tables r Hne H.
    pose proof (@partition_result_nonempty _ _ _ Hne H) as Hd.
    split; [exact Hd | now apply nonempty_dict_truthy].
  - intros d tables Hl. unfold _validate_input_partition, getitem.
    rewrite Hl. reflexivity.
  - apply no_partition_branch_dead.
Qed.

Lemma validate_input_partition_result_truthy_witness :
  exists d,
    VDict [("hourly_emissions_epacems", VStr "epacems_years")] = VDict d /\
    d <> [].
Proof.
  apply (proj1 (proj1 validate_input_partition_result_truthy
    (VDict [("epacems_years", ints [2018]);
            ("partition",
             VDict [("hourly_emissions_epacems", VStr "epacems_years")])])
    ["hourly_emissions_epacems"]
    (VDict [("hourly_emissions_epacems", VStr "epacems_years")])
    ltac:(discriminate) eq_refl)).
Defined.

(** C10 as stated fails when no table is looked up: with an empty list
    of tables and an empty ['partition'] entry the function returns the
    empty dict, which is falsy. *)
Lemma validate_input_partition_empty_result :
  _validate_input_partition (VDict [("partition", VDict [])]) []
    = Ok (VDict []) /\
  truthy (VDict []) = false.
Proof. split; reflexivity. Qed.

(** ** The glue adapter *)

(** C4 (the code at the failing inputs).  Whenever both flags of the
    glue parameters are false after defaulting, [_validate_input_glue]
    returns the empty dict and [_etl_glue] raises [KeyError('ferc1')] by
    indexing it: it neither returns an empty collection nor reaches its
    own guard, and nothing is written. *)
Theorem etl_glue_both_flags_false_raises :
  forall (io : Collaborators) (d : dict) (pkg_dir : string) (w : world),
    truthy (flag d "ferc1") = false ->
    truthy (flag d "eia") = false ->
    _validate_input_glue (VDict d) = Ok (VDict []) /\
    _etl_glue io (VDict d) pkg_dir w = (Err (KeyError "ferc1"), w).
Proof.
  intros io d pkg_dir w Hf He.
  assert (Hv : _validate_input_glue (VDict d) = Ok (VDict [])).
  { unfold _validate_input_glue. rewrite !get_or_dict. simpl.
    fold (flag d "ferc1") (flag d "eia"). now rewrite Hf, He. }
  split; [exact Hv|].
  unfold _etl_glue, bind, lift. now rewrite Hv.
Qed.

Lemma etl_glue_both_flags_false_raises_witness :
  _validate_input_glue (VDict [("ferc1", VBool false); ("eia", VBool false)])
    = Ok (VDict []) /\
  _etl_glue sample_io (VDict [("ferc1", VBool false); ("eia", VBool false)])
    "pkg" empty_world
    = (Err (KeyError "ferc1"), empty_world).
Proof.
  apply (etl_glue_both_flags_false_raises sample_io
           [("ferc1", VBool false); ("eia", VBool false)] "pkg" empty_world);
    reflexivity.
Defined.

(** ** The emissions adapter *)

Lemma epacems_tail_shape (pc : Constants) (etl_params ys sts cfg : pyval) :
  (p <- _validate_input_partition etl_params [epacems_tables pc] ;;
   _ <- (if negb (truthy p)
         then Err (AssertionError no_partition_msg) else Ok tt) ;;
   if negb (truthy ys) || negb (truthy sts) then Ok VNone
   else Ok (VDict [("epacems_years", ys); ("epacems_states", sts);
                   ("partition", p)])) = Ok cfg ->
  epacems_shape cfg.
Proof.
  destruct (_validate_input_partition etl_params [epacems_tables pc])
    as [p|e] eqn:Hp; simpl; [|discriminate].
  assert (Ht : truthy p = true).
  { apply nonempty_dict_truthy.
    eapply partition_result_nonempty; [|eassumption]. discriminate. }
  rewrite Ht. simpl.
  destruct (truthy ys) eqn:Hy, (truthy sts) eqn:Hs; simpl;
    intros H; inversion H; subst; try (now left).
  right. exists ys, sts, p. auto.
Qed.

Lemma validate_input_epacems_shape (pc : Constants) (etl_params cfg : pyval) :
  _validate_input_epacems pc etl_params = Ok cfg -> epacems_shape cfg.
Proof.
  unfold _validate_input_epacems.
  destruct etl_params as [| | | | |d]; try (simpl; discriminate).
  rewrite !get_or_dict. simpl.
  set (ys := match lookup "epacems_years" d with
             | Some v => v | None => VList [VNone] end).
  set (sts := match lookup "epacems_states" d with
              | Some v => v | None => VList [] end).
  destruct (truthy sts) eqn:Hsts; simpl.
  2:{ exact (@epacems_tail_shape pc (VDict d) ys sts cfg). }
  destruct (getitem0 sts) as [s0|e]; simpl; [|discriminate].
  destruct (lower s0) as [l|e]; simpl; [|discriminate].
  destruct (String.eqb l "all"); simpl.
  - exact (@epacems_tail_shape pc (VDict d) ys (strs (cems_states pc)) cfg).
  - exact (@epacems_tail_shape pc (VDict d) ys sts cfg).
Qed.

Lemma opened_tables_app (a b : list event) :
  opened_tables (a ++ b) = (opened_tables a ++ opened_tables b)%list.
Proof.
  induction a as [|ev a IH]; simpl; [reflexivity|].
  destruct ev; simpl; now rewrite ?IH.
Qed.

Lemma opened_tables_adds (t : string) (adds : list event) :
  Forall (is_add t) adds -> opened_tables adds = [].
Proof.
  induction 1 as [|ev adds [df ->] _ IH]; simpl; [reflexivity | exact IH].
Qed.

Lemma partition_table_not_aggregate (part : pyval) :
  partition_table part <> "hourly_emissions_epacems".
Proof. unfold partition_table. simpl. discriminate. Qed.

(** A successful call of [_etl_epacems_part] opened the table of its
    partition, appended to it, and closed it. *)
Lemma etl_epacems_part_ok (io : Collaborators)
    (part ys sts data_dir : pyval) (pkg_dir : string) (w w' : world)
    (t' : string) :
  _etl_epacems_part io part ys sts data_dir pkg_dir w = (Ok t', w') ->
  t' = partition_table part /\
  exists adds,
    Forall (is_add (partition_table part)) adds /\
    w' = logged w (SessionOpen (partition_table part) pkg_dir
                     :: adds ++ [SessionClose (partition_table part)]).
Proof.
  unfold _etl_epacems_part, bind, lift. fold (partition_table part).
  set (t := partition_table part).
  destruct (extract_epacems io (VList [part]) sts data_dir) as [raw|e];
    [|discriminate].
  destruct (transform_pkg_epacems io raw pkg_dir) as [g|e]; [|discriminate].
  unfold with_BulkCopyPkg.
  destruct (write_error io (SessionOpen t pkg_dir)); [discriminate|].
  set (w1 := {| open_sessions := t :: open_sessions w;
                log := (log w ++ [SessionOpen t pkg_dir])%list |}).
  change (for_gen g _ w1)
    with (for_gen g (fun d => for_eachM (map snd d) (loader_add io t)) w1).
  destruct (body_frame io t g w1) as (r & adds & Hr & Ha). rewrite Hr.
  destruct r as [u|e]; [|discriminate].
  unfold ret. intros H. inversion H; subst. split; [reflexivity|].
  exists adds. split; [assumption|].
  unfold logged. simpl. rewrite String.eqb_refl.
  rewrite <- !app_assoc. reflexivity.
Qed.

(** A successful loop over the partition keys opened one session per
    key, in order, each on the table named after its key. *)
Lemma epacems_parts_ok (io : Collaborators) (parts : list pyval) :
  forall (ys sts data_dir : pyval) (pkg_dir : string) (w w' : world),
    epacems_parts io parts ys sts data_dir pkg_dir w = (Ok tt, w') ->
    exists evs,
      w' = logged w evs /\
      opened_tables evs = map partition_table parts /\
      Forall (on_partition_of parts) evs.
Proof.
  induction parts as [|part parts IH]; intros ys sts data_dir pkg_dir w w'.
  - simpl. unfold ret. intros H. inversion H; subst.
    exists []. rewrite logged_nil. repeat split. constructor.
  - simpl. unfold bind at 1, lift.
    destruct (contains ys part) as [iy|e]; [|discriminate].
    unfold bind at 1.
    destruct (contains sts part) as [ist|e]; [|discriminate].
    unfold bind at 1.
    destruct (_etl_epacems_part io part _ _ data_dir pkg_dir w)
      as [[t'|e] w1] eqn:Hp; [|discriminate].
    apply etl_epacems_part_ok in Hp. destruct Hp as (_ & adds & Ha & ->).
    intros H. apply IH in H. destruct H as (evs & -> & Ho & Hf).
    eexists. rewrite logged_app. split; [reflexivity|]. split.
    + simpl. rewrite !opened_tables_app, (opened_tables_adds Ha). simpl.
      now rewrite Ho.
    + assert (Hpart : forall ev, event_table ev = Some (partition_table part)
                        -> on_partition_of (part :: parts) ev).
      { intros ev Hev. exists part. split; [now left | assumption]. }
      constructor; [now apply Hpart|].
      apply Forall_app. split; [apply Forall_app; split|].
      * eapply Forall_impl; [|exact Ha]. intros ev [df ->]. now apply Hpart.
      * constructor; [now apply Hpart | constructor].
      * eapply Forall_impl; [|exact Hf].
        intros ev (p & Hin & Hev). exists p. split; [now right | assumption].
Qed.

Lemma iter_truthy_nonempty (v : pyval) (items : list pyval) :
  truthy v = true -> iter v = Ok items -> items <> [].
Proof.
  destruct v as [| | |s|l|d]; simpl; try discriminate.
  - destruct s; [discriminate|]. intros _ H. inversion H. discriminate.
  - destruct l; [discriminate|]. intros _ H. inversion H. discriminate.
  - destruct d; [discriminate|]. intros _ H. inversion H. discriminate.
Qed.

Lemma index_validated_epacems (ys sts p k v : pyval) :
  index (VDict [("epacems_years", ys); ("epacems_states", sts);
                ("partition", p)]) k = Ok v ->
  v = ys \/ v = sts \/ v = p.
Proof.
  destruct k as [|b|z|s|l|d]; simpl; try discriminate.
  destruct (String.eqb s "epacems_years"); [intros H; inversion H; auto|].
  destruct (String.eqb s "epacems_states"); [intros H; inversion H; auto|].
  destruct (String.eqb s "partition"); [intros H; inversion H; auto|].
  discriminate.
Qed.

(** C7.  Every run of [_etl_epacems_pkg] that returns reports exactly
    [['hourly_emissions_epacems']]; it went through a non-empty list of
    partition keys, and every session it opened, one per key and in
    order, and every call of the writer was on the per-partition table
    [hourly_emissions_epacems_<part>] of a key, never on the table it
    reports. *)
Theorem etl_epacems_pkg_reports_aggregate_name :
  forall (pc : Constants) (io : Collaborators) (etl_params data_dir : pyval)
         (pkg_dir : string) (w w' : world) (tbls : pyval),
    _etl_epacems_pkg pc io etl_params data_dir pkg_dir w = (Ok tbls, w') ->
    tbls = VList [VStr "hourly_emissions_epacems"] /\
    exists parts evs,
      parts <> [] /\
      w' = logged w evs /\
      opened_tables evs = map partition_table parts /\
      Forall (on_partition_of parts) evs /\
      ~ In "hourly_emissions_epacems" (opened_tables evs).
Proof.
  intros pc io etl_params data_dir pkg_dir w w' tbls.
  unfold _etl_epacems_pkg, bind, lift.
  destruct (_validate_input_epacems pc etl_params) as [cfg|e] eqn:Hv;
    [|discriminate].
  apply validate_input_epacems_shape in Hv.
  destruct Hv as [-> | (ys & sts & p & -> & Hy & Hs & Hp)];
    [simpl; discriminate|].
  simpl getitem. cbv iota beta. rewrite Hy, Hs.
  change (negb true || negb true) with false. cbv iota beta.
  destruct (getitem p (epacems_tables pc)) as [dimension|e]; [|discriminate].
  destruct (index _ dimension) as [parts_obj|e] eqn:Hi; [|discriminate].
  destruct (iter parts_obj) as [parts|e] eqn:Hit; [|discriminate].
  destruct (epacems_parts io parts ys sts data_dir pkg_dir w)
    as [[u|e] w1] eqn:Hl; [|discriminate].
  unfold ret. intros H. inversion H; subst. split; [reflexivity|].
  destruct u. apply epacems_parts_ok in Hl.
  destruct Hl as (evs & -> & Ho & Hf).
  exists parts, evs. repeat split; try assumption.
  - apply index_validated_epacems in Hi.
    destruct Hi as [-> | [-> | ->]];
      (eapply iter_truthy_nonempty; [|eassumption]; assumption).
  - rewrite Ho. intros Hin. apply in_map_iff in Hin.
    destruct Hin as (part & Hpt & _).
    now apply partition_table_not_aggregate in Hpt.
Qed.

Lemma etl_epacems_pkg_reports_aggregate_name_witness :
  VList [VStr "hourly_emissions_epacems"]
    = VList [VStr "hourly_emissions_epacems"] /\
  exists parts evs,
    parts <> [] /\
    {| open_sessions := [];
       log := [SessionOpen "hourly_emissions_epacems_2017" "pkg";
               SessionAdd "hourly_emissions_epacems_2017" VNone;
               SessionClose "hourly_emissions_epacems_2017";
               SessionOpen "hourly_emissions_epacems_2018" "pkg";
               SessionAdd "hourly_emissions_epacems_2018" VNone;
               SessionClose "hourly_emissions_epacems_2018"] |}
      = logged empty_world evs /\
    opened_tables evs = map partition_table parts /\
    Forall (on_partition_of parts) evs /\
    ~ In "hourly_emissions_epacems" (opened_tables evs).
Proof.
  apply (etl_epacems_pkg_reports_aggregate_name sample_pc sample_io
           (VDict [("epacems_years", ints [2017; 2018]);
                   ("epacems_states", strs ["CO"]);
                   ("partition",
                    VDict [("hourly_emissions_epacems",
                            VStr "epacems_years")])])
           (VStr "data") "pkg" empty_world).
  reflexivity.
Defined.

(** ** Static tables *)

Lemma logged_last w ev : In ev (log (logged w [ev])).
Proof. simpl. apply in_or_app. right. now left. Qed.

(** C8 as stated fails for FERC 1: a dataset with years but an empty
    list of tables passes the bundle validator, so the kind is active in
    the package, and yet the adapter returns no table and writes none:
    the static tables are neither materialized nor reported. *)
Lemma ferc1_static_tables_not_loaded :
  exists validated,
    validate_input sample_pc [ferc1_no_tables_pkg] = Ok [validated] /\
    datasets validated <> [] /\
    etl_pkg sample_pc sample_io validated
      (VDict [("data_dir", VStr "data")]) "out" empty_world
    = (Ok [], {| open_sessions := [];
                 log := [PrepDir "out/ferc1-static-only"] |}) /\
    _etl_ferc1_pkg sample_pc sample_io
      (VDict [("ferc1_years", ints [2018]); ("ferc1_tables", VList [])])
      (VDict [("data_dir", VStr "data")]) "out/ferc1-static-only"
      empty_world
    = (Ok (VList []), empty_world).
Proof.
  eexists. split; [reflexivity|]. split; [discriminate|].
  split; reflexivity.
Qed.

(** ** Order of processing in the package coordinator *)

Lemma bind_assoc {A B C} (m : M A) (f : A -> M B) (g : B -> M C) w :
  bind (bind m f) g w = bind m (fun a => bind (f a) g) w.
Proof.
  unfold bind. destruct (m w) as [[a|e] w1]; [|reflexivity].
  reflexivity.
Qed.

Lemma bind_ext {A B} (m : M A) (f g : A -> M B) w :
  (forall a w', f a w' = g a w') -> bind m f w = bind m g w.
Proof.
  intros H. unfold bind. destruct (m w) as [[a|e] w1]; [apply H|reflexivity].
Qed.

Lemma etl_datasets_app (pc : Constants) (io : Collaborators)
    (dss1 dss2 : list dict) (pudl_settings : pyval) (pkg_dir : string) :
  forall (tables : list pyval) (w : world),
    etl_datasets pc io (dss1 ++ dss2) pudl_settings pkg_dir tables w
    = (tables1 <~ etl_datasets pc io dss1 pudl_settings pkg_dir tables ;;
       etl_datasets pc io dss2 pudl_settings pkg_dir tables1) w.
Proof.
  induction dss1 as [|ds dss1 IH]; intros tables w.
  - reflexivity.
  - simpl. rewrite bind_assoc. apply bind_ext. intros t1 w1. apply IH.
Qed.

(** C9 (amended).  The package coordinator processes the dataset entries
    in the order in which they appear in the package's configuration:
    running a package whose entries are [dss1] followed by [dss2] is
    resetting the directory, then running all of [dss1], then all of
    [dss2] with the tables accumulated so far; a single entry is run key
    by key, each key dispatched by the if/elif chain [etl_dataset]. *)
Theorem etl_pkg_follows_config_order :
  forall (pc : Constants) (io : Collaborators) (n t d : string)
         (dss1 dss2 : list dict) (pudl_settings : pyval)
         (pkg_bundle_dir : string) (w : world),
    let pkg_dir := os_path_join pkg_bundle_dir n in
    etl_pkg pc io {| name := n; title := t; description := d;
                     datasets := dss1 ++ dss2 |}
      pudl_settings pkg_bundle_dir w
    = (_ <~ _prep_directories io pkg_dir ;;
       tables1 <~ etl_datasets pc io dss1 pudl_settings pkg_dir [] ;;
       etl_datasets pc io dss2 pudl_settings pkg_dir tables1) w
    /\
    (forall (ds : dict) (tables : list pyval),
        etl_datasets pc io [ds] pudl_settings pkg_dir tables w
        = etl_dataset_dict pc io ds (keys ds) pudl_settings pkg_dir
            tables w).
Proof.
  intros pc io n t d dss1 dss2 pudl_settings pkg_bundle_dir w pkg_dir.
  split.
  - unfold etl_pkg. simpl name. simpl datasets. fold pkg_dir.
    apply bind_ext. intros u w1. apply etl_datasets_app.
  - intros ds tables. simpl. unfold bind.
    destruct (etl_dataset_dict pc io ds (keys ds) pudl_settings pkg_dir
                tables w) as [[a|e] w1]; reflexivity.
Qed.

(** C9 as stated fails: the same two dataset entries, configured in the
    two possible orders, are processed in two different orders. *)
Lemma etl_pkg_order_depends_on_config :
  etl_pkg sample_pc sample_io glue_then_epaipm_pkg
    (VDict [("data_dir", VStr "data")]) "out" empty_world
  = (Ok [VStr "plants_pudl"; VStr "transmission_single_epaipm";
         VStr "regions_entity_epaipm"],
     {| open_sessions := [];
        log := [PrepDir "out/pkg";
                DictDump "Glue" ["plants_pudl"] "out/pkg";
                DictDump "Static IPM Tables" ["regions_entity_epaipm"]
                  "out/pkg";
                DictDump "EPA IPM" ["transmission_single_epaipm"]
                  "out/pkg"] |}) /\
  etl_pkg sample_pc sample_io epaipm_then_glue_pkg
    (VDict [("data_dir", VStr "data")]) "out" empty_world
  = (Ok [VStr "transmission_single_epaipm"; VStr "regions_entity_epaipm";
         VStr "plants_pudl"],
     {| open_sessions := [];
        log := [PrepDir "out/pkg";
                DictDump "Static IPM Tables" ["regions_entity_epaipm"]
                  "out/pkg";
                DictDump "EPA IPM" ["transmission_single_epaipm"]
                  "out/pkg";
                DictDump "Glue" ["plants_pudl"] "out/pkg"] |}) /\
  etl_pkg sample_pc sample_io glue_then_epaipm_pkg
    (VDict [("data_dir", VStr "data")]) "out" empty_world
  <> etl_pkg sample_pc sample_io epaipm_then_glue_pkg
       (VDict [("data_dir", VStr "data")]) "out" empty_world.
Proof.
  split; [reflexivity|]. split; [reflexivity|].
  vm_compute. discriminate.
Qed.

(** ** What the validators check *)

Lemma check_members_bad xs universe msg tail x :
  In x xs -> mem x universe = false ->
  exists m, check_members xs universe msg tail = Err (AssertionError m).
Proof.
  unfold check_members. induction xs as [|a xs IH]; simpl; [tauto|].
  intros [<-|Hin] Hm.
  - rewrite Hm. simpl. eauto.
  - destruct (mem a universe); simpl; eauto.
Qed.

Lemma nonempty_list_truthy (l : list pyval) x :
  In x l -> truthy (VList l) = true.
Proof. destruct l; [contradiction | reflexivity]. Qed.

(** The EIA validator on a dict: the four fields after the inferences
    go through the four checks, then the skip test. *)
Lemma validate_input_eia_unfold (pc : Constants) (d : dict) :
  let t860 := resolved d "eia860_tables" (strs (pudl_tables pc "eia860")) in
  let t923 := eia923_tables_inferred pc d in
  let y860 := eia860_years_inferred d in
  let y923 := eia923_years_inferred d in
  _validate_input_eia pc (VDict d)
  = (_ <- (if truthy t860 then
             ts <- iter t860 ;;
             check_members ts (map VStr (eia860_pudl_tables pc))
               "Unrecognized EIA 860 table: " ""
           else Ok tt) ;;
     _ <- (if truthy t923 then
             ts <- iter t923 ;;
             check_members ts (map VStr (eia923_pudl_tables pc))
               "Unrecogized EIA 923 table: " ""
           else Ok tt) ;;
     ys <- iter y860 ;;
     _ <- check_members ys (map VInt (working_years pc "eia860"))
            "Unrecognized EIA 860 year: " "" ;;
     ys <- iter y923 ;;
     _ <- check_members ys (map VInt (working_years pc "eia923"))
            "Unrecognized EIA 923 year: " "" ;;
     if negb (truthy y923) && negb (truthy y860) then Ok VNone
     else Ok (VDict [("eia860_years", y860); ("eia860_tables", t860);
                     ("eia923_years", y923); ("eia923_tables", t923)])).
Proof.
  intros t860 t923 y860 y923. subst t860 t923 y860 y923.
  unfold _validate_input_eia, eia860_years_inferred, eia923_tables_inferred,
    eia923_years_inferred, eia_companion_forced.
  rewrite !get_or_dict.
  fold (resolved d "eia860_years" (VList [])).
  fold (resolved d "eia923_years" (VList [])).
  fold (resolved d "eia860_tables" (strs (pudl_tables pc "eia860"))).
  fold (resolved d "eia923_tables" (strs (pudl_tables pc "eia923"))).
  cbn [setitem rbind getitem lookup dict_set String.eqb Ascii.eqb Bool.eqb].
  destruct (negb (truthy (resolved d "eia923_years" (VList []))) &&
            truthy (resolved d "eia860_years" (VList [])));
    cbn [setitem rbind getitem lookup dict_set String.eqb Ascii.eqb
         Bool.eqb];
    match goal with
    | |- rbind (if ?c then _ else _) _ = _ => destruct c
    end;
    cbn [setitem rbind getitem lookup dict_set String.eqb Ascii.eqb
         Bool.eqb];
    reflexivity.
Qed.

Lemma validate_input_ferc1_unfold (pc : Constants) (d : dict) :
  let ys := resolved d "ferc1_years" (VList [VNone]) in
  let ts := resolved d "ferc1_tables" (strs (pudl_tables pc "ferc1")) in
  _validate_input_ferc1 pc (VDict d)
  = (_ <- (if negb (truthy (flag d "debug")) then
             if truthy ts then
               items <- iter ts ;;
               check_members items (map VStr (ferc1_pudl_tables pc))
                 "Unrecognized FERC table: " "."
             else Ok tt
           else Ok tt) ;;
     if negb (truthy ys) then Ok (VDict [])
     else Ok (VDict [("ferc1_years", ys); ("ferc1_tables", ts);
                     ("ferc1_testing",
                      resolved d "ferc1_testing" (VBool false));
                     ("debug", flag d "debug")])).
Proof.
  intros ys ts. subst ys ts.
  unfold _validate_input_ferc1, flag, resolved. rewrite !get_or_dict.
  cbn [setitem rbind getitem lookup dict_set String.eqb Ascii.eqb Bool.eqb].
  destruct (negb _); reflexivity.
Qed.

(** ** Year inference of the EIA validator *)

(** C2.  The EIA validator infers the years of each form from the
    other: when [eia860] years are given and no [eia923] years, every
    config it returns has the [eia923] years equal to the [eia860] years
    and the [eia923] tables equal to the fixed subset
    [boiler_fuel_eia923], [generation_eia923]; when [eia923] years are
    given and no [eia860] years, every config it returns has the
    [eia860] years equal to the [eia923] years.  In a universe that
    contains the year 2018 for both forms, the default tables and the
    two companion tables, validating
    [{'eia860_years': [2018]}] yields a config with
    [eia923_years == [2018]] and [eia923_tables] equal to the fixed
    subset [boiler_fuel_eia923], [generation_eia923]; validating
    [{'eia923_years': [2018]}] yields a config with
    [eia860_years == [2018]]. *)
Theorem validate_input_eia_infers_years :
  forall pc : Constants,
    (forall (d : dict) (cfg : pyval),
        truthy (resolved d "eia860_years" (VList [])) = true ->
        truthy (resolved d "eia923_years" (VList [])) = false ->
        _validate_input_eia pc (VDict d) = Ok cfg ->
        cfg = VDict
                [("eia860_years", resolved d "eia860_years" (VList []));
                 ("eia860_tables",
                  resolved d "eia860_tables"
                    (strs (pudl_tables pc "eia860")));
                 ("eia923_years", resolved d "eia860_years" (VList []));
                 ("eia923_tables",
                  strs ["boiler_fuel_eia923"; "generation_eia923"])]) /\
    (forall (d : dict) (cfg : pyval),
        truthy (resolved d "eia923_years" (VList [])) = true ->
        truthy (resolved d "eia860_years" (VList [])) = false ->
        _validate_input_eia pc (VDict d) = Ok cfg ->
        cfg = VDict
                [("eia860_years", resolved d "eia923_years" (VList []));
                 ("eia860_tables",
                  resolved d "eia860_tables"
                    (strs (pudl_tables pc "eia860")));
                 ("eia923_years", resolved d "eia923_years" (VList []));
                 ("eia923_tables",
                  resolved d "eia923_tables"
                    (strs (pudl_tables pc "eia923")))]) /\
    (In 2018 (working_years pc "eia860") ->
     In 2018 (working_years pc "eia923") ->
     incl (pudl_tables pc "eia860") (eia860_pudl_tables pc) ->
     incl (pudl_tables pc "eia923") (eia923_pudl_tables pc) ->
     In "boiler_fuel_eia923" (eia923_pudl_tables pc) ->
     In "generation_eia923" (eia923_pudl_tables pc) ->
     (exists cfg,
         _validate_input_eia pc (VDict [("eia860_years", ints [2018])])
           = Ok cfg /\
         getitem cfg "eia860_years" = Ok (ints [2018]) /\
         getitem cfg "eia923_years" = Ok (ints [2018]) /\
         getitem cfg "eia923_tables"
           = Ok (strs ["boiler_fuel_eia923"; "generation_eia923"])) /\
     (exists cfg,
         _validate_input_eia pc (VDict [("eia923_years", ints [2018])])
           = Ok cfg /\
         getitem cfg "eia923_years" = Ok (ints [2018]) /\
         getitem cfg "eia860_years" = Ok (ints [2018]))).
Proof.
  intros pc. split; [|split].
  - intros d cfg H860 H923 H.
    pose proof (validate_input_eia_unfold pc d) as U. cbv zeta in U.
    rewrite U in H. clear U.
    assert (C : eia_companion_forced d = true).
    { unfold eia_companion_forced. now rewrite H860, H923. }
    assert (I923 : eia923_years_inferred d
                   = resolved d "eia860_years" (VList [])).
    { unfold eia923_years_inferred. now rewrite C. }
    assert (I860 : eia860_years_inferred d
                   = resolved d "eia860_years" (VList [])).
    { unfold eia860_years_inferred. now rewrite H860. }
    assert (T923 : eia923_tables_inferred pc d
                   = strs ["boiler_fuel_eia923"; "generation_eia923"]).
    { unfold eia923_tables_inferred. now rewrite C. }
    do 6 returned_step H.
    rewrite I923, I860, T923, H860 in H. cbn [negb andb] in H.
    now inversion H.
  - intros d cfg H923 H860 H.
    pose proof (validate_input_eia_unfold pc d) as U. cbv zeta in U.
    rewrite U in H. clear U.
    assert (C : eia_companion_forced d = false).
    { unfold eia_companion_forced. now rewrite H923. }
    assert (I923 : eia923_years_inferred d
                   = resolved d "eia923_years" (VList [])).
    { unfold eia923_years_inferred. now rewrite C. }
    assert (I860 : eia860_years_inferred d
                   = resolved d "eia923_years" (VList [])).
    { unfold eia860_years_inferred. now rewrite I923, H860, H923. }
    assert (T923 : eia923_tables_inferred pc d
                   = resolved d "eia923_tables"
                       (strs (pudl_tables pc "eia923"))).
    { unfold eia923_tables_inferred. now rewrite C. }
    do 6 returned_step H.
    rewrite I923, I860, T923, H923 in H. cbn [negb andb] in H.
    now inversion H.
  - intros Hy860 Hy923 Ht860 Ht923 Hb Hg.
    assert (Hmin : incl ["boiler_fuel_eia923"; "generation_eia923"]
                     (eia923_pudl_tables pc)).
    { intros x [<-|[<-|[]]]; assumption. }
    assert (H18 : forall k, In 2018 (working_years pc k) ->
                    incl [2018] (working_years pc k)).
    { intros k H x [<-|[]]. exact H. }
    pose proof (checked_tables_strs "Unrecognized EIA 860 table: " ""
                  Ht860) as C860.
    pose proof (checked_tables_strs "Unrecogized EIA 923 table: " ""
                  Ht923) as C923.
    unfold strs in C860, C923. simpl in C860, C923.
    split.
    + eexists. unfold _validate_input_eia. simpl.
      rewrite C860. simpl.
      change (VList [VStr "boiler_fuel_eia923"; VStr "generation_eia923"])
        with (VList (map VStr ["boiler_fuel_eia923"; "generation_eia923"])).
      rewrite (check_members_strs _ _ Hmin). simpl.
      change [VInt 2018] with (map VInt [2018]).
      rewrite !check_members_ints by (apply H18; assumption). simpl.
      repeat split; reflexivity.
    + eexists. unfold _validate_input_eia. simpl.
      rewrite C860. simpl. rewrite C923. simpl.
      change [VInt 2018] with (map VInt [2018]).
      rewrite !check_members_ints by (apply H18; assumption). simpl.
      repeat split; reflexivity.
Qed.

Lemma validate_input_eia_infers_years_witness :
  (exists cfg,
      _validate_input_eia sample_pc (VDict [("eia860_years", ints [2018])])
        = Ok cfg /\
      getitem cfg "eia860_years" = Ok (ints [2018]) /\
      getitem cfg "eia923_years" = Ok (ints [2018]) /\
      getitem cfg "eia923_tables"
        = Ok (strs ["boiler_fuel_eia923"; "generation_eia923"])) /\
  (exists cfg,
      _validate_input_eia sample_pc (VDict [("eia923_years", ints [2018])])
        = Ok cfg /\
      getitem cfg "eia923_years" = Ok (ints [2018]) /\
      getitem cfg "eia860_years" = Ok (ints [2018])).
Proof.
  apply (proj2 (proj2 (validate_input_eia_infers_years sample_pc))); simpl.
  - right; right; left; reflexivity.
  - right; right; left; reflexivity.
  - apply incl_refl.
  - apply incl_refl.
  - right; left; reflexivity.
  - right; right; left; reflexivity.
Defined.

Lemma resolved_found (d : dict) (k : string) (dflt v : pyval) :
  lookup k d = Some v -> resolved d k dflt = v.
Proof. unfold resolved. now intros ->. Qed.

(** C6 (amended).  The EIA validator raises [AssertionError] for a
    requested [eia860] table outside the universe, and raises for a
    requested [eia860] or [eia923] year outside the universe and for a
    requested [eia923] table outside it, unless the requested [eia923]
    tables are replaced by the fixed companion subset; it has no debug
    mode.  The FERC 1 validator raises [AssertionError] for a requested
    table outside the universe unless [debug] is truthy, and with
    [debug] truthy it raises nothing at all. *)
Theorem validators_reject_out_of_universe :
  forall (pc : Constants) (d : dict),
    (forall ts t,
        lookup "eia860_tables" d = Some (VList ts) -> In t ts ->
        mem t (map VStr (eia860_pudl_tables pc)) = false ->
        exists m, _validate_input_eia pc (VDict d)
                  = Err (AssertionError m)) /\
    (forall ts t,
        lookup "eia923_tables" d = Some (VList ts) -> In t ts ->
        mem t (map VStr (eia923_pudl_tables pc)) = false ->
        eia_companion_forced d = false ->
        exists e, _validate_input_eia pc (VDict d) = Err e) /\
    (forall ys y,
        lookup "eia860_years" d = Some (VList ys) -> In y ys ->
        mem y (map VInt (working_years pc "eia860")) = false ->
        exists e, _validate_input_eia pc (VDict d) = Err e) /\
    (forall ys y,
        lookup "eia923_years" d = Some (VList ys) -> In y ys ->
        mem y (map VInt (working_years pc "eia923")) = false ->
        exists e, _validate_input_eia pc (VDict d) = Err e) /\
    (forall ts t,
        lookup "ferc1_tables" d = Some (VList ts) -> In t ts ->
        mem t (map VStr (ferc1_pudl_tables pc)) = false ->
        truthy (flag d "debug") = false ->
        exists m, _validate_input_ferc1 pc (VDict d)
                  = Err (AssertionError m)) /\
    (truthy (flag d "debug") = true ->
     exists cfg, _validate_input_ferc1 pc (VDict d) = Ok cfg).
Proof.
  intros pc d.
  pose proof (validate_input_eia_unfold pc d) as U. cbv zeta in U.
  pose proof (validate_input_ferc1_unfold pc d) as F. cbv zeta in F.
  repeat split.
  - intros ts t Hl Hin Hm. rewrite U.
    rewrite (@resolved_found _ _ _ _ Hl), (@nonempty_list_truthy _ _ Hin).
    cbn [iter rbind].
    destruct (@check_members_bad ts _ "Unrecognized EIA 860 table: " ""
                _ Hin Hm) as [m ->].
    exists m. reflexivity.
  - intros ts t Hl Hin Hm Hc. rewrite U. raise_or_continue.
    unfold eia923_tables_inferred. rewrite Hc.
    rewrite (@resolved_found _ _ _ _ Hl), (@nonempty_list_truthy _ _ Hin).
    cbn [iter rbind].
    destruct (@check_members_bad ts _ "Unrecogized EIA 923 table: " ""
                _ Hin Hm) as [m ->].
    eexists. reflexivity.
  - intros ys y Hl Hin Hm.
    assert (I : eia860_years_inferred d = VList ys).
    { unfold eia860_years_inferred.
      now rewrite (@resolved_found _ _ _ _ Hl), (@nonempty_list_truthy _ _ Hin). }
    rewrite U. do 2 raise_or_continue. rewrite I. cbn [iter rbind].
    destruct (@check_members_bad ys _ "Unrecognized EIA 860 year: " ""
                _ Hin Hm) as [m ->].
    eexists. reflexivity.
  - intros ys y Hl Hin Hm.
    assert (I : eia923_years_inferred d = VList ys).
    { unfold eia923_years_inferred, eia_companion_forced.
      now rewrite (@resolved_found _ _ _ _ Hl), (@nonempty_list_truthy _ _ Hin). }
    rewrite U. do 4 raise_or_continue. rewrite I. cbn [iter rbind].
    destruct (@check_members_bad ys _ "Unrecognized EIA 923 year: " ""
                _ Hin Hm) as [m ->].
    eexists. reflexivity.
  - intros ts t Hl Hin Hm Hd. rewrite F, Hd. cbn [negb].
    rewrite (@resolved_found _ _ _ _ Hl), (@nonempty_list_truthy _ _ Hin).
    cbn [iter rbind].
    destruct (@check_members_bad ts _ "Unrecognized FERC table: " "."
                _ Hin Hm) as [m ->].
    exists m. reflexivity.
  - intros Hd. rewrite F, Hd. cbn [negb rbind].
    destruct (truthy (resolved d "ferc1_years" (VList [VNone])));
      eexists; reflexivity.
Qed.

Lemma validators_reject_out_of_universe_witness :
  exists m,
    _validate_input_ferc1 sample_pc
      (VDict [("ferc1_tables", strs ["not_a_ferc1_table"])])
    = Err (AssertionError m).
Proof.
  apply (proj1 (proj2 (proj2 (proj2 (proj2
           (validators_reject_out_of_universe sample_pc
              [("ferc1_tables", strs ["not_a_ferc1_table"])])))))
           [VStr "not_a_ferc1_table"] (VStr "not_a_ferc1_table")).
  - reflexivity.
  - left. reflexivity.
  - reflexivity.
  - reflexivity.
Defined.

(** C6 as stated fails: a FERC 1 year, an emissions year and an
    emissions state outside the universe are accepted, and so is an
    unknown [eia923] table when the companion subset replaces the
    request; none of these runs is in debug mode. *)
Lemma out_of_universe_requests_accepted :
  (~ In 1800 (working_years sample_pc "ferc1") /\
   _validate_input_ferc1 sample_pc (VDict [("ferc1_years", ints [1800])])
   = Ok (VDict [("ferc1_years", ints [1800]);
                ("ferc1_tables", strs ["fuel_ferc1"; "plants_steam_ferc1"]);
                ("ferc1_testing", VBool false); ("debug", VBool false)])) /\
  (~ In 1800 (working_years sample_pc "epacems") /\
   ~ In "ZZ" (cems_states sample_pc) /\
   _validate_input_epacems sample_pc
     (VDict [("epacems_years", ints [1800]);
             ("epacems_states", strs ["ZZ"])])
   = Ok (VDict [("epacems_years", ints [1800]);
                ("epacems_states", strs ["ZZ"]);
                ("partition", VDict [("partition", VNone)])])) /\
  (~ In "not_an_eia923_table" (eia923_pudl_tables sample_pc) /\
   _validate_input_eia sample_pc
     (VDict [("eia860_years", ints [2018]);
             ("eia923_tables", strs ["not_an_eia923_table"])])
   = Ok (VDict [("eia860_years", ints [2018]);
                ("eia860_tables", strs ["plants_eia860"; "generators_eia860"]);
                ("eia923_years", ints [2018]);
                ("eia923_tables",
                 strs ["boiler_fuel_eia923"; "generation_eia923"])])).
Proof.
  repeat split; try reflexivity; simpl; intros H;
    repeat (destruct H as [H|H]; [discriminate H|]); exact H.
Qed.

(** ** The "not requested" signal *)

Lemma epacems_tail_skip (pc : Constants) (etl_params ys sts : pyval) :
  truthy ys = false \/ truthy sts = false ->
  let tail :=
    p <- _validate_input_partition etl_params [epacems_tables pc] ;;
    _ <- (if negb (truthy p)
          then Err (AssertionError no_partition_msg) else Ok tt) ;;
    if negb (truthy ys) || negb (truthy sts) then Ok VNone
    else Ok (VDict [("epacems_years", ys); ("epacems_states", sts);
                    ("partition", p)]) in
  tail = Ok VNone \/ exists e, tail = Err e.
Proof.
  intros H tail. subst tail.
  destruct (_validate_input_partition etl_params [epacems_tables pc])
    as [p|e] eqn:Hp; cbn [rbind]; [|right; eexists; reflexivity].
  assert (Ht : truthy p = true).
  { apply nonempty_dict_truthy.
    eapply partition_result_nonempty; [|eassumption]. discriminate. }
  rewrite Ht. cbn [negb rbind]. left.
  destruct H as [-> | ->]; [reflexivity|].
  now rewrite orb_true_r.
Qed.

Lemma validate_input_epacems_skips (pc : Constants) (d : dict) :
  truthy (resolved d "epacems_years" (VList [VNone])) = false \/
  truthy (resolved d "epacems_states" (VList [])) = false ->
  _validate_input_epacems pc (VDict d) = Ok VNone \/
  exists e, _validate_input_epacems pc (VDict d) = Err e.
Proof.
  intros H. unfold _validate_input_epacems. rewrite !get_or_dict.
  fold (resolved d "epacems_years" (VList [VNone])).
  fold (resolved d "epacems_states" (VList [])).
  set (ys := resolved d "epacems_years" (VList [VNone])) in *.
  set (sts := resolved d "epacems_states" (VList [])) in *.
  simpl.
  destruct (truthy sts) eqn:Hsts; simpl.
  2:{ exact (@epacems_tail_skip pc (VDict d) ys sts (or_intror Hsts)). }
  destruct H as [Hys | Hf]; [|discriminate].
  destruct (getitem0 sts) as [s0|e]; simpl; [|right; eexists; reflexivity].
  destruct (lower s0) as [l|e]; simpl; [|right; eexists; reflexivity].
  destruct (String.eqb l "all"); simpl.
  - exact (@epacems_tail_skip pc (VDict d) ys (strs (cems_states pc))
             (or_introl Hys)).
  - exact (@epacems_tail_skip pc (VDict d) ys sts (or_introl Hys)).
Qed.

(** C5 (amended).  For the EIA, FERC 1, emissions and glue kinds, a raw
    configuration whose deciding fields are empty after defaulting (both
    year lists for EIA, the years for FERC 1, the years or the states
    for the emissions, both flags for glue) makes the validator return
    the "not requested" signal ([None] or the empty dict), unless it
    raises first; it never returns a populated config.  The EPA IPM
    validator has no such signal: it always returns the dict of its
    resolved tables.  On the empty raw configuration, in a universe that
    contains the default tables, the five validators return [None], the
    fully defaulted FERC 1 config, [None], the empty dict and the fully
    defaulted EPA IPM config. *)
Theorem validators_skip_when_nothing_requested :
  forall (pc : Constants) (d : dict),
    (truthy (resolved d "eia860_years" (VList [])) = false ->
     truthy (resolved d "eia923_years" (VList [])) = false ->
     _validate_input_eia pc (VDict d) = Ok VNone \/
     exists e, _validate_input_eia pc (VDict d) = Err e) /\
    (truthy (resolved d "ferc1_years" (VList [VNone])) = false ->
     _validate_input_ferc1 pc (VDict d) = Ok (VDict []) \/
     exists e, _validate_input_ferc1 pc (VDict d) = Err e) /\
    (truthy (resolved d "epacems_years" (VList [VNone])) = false \/
     truthy (resolved d "epacems_states" (VList [])) = false ->
     _validate_input_epacems pc (VDict d) = Ok VNone \/
     exists e, _validate_input_epacems pc (VDict d) = Err e) /\
    (truthy (flag d "ferc1") = false -> truthy (flag d "eia") = false ->
     _validate_input_glue (VDict d) = Ok (VDict [])) /\
    _validate_input_epaipm (VDict d)
      = Ok (VDict [("epaipm_tables",
                    resolved d "epaipm_tables" (VList [VNone]))]) /\
    (incl (pudl_tables pc "eia860") (eia860_pudl_tables pc) ->
     incl (pudl_tables pc "eia923") (eia923_pudl_tables pc) ->
     _validate_input_eia pc (VDict []) = Ok VNone) /\
    (incl (pudl_tables pc "ferc1") (ferc1_pudl_tables pc) ->
     _validate_input_ferc1 pc (VDict [])
       = Ok (VDict [("ferc1_years", VList [VNone]);
                    ("ferc1_tables", strs (pudl_tables pc "ferc1"));
                    ("ferc1_testing", VBool false);
                    ("debug", VBool false)])) /\
    _validate_input_epacems pc (VDict []) = Ok VNone /\
    _validate_input_glue (VDict []) = Ok (VDict []) /\
    _validate_input_epaipm (VDict [])
      = Ok (VDict [("epaipm_tables", VList [VNone])]).
Proof.
  intros pc d.
  pose proof (validate_input_eia_unfold pc d) as U. cbv zeta in U.
  pose proof (validate_input_ferc1_unfold pc d) as F. cbv zeta in F.
  split; [|split; [|split; [|split; [|split; [|split; [|split;
    [|split; [|split]]]]]]]].
  - intros H860 H923.
    assert (C : eia_companion_forced d = false).
    { unfold eia_companion_forced. now rewrite H860, andb_false_r. }
    assert (I923 : truthy (eia923_years_inferred d) = false).
    { unfold eia923_years_inferred. now rewrite C. }
    assert (I860 : truthy (eia860_years_inferred d) = false).
    { unfold eia860_years_inferred. rewrite I923, andb_false_r. exact H860. }
    rewrite U. do 6 skip_or_continue. rewrite I923, I860. now left.
  - intros Hy. rewrite F. skip_or_continue. rewrite Hy. now left.
  - apply validate_input_epacems_skips.
  - intros Hf He. unfold _validate_input_glue. rewrite !get_or_dict.
    fold (flag d "ferc1") (flag d "eia"). simpl. now rewrite Hf, He.
  - unfold _validate_input_epaipm. now rewrite get_or_dict.
  - intros H860 H923.
    pose proof (validate_input_eia_unfold pc []) as E. cbv zeta in E.
    rewrite E. clear E.
    change (resolved [] "eia860_tables" (strs (pudl_tables pc "eia860")))
      with (strs (pudl_tables pc "eia860")).
    change (eia923_tables_inferred pc [])
      with (strs (pudl_tables pc "eia923")).
    rewrite (checked_tables_strs _ _ H860), (checked_tables_strs _ _ H923).
    reflexivity.
  - intros Hf.
    pose proof (validate_input_ferc1_unfold pc []) as E. cbv zeta in E.
    rewrite E. clear E.
    change (flag [] "debug") with (VBool false). cbn [truthy negb].
    change (resolved [] "ferc1_tables" (strs (pudl_tables pc "ferc1")))
      with (strs (pudl_tables pc "ferc1")).
    rewrite (checked_tables_strs _ _ Hf). reflexivity.
  - reflexivity.
  - reflexivity.
  - reflexivity.
Qed.

Lemma validators_skip_when_nothing_requested_witness :
  _validate_input_ferc1 sample_pc
    (VDict [("ferc1_years", VList []); ("ferc1_tables", strs ["fuel_ferc1"])])
    = Ok (VDict []) \/
  exists e,
    _validate_input_ferc1 sample_pc
      (VDict [("ferc1_years", VList []);
              ("ferc1_tables", strs ["fuel_ferc1"])])
    = Err e.
Proof.
  apply (proj1 (proj2 (validators_skip_when_nothing_requested sample_pc
                         [("ferc1_years", VList []);
                          ("ferc1_tables", strs ["fuel_ferc1"])]))).
  reflexivity.
Defined.

(** C5 as stated fails.  For EPA IPM, whose only dimension is its
    tables, an empty list of tables gives a populated (truthy) config
    and not the signal; and for FERC 1, empty years with an unknown
    table make the validator raise instead of returning the signal. *)
Lemma skip_signal_not_returned :
  (truthy (resolved [("epaipm_tables", VList [])] "epaipm_tables"
             (VList [VNone])) = false /\
   _validate_input_epaipm (VDict [("epaipm_tables", VList [])])
     = Ok (VDict [("epaipm_tables", VList [])]) /\
   truthy (VDict [("epaipm_tables", VList [])]) = true) /\
  (truthy (resolved [("ferc1_years", VList []);
                     ("ferc1_tables", strs ["not_a_ferc1_table"])]
             "ferc1_years" (VList [VNone])) = false /\
   _validate_input_ferc1 sample_pc
     (VDict [("ferc1_years", VList []);
             ("ferc1_tables", strs ["not_a_ferc1_table"])])
     = Err (AssertionError
              "Unrecognized FERC table: not_a_ferc1_table.")).
Proof. repeat split; reflexivity. Qed.

(* ================================================================== *)
(** * Further properties of the coordinator *)

(** ** The writer's protocol over a whole package *)

Lemma sessions_after_app (a b : list event) :
  forall st,
    sessions_after st (a ++ b)
    = match sessions_after st a with
      | Some st' => sessions_after st' b
      | None => None
      end.
Proof.
  induction a as [|ev a IH]; intros st; [reflexivity|].
  simpl. destruct ev, st; try reflexivity; try apply IH.
  - destruct (String.eqb table_name s); [apply IH | reflexivity].
  - destruct (String.eqb table_name s); [apply IH | reflexivity].
Qed.

Lemma sessions_after_adds (t : string) (adds : list event) :
  Forall (is_add t) adds -> sessions_after (Some t) adds = Some (Some t).
Proof.
  induction 1 as [|ev adds [df ->] _ IH]; simpl; [reflexivity|].
  now rewrite String.eqb_refl.
Qed.

Section Discipline.

Variable pc : Constants.
Variable io : Collaborators.
Variable pkg_dir : string.

Lemma disciplined_ret {A} (a : A) : disciplined pkg_dir (ret a).
Proof.
  intros w. exists []. simpl. rewrite logged_nil. repeat split. constructor.
Qed.

Lemma disciplined_lift {A} (r : result A) : disciplined pkg_dir (lift r).
Proof.
  intros w. exists []. simpl. rewrite logged_nil. repeat split. constructor.
Qed.

Lemma disciplined_raise {A} (e : exn) : disciplined pkg_dir (@raise A e).
Proof.
  intros w. exists []. simpl. rewrite logged_nil. repeat split. constructor.
Qed.

Lemma disciplined_bind {A B} (m : M A) (k : A -> M B) :
  disciplined pkg_dir m -> (forall a, disciplined pkg_dir (k a)) ->
  disciplined pkg_dir (bind m k).
Proof.
  intros Hm Hk w. destruct (Hm w) as (evs & Hw & Hs & Hf).
  unfold bind. destruct (m w) as [[a|e] w1]; simpl in Hw; subst w1.
  - destruct (Hk a (logged w evs)) as (evs' & Hw' & Hs' & Hf').
    exists (evs ++ evs')%list. rewrite Hw', logged_app. split; [reflexivity|].
    split; [|now apply Forall_app].
    now rewrite sessions_after_app, Hs.
  - exists evs. simpl. auto.
Qed.

Lemma disciplined_dict_dump (dfs : dict) (label : string) :
  disciplined pkg_dir (dict_dump io dfs label pkg_dir).
Proof.
  intros w. unfold dict_dump.
  destruct (emit_cases io (DictDump label (keys dfs) pkg_dir) w)
    as [H | [e H]]; rewrite H; simpl.
  - eexists. split; [reflexivity|]. split; [reflexivity|].
    constructor; [reflexivity | constructor].
  - exists []. rewrite logged_nil. repeat split. constructor.
Qed.

Lemma disciplined_with_session (t : string) (g : generator dict) :
  disciplined pkg_dir
    (with_BulkCopyPkg io t pkg_dir
       (for_gen g (fun d => for_eachM (map snd d) (loader_add io t)))).
Proof.
  intros w. unfold with_BulkCopyPkg.
  destruct (write_error io (SessionOpen t pkg_dir)).
  { exists []. simpl. rewrite logged_nil. repeat split. constructor. }
  set (w1 := {| open_sessions := t :: open_sessions w;
                log := (log w ++ [SessionOpen t pkg_dir])%list |}).
  destruct (body_frame io t g w1) as (r & adds & Hr & Ha). rewrite Hr.
  exists (SessionOpen t pkg_dir :: adds ++ [SessionClose t])%list.
  split; [|split].
  - unfold logged. simpl. rewrite String.eqb_refl.
    now rewrite <- !app_assoc.
  - simpl. rewrite sessions_after_app, (sessions_after_adds Ha). simpl.
    now rewrite String.eqb_refl.
  - constructor; [reflexivity|]. apply Forall_app. split.
    + eapply Forall_impl; [|exact Ha]. intros ev [df ->]. exact I.
    + constructor; [exact I | constructor].
Qed.

End Discipline.

Section AdapterDiscipline.

Variable pc : Constants.
Variable io : Collaborators.
Variable pkg_dir : string.

Lemma disciplined_if {A} (c : bool) (m1 m2 : M A) :
  disciplined pkg_dir m1 -> disciplined pkg_dir m2 ->
  disciplined pkg_dir (if c then m1 else m2).
Proof. now destruct c. Qed.

Lemma disciplined_static_eia :
  disciplined pkg_dir (_load_static_tables_eia io pkg_dir).
Proof.
  apply disciplined_bind; [apply disciplined_dict_dump|].
  intros _. apply disciplined_ret.
Qed.

Lemma disciplined_static_ferc :
  disciplined pkg_dir (_load_static_tables_ferc io pkg_dir).
Proof.
  apply disciplined_bind; [apply disciplined_dict_dump|].
  intros _. apply disciplined_ret.
Qed.

Lemma disciplined_static_epaipm :
  disciplined pkg_dir (_load_static_tables_epaipm io pkg_dir).
Proof.
  apply disciplined_bind; [apply disciplined_dict_dump|].
  intros _. apply disciplined_ret.
Qed.

Lemma disciplined_eia (etl_params data_dir : pyval) :
  disciplined pkg_dir (_etl_eia_pkg pc io etl_params data_dir pkg_dir).
Proof.
  unfold _etl_eia_pkg.
  repeat first
    [ apply disciplined_lift | apply disciplined_ret
    | apply disciplined_dict_dump | apply disciplined_static_eia
    | apply disciplined_if
    | apply disciplined_bind; [|intros ?] ].
Qed.

Lemma disciplined_ferc1 (etl_params pudl_settings : pyval) :
  disciplined pkg_dir (_etl_ferc1_pkg pc io etl_params pudl_settings pkg_dir).
Proof.
  unfold _etl_ferc1_pkg.
  repeat first
    [ apply disciplined_lift | apply disciplined_ret
    | apply disciplined_dict_dump | apply disciplined_static_ferc
    | apply disciplined_if
    | apply disciplined_bind; [|intros ?] ].
Qed.

Lemma disciplined_epaipm (etl_params data_dir : pyval) :
  disciplined pkg_dir (_etl_epaipm io etl_params data_dir pkg_dir).
Proof.
  unfold _etl_epaipm.
  repeat first
    [ apply disciplined_lift | apply disciplined_ret
    | apply disciplined_dict_dump | apply disciplined_static_epaipm
    | apply disciplined_bind; [|intros ?] ].
Qed.

Lemma disciplined_glue (etl_params : pyval) :
  disciplined pkg_dir (_etl_glue io etl_params pkg_dir).
Proof.
  unfold _etl_glue.
  repeat first
    [ apply disciplined_lift | apply disciplined_ret
    | apply disciplined_dict_dump | apply disciplined_if
    | apply disciplined_bind; [|intros ?] ].
Qed.

Lemma disciplined_epacems_part (part ys sts data_dir : pyval) :
  disciplined pkg_dir (_etl_epacems_part io part ys sts data_dir pkg_dir).
Proof.
  unfold _etl_epacems_part.
  apply disciplined_bind; [apply disciplined_lift | intros raw].
  apply disciplined_bind; [apply disciplined_lift | intros g].
  apply disciplined_bind; [|intros _; apply disciplined_ret].
  exact (disciplined_with_session io pkg_dir
           ("hourly_emissions_epacems_" ++ str part) g).
Qed.

Lemma disciplined_epacems_parts (parts : list pyval) :
  forall ys sts data_dir,
    disciplined pkg_dir (epacems_parts io parts ys sts data_dir pkg_dir).
Proof.
  induction parts as [|part parts IH]; intros ys sts data_dir; simpl.
  - apply disciplined_ret.
  - apply disciplined_bind; [apply disciplined_lift | intros iy].
    apply disciplined_bind; [apply disciplined_lift | intros ist].
    apply disciplined_bind; [apply disciplined_epacems_part | intros _].
    apply IH.
Qed.

Lemma disciplined_epacems (etl_params data_dir : pyval) :
  disciplined pkg_dir (_etl_epacems_pkg pc io etl_params data_dir pkg_dir).
Proof.
  unfold _etl_epacems_pkg.
  repeat first
    [ apply disciplined_lift | apply disciplined_ret
    | apply disciplined_epacems_parts | apply disciplined_if
    | apply disciplined_bind; [|intros ?] ].
Qed.

Lemma disciplined_etl_dataset (dataset_dict : dict) (dataset : string)
    (pudl_settings : pyval) :
  disciplined pkg_dir
    (etl_dataset pc io dataset_dict dataset pudl_settings pkg_dir).
Proof.
  unfold etl_dataset.
  repeat first
    [ apply disciplined_lift | apply disciplined_raise
    | apply disciplined_eia | apply disciplined_ferc1
    | apply disciplined_epacems | apply disciplined_glue
    | apply disciplined_epaipm | apply disciplined_if
    | apply disciplined_bind; [|intros ?] ].
Qed.

Lemma disciplined_etl_dataset_dict (dataset_dict : dict)
    (pudl_settings : pyval) (ds : list string) :
  forall tables,
    disciplined pkg_dir
      (etl_dataset_dict pc io dataset_dict ds pudl_settings pkg_dir tables).
Proof.
  induction ds as [|dataset ds IH]; intros tables; simpl.
  - apply disciplined_ret.
  - apply disciplined_bind; [apply disciplined_etl_dataset | intros tbls].
    apply disciplined_bind; [|intros t; apply IH].
    apply disciplined_if; [|apply disciplined_ret].
    apply disciplined_bind; [apply disciplined_lift | intros new].
    apply disciplined_ret.
Qed.

Lemma disciplined_etl_datasets (pudl_settings : pyval) (dss : list dict) :
  forall tables,
    disciplined pkg_dir (etl_datasets pc io dss pudl_settings pkg_dir tables).
Proof.
  induction dss as [|ds dss IH]; intros tables; simpl.
  - apply disciplined_ret.
  - apply disciplined_bind; [apply disciplined_etl_dataset_dict|].
    intros t. apply IH.
Qed.

End AdapterDiscipline.

(** X1.  Whatever a run of [etl_pkg] does, and whether it returns or
    raises: either the reset of the package directory was refused and
    nothing happened, or the reset is the first call of the run, all
    later calls write below the package directory, no session is left
    open, and the calls after the reset follow the writer's protocol:
    at most one bulk-copy session is open at a time, chunks are only
    added to the open session, and every session opened is closed. *)
Theorem etl_pkg_resets_first_and_keeps_protocol :
  forall (pc : Constants) (io : Collaborators) (pkg_settings : package)
         (pudl_settings : pyval) (pkg_bundle_dir : string) (w : world),
    let pkg_dir := os_path_join pkg_bundle_dir (name pkg_settings) in
    let rw := etl_pkg pc io pkg_settings pudl_settings pkg_bundle_dir w in
    (snd rw = w /\ exists e, fst rw = Err e) \/
    exists evs,
      snd rw = logged w (PrepDir pkg_dir :: evs) /\
      sessions_after None evs = Some None /\
      Forall (writes_in pkg_dir) evs.
Proof.
  intros pc io pkg_settings pudl_settings pkg_bundle_dir w pkg_dir rw.
  subst rw. unfold etl_pkg, bind, _prep_directories. fold pkg_dir.
  destruct (emit_cases io (PrepDir pkg_dir) w) as [H | [e H]]; rewrite H.
  - right.
    destruct (disciplined_etl_datasets pc io pkg_dir pudl_settings
                (datasets pkg_settings) [] (logged w [PrepDir pkg_dir]))
      as (evs & Hw & Hs & Hf).
    exists evs. rewrite Hw, logged_app. auto.
  - left. simpl. eauto.
Qed.

(** ** What the adapters return *)




(** What [_validate_input_glue] returns: the empty dict, or both flags
    with one of them truthy. *)
Lemma validate_input_glue_shape (etl_params cfg : pyval) :
  _validate_input_glue etl_params = Ok cfg ->
  cfg = VDict [] \/
  exists f e,
    cfg = VDict [("ferc1", f); ("eia", e)] /\
    get_or etl_params "ferc1" (VBool false) = Ok f /\
    get_or etl_params "eia" (VBool false) = Ok e /\
    negb (truthy e) && negb (truthy f) = false.
Proof.
  unfold _validate_input_glue.
  destruct (get_or etl_params "ferc1" (VBool false)) as [f|]; [|discriminate].
  destruct (get_or etl_params "eia" (VBool false)) as [e|]; [|discriminate].
  simpl. destruct (truthy f) eqn:Hf, (truthy e) eqn:He; simpl;
    intros H; inversion H; subst; try (now left);
    right; exists f, e; rewrite Hf, He; auto.
Qed.

(** X2.  [_etl_glue] never returns its sentinel string.  A run that
    returns had at least one of the two flags truthy, got the glue
    tables from [pudl.glue.ferc1_eia.glue] called with the two flags,
    wrote them in one bulk dump labelled "Glue", and returns exactly
    their names. *)
Theorem etl_glue_returns_glue_tables :
  forall (io : Collaborators) (etl_params : pyval) (pkg_dir : string)
         (w w' : world) (tbls : pyval),
    _etl_glue io etl_params pkg_dir w = (Ok tbls, w') ->
    exists f e glue_dfs,
      get_or etl_params "ferc1" (VBool false) = Ok f /\
      get_or etl_params "eia" (VBool false) = Ok e /\
      (truthy f = true \/ truthy e = true) /\
      glue_ferc1_eia io f e = Ok glue_dfs /\
      tbls = strs (keys glue_dfs) /\
      tbls <> VStr "ahhhh this is not werking" /\
      w' = logged w [DictDump "Glue" (keys glue_dfs) pkg_dir].
Proof.
  intros io etl_params pkg_dir w w' tbls. unfold _etl_glue, bind, lift.
  destruct (_validate_input_glue etl_params) as [cfg|] eqn:Hv; [|discriminate].
  apply validate_input_glue_shape in Hv.
  destruct Hv as [-> | (f & e & -> & Hf & He & Hc)]; [simpl; discriminate|].
  simpl getitem. cbv iota beta. rewrite Hc. simpl getitem. cbv iota beta.
  destruct (glue_ferc1_eia io f e) as [dfs|] eqn:Hg; [|discriminate].
  unfold dict_dump.
  destruct (emit_cases io (DictDump "Glue" (keys dfs) pkg_dir) w)
    as [H | [x H]]; rewrite H; [|discriminate].
  unfold ret. intros E. inversion E; subst.
  exists f, e, dfs. repeat split; auto.
  - destruct (truthy f), (truthy e); auto; discriminate Hc.
  - discriminate.
Qed.

Lemma etl_glue_returns_glue_tables_witness :
  exists f e glue_dfs,
    get_or (VDict [("ferc1", VBool true)]) "ferc1" (VBool false) = Ok f /\
    get_or (VDict [("ferc1", VBool true)]) "eia" (VBool false) = Ok e /\
    (truthy f = true \/ truthy e = true) /\
    glue_ferc1_eia sample_io f e = Ok glue_dfs /\
    strs ["plants_pudl"] = strs (keys glue_dfs) /\
    strs ["plants_pudl"] <> VStr "ahhhh this is not werking" /\
    {| open_sessions := [];
       log := [DictDump "Glue" ["plants_pudl"] "pkg"] |}
      = logged empty_world [DictDump "Glue" (keys glue_dfs) "pkg"].
Proof.
  apply (etl_glue_returns_glue_tables sample_io
           (VDict [("ferc1", VBool true)]) "pkg" empty_world).
  reflexivity.
Defined.

Section AdapterResults.

Variable pc : Constants.
Variable io : Collaborators.
Variable pkg_dir : string.












End AdapterResults.

Section ManifestEntries.

Variable pc : Constants.
Variable io : Collaborators.
Variable pkg_dir : string.



End ManifestEntries.



(** ** The bundle validator *)

Section BundleValidator.

Variable pc : Constants.

Lemma input_validation_functions_known (dataset : string) f :
  input_validation_functions pc dataset = Ok f -> known_dataset dataset = true.
Proof.
  unfold input_validation_functions, known_dataset. simpl.
  destruct (String.eqb dataset "eia"); [reflexivity|].
  destruct (String.eqb dataset "ferc1"); [reflexivity|].
  destruct (String.eqb dataset "epacems"); [reflexivity|].
  destruct (String.eqb dataset "glue"); [reflexivity|].
  destruct (String.eqb dataset "epaipm"); [reflexivity|].
  discriminate.
Qed.

Lemma input_validation_functions_unknown (dataset : string) :
  known_dataset dataset = false ->
  input_validation_functions pc dataset = Err (KeyError dataset).
Proof.
  unfold input_validation_functions, known_dataset. simpl.
  destruct (String.eqb dataset "eia"); [discriminate|].
  destruct (String.eqb dataset "ferc1"); [discriminate|].
  destruct (String.eqb dataset "epacems"); [discriminate|].
  destruct (String.eqb dataset "glue"); [discriminate|].
  destruct (String.eqb dataset "epaipm"); [discriminate|].
  reflexivity.
Qed.

Lemma validate_dataset_dict_kinds (d : dict) (ks : list string) :
  forall acc out,
    validate_dataset_dict pc d ks acc = Ok out ->
    forall k, In k ks -> known_dataset k = true.
Proof.
  induction ks as [|k0 ks IH]; intros acc out H k Hin; [contradiction|].
  cbn [validate_dataset_dict] in H.
  destruct (input_validation_functions pc k0) as [f|] eqn:Hf;
    [|discriminate].
  cbn [rbind] in H.
  destruct (getitem (VDict d) k0) as [v|]; [|discriminate].
  cbn [rbind] in H.
  destruct (f v) as [r|]; [|discriminate]. cbn [rbind] in H.
  destruct Hin as [<- | Hin].
  - eapply input_validation_functions_known; eassumption.
  - eapply IH; eassumption.
Qed.

Lemma validate_dataset_dict_entries (d : dict) (ks : list string) :
  forall acc out,
    Forall validated_entry acc ->
    validate_dataset_dict pc d ks acc = Ok out ->
    Forall validated_entry out.
Proof.
  induction ks as [|k0 ks IH]; intros acc out Hacc H;
    cbn [validate_dataset_dict] in H.
  - inversion H. now subst.
  - destruct (input_validation_functions pc k0) as [f|] eqn:Hf;
      [|discriminate].
    cbn [rbind] in H.
    destruct (getitem (VDict d) k0) as [v|]; [|discriminate].
    cbn [rbind] in H.
    destruct (f v) as [r|]; [|discriminate]. cbn [rbind] in H.
    apply IH in H; [assumption|].
    destruct (truthy r) eqn:Hr; [|assumption].
    apply Forall_app. split; [assumption|].
    constructor; [|constructor].
    exists k0, r. repeat split; try assumption.
    eapply input_validation_functions_known; eassumption.
Qed.

Lemma validate_datasets_kinds (dss : list dict) :
  forall acc out,
    validate_datasets pc dss acc = Ok out ->
    forall k, In k (flat_map keys dss) -> known_dataset k = true.
Proof.
  induction dss as [|d dss IH]; intros acc out H k Hin; [contradiction|].
  cbn [validate_datasets] in H. cbn [flat_map] in Hin.
  destruct (validate_dataset_dict pc d (keys d) acc) as [acc'|] eqn:Hd;
    [|discriminate].
  cbn [rbind] in H. apply in_app_or in Hin. destruct Hin as [Hin | Hin].
  - eapply validate_dataset_dict_kinds; eassumption.
  - eapply IH; eassumption.
Qed.

Lemma validate_datasets_entries (dss : list dict) :
  forall acc out,
    Forall validated_entry acc ->
    validate_datasets pc dss acc = Ok out ->
    Forall validated_entry out.
Proof.
  induction dss as [|d dss IH]; intros acc out Hacc H;
    cbn [validate_datasets] in H.
  - inversion H. now subst.
  - destruct (validate_dataset_dict pc d (keys d) acc) as [acc'|] eqn:Hd;
      [|discriminate].
    cbn [rbind] in H. eapply IH; [|eassumption].
    eapply validate_dataset_dict_entries; eassumption.
Qed.

End BundleValidator.

(** X4.  [validate_input] fails fast on an unknown dataset kind: if it
    returns, every key of every dataset entry of every package of the
    bundle is one of the five kinds. *)
Theorem validate_input_only_known_kinds :
  forall (pc : Constants) (pkgs out : list package),
    validate_input pc pkgs = Ok out ->
    forall k, In k (bundle_kinds pkgs) -> known_dataset k = true.
Proof.
  intros pc pkgs. induction pkgs as [|pkg pkgs IH]; intros out H k Hin;
    [contradiction|].
  cbn [validate_input] in H. unfold bundle_kinds in Hin.
  cbn [flat_map] in Hin.
  destruct (validate_datasets pc (datasets pkg) []) as [dds|] eqn:Hd;
    [|discriminate].
  cbn [rbind] in H.
  destruct (validate_input pc pkgs) as [rest|] eqn:Hr; [|discriminate].
  apply in_app_or in Hin. destruct Hin as [Hin | Hin].
  - eapply validate_datasets_kinds; eassumption.
  - eapply IH; [reflexivity | exact Hin].
Qed.

Lemma validate_input_only_known_kinds_witness :
  known_dataset "ferc1" = true.
Proof.
  apply (@validate_input_only_known_kinds sample_pc [ferc1_no_tables_pkg] _
           eq_refl "ferc1").
  left. reflexivity.
Defined.

(** X5.  Every package of a bundle returned by [validate_input] has the
    name, title and description of a package of the input, and a
    non-empty list of dataset entries, each of them one known kind with
    truthy validated parameters. *)
Theorem validate_input_keeps_requested_datasets :
  forall (pc : Constants) (pkgs out : list package),
    validate_input pc pkgs = Ok out ->
    Forall (fun o =>
              (exists pkg, In pkg pkgs /\ name o = name pkg /\
                           title o = title pkg /\
                           description o = description pkg) /\
              datasets o <> [] /\
              Forall validated_entry (datasets o)) out.
Proof.
  intros pc pkgs. induction pkgs as [|pkg pkgs IH]; intros out H.
  - inversion H. constructor.
  - cbn [validate_input] in H.
    destruct (validate_datasets pc (datasets pkg) []) as [dds|] eqn:Hd;
      [|discriminate].
    cbn [rbind] in H.
    destruct (validate_input pc pkgs) as [rest|] eqn:Hr; [|discriminate].
    cbn [rbind] in H.
    assert (Hrest : Forall (fun o =>
              (exists p, In p (pkg :: pkgs) /\ name o = name p /\
                         title o = title p /\
                         description o = description p) /\
              datasets o <> [] /\
              Forall validated_entry (datasets o)) rest).
    { eapply Forall_impl; [|apply IH; reflexivity].
      intros o ((p & Hp & Hn) & Hne & Hf). split; [|auto].
      exists p. split; [now right | exact Hn]. }
    destruct dds as [|dd dds]; inversion H; subst; [assumption|].
    constructor; [|assumption]. simpl. split; [|split].
    + exists pkg. split; [now left | auto].
    + discriminate.
    + eapply validate_datasets_entries; [|exact Hd]. constructor.
Qed.

Lemma validate_input_keeps_requested_datasets_witness :
  Forall (fun o =>
            (exists pkg, In pkg [ferc1_no_tables_pkg] /\ name o = name pkg /\
                         title o = title pkg /\
                         description o = description pkg) /\
            datasets o <> [] /\
            Forall validated_entry (datasets o))
    [{| name := "ferc1-static-only"; title := "FERC 1";
        description := "years without tables";
        datasets :=
          [[("ferc1",
             VDict [("ferc1_years", ints [2018]);
                    ("ferc1_tables", VList []);
                    ("ferc1_testing", VBool false);
                    ("debug", VBool false)])]] |}].
Proof.
  apply (@validate_input_keeps_requested_datasets sample_pc
           [ferc1_no_tables_pkg] _ eq_refl).
Defined.

Lemma validate_dataset_dict_all_skipped (pc : Constants) (d : dict)
    (ks : list string) (acc : list dict) :
  (forall k, In k ks ->
     exists f v r,
       input_validation_functions pc k = Ok f /\ lookup k d = Some v /\
       f v = Ok r /\ truthy r = false) ->
  validate_dataset_dict pc d ks acc = Ok acc.
Proof.
  induction ks as [|k ks IH]; intros H; [reflexivity|].
  cbn [validate_dataset_dict].
  destruct (H k (or_introl eq_refl)) as (f & v & r & Hf & Hl & Hv & Hr).
  rewrite Hf. cbn [rbind]. unfold getitem. rewrite Hl. cbn [rbind].
  rewrite Hv. cbn [rbind]. rewrite Hr.
  apply IH. intros k' Hk'. apply H. now right.
Qed.

(** X6.  A bundle in which every dataset of every package validates to
    the "not requested" signal gives the empty validated bundle, and no
    error: every package is dropped. *)
Theorem validate_input_drops_unrequested_packages :
  forall (pc : Constants) (pkgs : list package),
    (forall pkg ds k,
        In pkg pkgs -> In ds (datasets pkg) -> In k (keys ds) ->
        exists f v r,
          input_validation_functions pc k = Ok f /\ lookup k ds = Some v /\
          f v = Ok r /\ truthy r = false) ->
    validate_input pc pkgs = Ok [].
Proof.
  intros pc pkgs. induction pkgs as [|pkg pkgs IH]; intros H; [reflexivity|].
  cbn [validate_input].
  assert (Hd : forall dss acc,
             (forall ds, In ds dss -> In ds (datasets pkg)) ->
             validate_datasets pc dss acc = Ok acc).
  { induction dss as [|ds dss IHd]; intros acc Hin; [reflexivity|].
    cbn [validate_datasets].
    rewrite validate_dataset_dict_all_skipped.
    - cbn [rbind]. apply IHd. intros ds' Hds'. apply Hin. now right.
    - intros k Hk. apply (H pkg ds k); [now left | | exact Hk].
      apply Hin. now left. }
  rewrite Hd by auto. cbn [rbind].
  rewrite IH; [reflexivity|].
  intros p ds k Hp. apply H. now right.
Qed.

Lemma validate_input_drops_unrequested_packages_witness :
  validate_input sample_pc [nothing_requested_pkg] = Ok [].
Proof.
  apply (validate_input_drops_unrequested_packages sample_pc
           [nothing_requested_pkg]).
  intros pkg ds k [<- | []] [<- | [<- | []]] [<- | []].
  - exists (_validate_input_eia sample_pc), (VDict []), VNone.
    repeat split; reflexivity.
  - exists _validate_input_glue, (VDict [("eia", VBool false)]), (VDict []).
    repeat split; reflexivity.
Defined.

(** X7.  On a package whose first dataset key is none of the five kinds,
    [etl_pkg] raises the "Invalid dataset" [AssertionError], but only
    after the package directory has been reset: the reset is the one
    call that is made. *)
Theorem etl_pkg_rejects_unknown_kind_after_reset :
  forall (pc : Constants) (io : Collaborators) (n t d : string)
         (dataset : string) (params : pyval) (more : dict)
         (rest : list dict) (pudl_settings : pyval)
         (pkg_bundle_dir : string) (w : world),
    known_dataset dataset = false ->
    write_error io (PrepDir (os_path_join pkg_bundle_dir n)) = None ->
    etl_pkg pc io
      {| name := n; title := t; description := d;
         datasets := ((dataset, params) :: more) :: rest |}
      pudl_settings pkg_bundle_dir w
    = (Err (AssertionError
              ("Invalid dataset " ++ dataset ++ " found in input.")),
       logged w [PrepDir (os_path_join pkg_bundle_dir n)]).
Proof.
  intros pc io n t d dataset params more rest pudl_settings pkg_bundle_dir w
    Hk Hw.
  unfold etl_pkg, bind, _prep_directories, emit. cbn [name datasets].
  rewrite Hw. fold (logged w [PrepDir (os_path_join pkg_bundle_dir n)]).
  cbn [etl_datasets keys map fst etl_dataset_dict]. unfold bind.
  unfold etl_dataset.
  unfold known_dataset in Hk. simpl in Hk.
  destruct (String.eqb dataset "eia"); [discriminate|].
  destruct (String.eqb dataset "ferc1"); [discriminate|].
  destruct (String.eqb dataset "epacems"); [discriminate|].
  destruct (String.eqb dataset "glue"); [discriminate|].
  destruct (String.eqb dataset "epaipm"); [discriminate|].
  reflexivity.
Qed.

Lemma etl_pkg_rejects_unknown_kind_after_reset_witness :
  etl_pkg sample_pc sample_io unknown_kind_pkg
    (VDict [("data_dir", VStr "data")]) "out" empty_world
  = (Err (AssertionError "Invalid dataset eia861 found in input."),
     {| open_sessions := []; log := [PrepDir "out/unknown"] |}).
Proof.
  apply (etl_pkg_rejects_unknown_kind_after_reset sample_pc sample_io
           "unknown" "Unknown" "a kind that does not exist"
           "eia861" (VDict []) [] [[("epaipm", VDict [])]]
           (VDict [("data_dir", VStr "data")]) "out" empty_world);
    reflexivity.
Defined.

(** ** Validating a validated configuration again *)

(** After the two inferences of the EIA validator the two year lists are
    both empty or both non-empty. *)
Lemma eia_years_inferred_together (d : dict) :
  (truthy (eia923_years_inferred d) = true /\
   truthy (eia860_years_inferred d) = true /\
   eia_companion_forced d
   = negb (truthy (resolved d "eia923_years" (VList [])))) \/
  (truthy (eia923_years_inferred d) = false /\
   truthy (eia860_years_inferred d) = false).
Proof.
  unfold eia860_years_inferred, eia923_years_inferred, eia_companion_forced.
  destruct (truthy (resolved d "eia923_years" (VList []))) eqn:H923,
           (truthy (resolved d "eia860_years" (VList []))) eqn:H860;
    cbn [negb andb]; rewrite ?H923, ?H860; cbn [negb andb];
    rewrite ?H923, ?H860; auto.
Qed.

(** X8.  Re-validation of a validated EIA configuration is the identity:
    a config that [_validate_input_eia] returned (not the skip signal)
    validates to itself, so the adapter, which validates its parameters
    again, works on the config that the bundle validator produced. *)
Theorem validate_input_eia_idempotent :
  forall (pc : Constants) (etl_params cfg : pyval),
    _validate_input_eia pc etl_params = Ok cfg ->
    truthy cfg = true ->
    _validate_input_eia pc cfg = Ok cfg.
Proof.
  intros pc etl_params cfg H Hc.
  destruct etl_params as [| | | | |d]; try discriminate H.
  pose proof (validate_input_eia_unfold pc d) as U. cbv zeta in U.
  rewrite U in H. clear U.
  set (t860 := resolved d "eia860_tables" (strs (pudl_tables pc "eia860")))
    in *.
  set (t923 := eia923_tables_inferred pc d) in *.
  set (y860 := eia860_years_inferred d) in *.
  set (y923 := eia923_years_inferred d) in *.
  destruct (eia_years_inferred_together d) as [(H923 & H860 & _) | (H923 & H860)];
    fold y923 in H923; fold y860 in H860.
  2:{ do 6 returned_step H. rewrite H923, H860 in H. inversion H; subst.
      discriminate Hc. }
  set (d' := [("eia860_years", y860); ("eia860_tables", t860);
              ("eia923_years", y923); ("eia923_tables", t923)]).
  pose proof (validate_input_eia_unfold pc d') as U. cbv zeta in U.
  assert (C : eia_companion_forced d' = false).
  { change (eia_companion_forced d')
      with (negb (truthy y923) && truthy y860).
    now rewrite H923. }
  assert (E923 : eia923_years_inferred d' = y923).
  { unfold eia923_years_inferred. now rewrite C. }
  assert (E860 : eia860_years_inferred d' = y860).
  { change (eia860_years_inferred d')
      with (if negb (truthy y860) && truthy (eia923_years_inferred d')
            then eia923_years_inferred d' else y860).
    now rewrite H860. }
  assert (T923 : eia923_tables_inferred pc d' = t923).
  { unfold eia923_tables_inferred. now rewrite C. }
  rewrite E923, E860, T923 in U.
  change (resolved d' "eia860_tables" (strs (pudl_tables pc "eia860")))
    with t860 in U.
  assert (Hcfg : cfg = VDict d').
  { do 6 returned_step H. rewrite H923, H860 in H. now inversion H. }
  rewrite Hcfg, U. rewrite <- Hcfg. exact H.
Qed.

Lemma validate_input_eia_idempotent_witness :
  _validate_input_eia sample_pc
    (VDict [("eia860_years", ints [2018]);
            ("eia860_tables", strs ["plants_eia860"; "generators_eia860"]);
            ("eia923_years", ints [2018]);
            ("eia923_tables",
             strs ["boiler_fuel_eia923"; "generation_eia923"])])
  = Ok (VDict [("eia860_years", ints [2018]);
               ("eia860_tables", strs ["plants_eia860"; "generators_eia860"]);
               ("eia923_years", ints [2018]);
               ("eia923_tables",
                strs ["boiler_fuel_eia923"; "generation_eia923"])]).
Proof.
  apply (@validate_input_eia_idempotent sample_pc
           (VDict [("eia860_years", ints [2018])]) _ eq_refl eq_refl).
Defined.

(** X9.  Re-validation of a validated FERC 1 configuration is the
    identity; the skip signal itself is not a fixed point: validated
    again, the empty dict becomes the fully defaulted configuration or
    an error of the table check. *)
Theorem validate_input_ferc1_idempotent :
  forall (pc : Constants) (etl_params cfg : pyval),
    _validate_input_ferc1 pc etl_params = Ok cfg ->
    (truthy cfg = true -> _validate_input_ferc1 pc cfg = Ok cfg) /\
    (truthy cfg = false ->
     cfg = VDict [] /\ _validate_input_ferc1 pc cfg <> Ok cfg).
Proof.
  intros pc etl_params cfg H.
  destruct etl_params as [| | | | |d]; try discriminate H.
  pose proof (validate_input_ferc1_unfold pc d) as F. cbv zeta in F.
  rewrite F in H. clear F.
  set (ys := resolved d "ferc1_years" (VList [VNone])) in *.
  set (ts := resolved d "ferc1_tables" (strs (pudl_tables pc "ferc1"))) in *.
  set (tst := resolved d "ferc1_testing" (VBool false)) in *.
  set (d' := [("ferc1_years", ys); ("ferc1_tables", ts);
              ("ferc1_testing", tst); ("debug", flag d "debug")]).
  pose proof (validate_input_ferc1_unfold pc d') as F. cbv zeta in F.
  change (flag d' "debug") with (flag d "debug") in F.
  change (resolved d' "ferc1_tables" (strs (pudl_tables pc "ferc1")))
    with ts in F.
  change (resolved d' "ferc1_years" (VList [VNone])) with ys in F.
  change (resolved d' "ferc1_testing" (VBool false)) with tst in F.
  fold d' in F.
  assert (Hcases : cfg = VDict d' \/ cfg = VDict []).
  { revert H. destruct (if negb (truthy (flag d "debug")) then _ else _);
      cbn [rbind]; [|discriminate].
    destruct (negb (truthy ys)); intros H; inversion H; auto. }
  destruct Hcases as [-> | ->].
  - split; [intros _ | discriminate]. rewrite F. exact H.
  - split; [discriminate | intros _]. split; [reflexivity|].
    pose proof (validate_input_ferc1_unfold pc []) as E. cbv zeta in E.
    rewrite E. clear E.
    change (flag [] "debug") with (VBool false). cbn [truthy negb].
    match goal with
    | |- rbind ?r _ <> _ => destruct r; simpl; discriminate
    end.
Qed.

Lemma validate_input_ferc1_idempotent_witness :
  _validate_input_ferc1 sample_pc
    (VDict [("ferc1_years", ints [2018]);
            ("ferc1_tables", strs ["fuel_ferc1"; "plants_steam_ferc1"]);
            ("ferc1_testing", VBool false); ("debug", VBool false)])
  = Ok (VDict [("ferc1_years", ints [2018]);
               ("ferc1_tables", strs ["fuel_ferc1"; "plants_steam_ferc1"]);
               ("ferc1_testing", VBool false); ("debug", VBool false)]).
Proof.
  apply (proj1 (@validate_input_ferc1_idempotent sample_pc
                  (VDict [("ferc1_years", ints [2018])]) _ eq_refl)).
  reflexivity.
Defined.

(** X10.  Re-validation is the identity on everything that the glue and
    the EPA IPM validators return: a validated glue configuration, the
    glue skip signal, and a validated EPA IPM configuration all validate
    to themselves. *)
Theorem validate_input_glue_epaipm_idempotent :
  forall (etl_params cfg : pyval),
    (_validate_input_glue etl_params = Ok cfg ->
     _validate_input_glue cfg = Ok cfg) /\
    (_validate_input_epaipm etl_params = Ok cfg ->
     _validate_input_epaipm cfg = Ok cfg).
Proof.
  intros etl_params cfg. split.
  - intros H. apply validate_input_glue_shape in H.
    destruct H as [-> | (f & e & -> & _ & _ & Hc)]; [reflexivity|].
    unfold _validate_input_glue. simpl.
    rewrite andb_comm in Hc. now rewrite Hc.
  - unfold _validate_input_epaipm.
    destruct (get_or etl_params "epaipm_tables" (VList [VNone])) as [v|];
      [|discriminate].
    simpl. intros H. inversion H. reflexivity.
Qed.

Lemma validate_input_glue_epaipm_idempotent_witness :
  _validate_input_glue (VDict [("ferc1", VBool true); ("eia", VBool false)])
  = Ok (VDict [("ferc1", VBool true); ("eia", VBool false)]).
Proof.
  apply (proj1 (validate_input_glue_epaipm_idempotent
                  (VDict [("ferc1", VBool true)])
                  (VDict [("ferc1", VBool true); ("eia", VBool false)]))).
  reflexivity.
Defined.

(** ** The partition of a table *)

Lemma for_each_ok {A} (xs : list A) (body : A -> result unit) :
  for_each xs body = Ok tt -> forall x, In x xs -> body x = Ok tt.
Proof.
  induction xs as [|x0 xs IH]; intros H x Hin; [contradiction|].
  simpl in H. destruct (body x0) as [u|] eqn:Hb; [|discriminate].
  destruct Hin as [<- | Hin]; [now destruct u | now apply IH].
Qed.

(** The check of one table against the partition dict [pdv]. *)
Lemma partition_body_ok (pdv : pyval) (d : dict) (table : string) :
  (p <- getitem pdv table ;;
   ks <- Ok d ;;
   b <- in_keys p ks ;;
   if negb b then Err (AssertionError "Partion not recognized")
   else Ok tt) = Ok tt ->
  exists pd s,
    pdv = VDict pd /\ lookup table pd = Some (VStr s) /\ has_key s d = true.
Proof.
  unfold getitem. destruct pdv as [| | | | |pd]; try discriminate.
  destruct (lookup table pd) as [p|] eqn:Hl; [|discriminate].
  cbn [rbind]. destruct p as [| | |s| |]; simpl; try discriminate.
  destruct (has_key s d) eqn:Hk; [|discriminate].
  intros _. now exists pd, s.
Qed.

Lemma partition_body_keyerror (pdv : pyval) (d : dict) (table k : string) :
  (p <- getitem pdv table ;;
   ks <- Ok d ;;
   b <- in_keys p ks ;;
   if negb b then Err (AssertionError "Partion not recognized")
   else Ok tt) = Err (KeyError k) ->
  exists pd, pdv = VDict pd /\ lookup table pd = None.
Proof.
  unfold getitem. destruct pdv as [| | | | |pd]; try discriminate.
  destruct (lookup table pd) as [p|] eqn:Hl.
  - cbn [rbind]. destruct p as [| | |s| |]; simpl; try discriminate.
    destruct (has_key s d); discriminate.
  - intros _. now exists pd.
Qed.

Lemma partition_cases (d : dict) (tables : list string) (p : pyval) :
  _validate_input_partition (VDict d) tables = Ok p ->
  (lookup "partition" d = None /\ p = VDict [("partition", VNone)]) \/
  (exists pdv,
      lookup "partition" d = Some pdv /\ p = pdv /\
      forall t, In t tables ->
        exists pd s, pdv = VDict pd /\ lookup t pd = Some (VStr s) /\
                     has_key s d = true) \/
  (exists pd t,
      lookup "partition" d = Some (VDict pd) /\ In t tables /\
      lookup t pd = None /\ p = VDict (dict_set "partition" VNone pd)).
Proof.
  unfold _validate_input_partition. cbn [getitem].
  destruct (lookup "partition" d) as [pdv|] eqn:Hl.
  2:{ simpl. intros H. inversion H. now left. }
  destruct (for_each tables _) as [u|e] eqn:Hf.
  - intros H. inversion H; subst p. right. left. exists pdv.
    repeat split. intros t Ht. destruct u.
    apply (for_each_ok _ _ Hf) in Ht. now apply partition_body_ok in Ht.
  - destruct e as [|k| | | |]; try discriminate.
    apply for_each_error in Hf. destruct Hf as (t & Ht & Hb).
    apply partition_body_keyerror in Hb. destruct Hb as (pd & -> & Hn).
    simpl. intros H. inversion H. right. right. now exists pd, t.
Qed.

(** X11.  What a successful [_validate_input_partition] means.  Without
    a ['partition'] entry the result is [{'partition': None}].  With an
    entry, either every table has a partition in it that is a string
    naming a key of the raw configuration, and the entry is returned as
    it is; or some table has no partition in it, and the entry is
    returned with ['partition': None] added, the check of the remaining
    tables being skipped. *)
Theorem validate_input_partition_sound :
  forall (d : dict) (tables : list string) (p : pyval),
    _validate_input_partition (VDict d) tables = Ok p ->
    (lookup "partition" d = None /\ p = VDict [("partition", VNone)]) \/
    (exists pdv,
        lookup "partition" d = Some pdv /\ p = pdv /\
        forall t, In t tables ->
          exists pd s, pdv = VDict pd /\ lookup t pd = Some (VStr s) /\
                       has_key s d = true) \/
    (exists pd t,
        lookup "partition" d = Some (VDict pd) /\ In t tables /\
        lookup t pd = None /\ p = VDict (dict_set "partition" VNone pd)).
Proof. exact partition_cases. Qed.

Lemma validate_input_partition_sound_witness :
  (lookup "partition"
     [("epacems_years", ints [2018]);
      ("partition",
       VDict [("hourly_emissions_epacems", VStr "epacems_years")])] = None /\
   VDict [("hourly_emissions_epacems", VStr "epacems_years")]
   = VDict [("partition", VNone)]) \/
  (exists pdv,
      lookup "partition"
        [("epacems_years", ints [2018]);
         ("partition",
          VDict [("hourly_emissions_epacems", VStr "epacems_years")])]
      = Some pdv /\
      VDict [("hourly_emissions_epacems", VStr "epacems_years")] = pdv /\
      forall t, In t ["hourly_emissions_epacems"] ->
        exists pd s, pdv = VDict pd /\ lookup t pd = Some (VStr s) /\
                     has_key s
                       [("epacems_years", ints [2018]);
                        ("partition",
                         VDict [("hourly_emissions_epacems",
                                 VStr "epacems_years")])] = true) \/
  (exists pd t,
      lookup "partition"
        [("epacems_years", ints [2018]);
         ("partition",
          VDict [("hourly_emissions_epacems", VStr "epacems_years")])]
      = Some (VDict pd) /\
      In t ["hourly_emissions_epacems"] /\
      lookup t pd = None /\
      VDict [("hourly_emissions_epacems", VStr "epacems_years")]
      = VDict (dict_set "partition" VNone pd)).
Proof.
  apply (validate_input_partition_sound
           [("epacems_years", ints [2018]);
            ("partition",
             VDict [("hourly_emissions_epacems", VStr "epacems_years")])]
           ["hourly_emissions_epacems"]).
  reflexivity.
Defined.

(** ** The emissions validator *)

Lemma validate_input_epacems_unfold (pc : Constants) (d : dict) :
  _validate_input_epacems pc (VDict d)
  = (sts <- epacems_states_expanded pc d ;;
     p <- _validate_input_partition (VDict d) [epacems_tables pc] ;;
     _ <- (if negb (truthy p)
           then Err (AssertionError no_partition_msg) else Ok tt) ;;
     let ys := resolved d "epacems_years" (VList [VNone]) in
     if negb (truthy ys) || negb (truthy sts) then Ok VNone
     else Ok (VDict [("epacems_years", ys); ("epacems_states", sts);
                     ("partition", p)])).
Proof.
  unfold _validate_input_epacems, epacems_states_expanded.
  rewrite !get_or_dict.
  fold (resolved d "epacems_years" (VList [VNone])).
  fold (resolved d "epacems_states" (VList [])).
  set (ys := resolved d "epacems_years" (VList [VNone])).
  set (sts := resolved d "epacems_states" (VList [])).
  cbn [setitem rbind getitem lookup dict_set String.eqb Ascii.eqb Bool.eqb].
  destruct (truthy sts); cbn [rbind].
  2:{ destruct (_validate_input_partition _ _); reflexivity. }
  destruct (getitem0 sts) as [s0|]; cbn [rbind]; [|reflexivity].
  destruct (lower s0) as [l|]; cbn [rbind]; [|reflexivity].
  destruct (String.eqb l "all");
    cbn [setitem rbind getitem lookup dict_set String.eqb Ascii.eqb
         Bool.eqb];
    destruct (_validate_input_partition _ _); reflexivity.
Qed.

(** X12.  The first requested state alone decides the expansion of
    ['all'] in [_validate_input_epacems], and its case does not matter:
    when it is a string that lowercases to "all", every config returned
    has all the states of [pc.cems_states], whatever else was listed;
    otherwise every config returned has the states as requested. *)
Theorem validate_input_epacems_all_states :
  forall (pc : Constants) (d : dict) (s : string) (others : list pyval)
         (cfg : pyval),
    resolved d "epacems_states" (VList []) = VList (VStr s :: others) ->
    _validate_input_epacems pc (VDict d) = Ok cfg ->
    truthy cfg = true ->
    getitem cfg "epacems_states"
    = Ok (if String.eqb (lower_string s) "all"
          then strs (cems_states pc)
          else VList (VStr s :: others)).
Proof.
  intros pc d s others cfg Hs H Hc.
  rewrite validate_input_epacems_unfold in H.
  unfold epacems_states_expanded in H. rewrite Hs in H.
  cbn [truthy getitem0 lower rbind] in H.
  destruct (String.eqb (lower_string s) "all"); cbn [rbind] in H;
    do 2 returned_step H; cbv zeta in H;
    (destruct (negb _ || negb _); inversion H; subst;
     [discriminate Hc | reflexivity]).
Qed.

Lemma validate_input_epacems_all_states_witness :
  getitem
    (VDict [("epacems_years", ints [2018]);
            ("epacems_states", strs ["CO"; "ID"; "TX"]);
            ("partition", VDict [("partition", VNone)])])
    "epacems_states"
  = Ok (if String.eqb (lower_string "All") "all"
        then strs (cems_states sample_pc)
        else VList [VStr "All"; VStr "CO"]).
Proof.
  apply (@validate_input_epacems_all_states sample_pc
           [("epacems_years", ints [2018]);
            ("epacems_states", strs ["All"; "CO"])]
           "All" [VStr "CO"] _ eq_refl eq_refl eq_refl).
Defined.

Lemma lookup_dict_set_other k k' v d :
  String.eqb k' k = false -> lookup k' (dict_set k v d) = lookup k' d.
Proof.
  intros Hk. induction d as [|[k0 v0] d IH]; simpl.
  - now rewrite Hk.
  - destruct (String.eqb k k0) eqn:E; simpl.
    + apply String.eqb_eq in E. subst k0. now rewrite Hk.
    + now rewrite IH.
Qed.

Lemma dict_set_twice k v d : dict_set k v (dict_set k v d) = dict_set k v d.
Proof.
  induction d as [|[k0 v0] d IH]; simpl.
  - now rewrite String.eqb_refl.
  - destruct (String.eqb k k0) eqn:E; simpl.
    + now rewrite String.eqb_refl.
    + now rewrite E, IH.
Qed.

Lemma epacems_states_expanded_stable (pc : Constants) (d d' : dict)
    (sts : pyval) :
  epacems_states_expanded pc d = Ok sts ->
  truthy sts = true ->
  resolved d' "epacems_states" (VList []) = sts ->
  epacems_states_expanded pc d' = Ok sts.
Proof.
  unfold epacems_states_expanded. intros H Ht Hr. rewrite Hr, Ht. clear Hr.
  destruct (truthy (resolved d "epacems_states" (VList []))) eqn:T0.
  2:{ inversion H as [E1]. rewrite <- E1, T0 in Ht. discriminate. }
  destruct (getitem0 _) as [s0|] eqn:H0; [|discriminate].
  cbn [rbind] in H.
  destruct (lower s0) as [l|] eqn:Hl; [|discriminate].
  cbn [rbind] in H.
  destruct (String.eqb l "all") eqn:E; inversion H as [E1];
    rewrite <- E1 in *.
  - destruct (cems_states pc) as [|c cs]; [simpl in Ht; discriminate Ht|].
    simpl. now destruct (String.eqb (lower_string c) "all").
  - rewrite H0. cbn [rbind]. rewrite Hl. cbn [rbind]. now rewrite E.
Qed.

Lemma partition_single (d pd : dict) (t : string) :
  lookup "partition" d = Some (VDict pd) ->
  _validate_input_partition (VDict d) [t]
  = match lookup t pd with
    | None => Ok (VDict (dict_set "partition" VNone pd))
    | Some v =>
        b <- in_keys v d ;;
        if negb b then Err (AssertionError "Partion not recognized")
        else Ok (VDict pd)
    end.
Proof.
  intros Hl. unfold _validate_input_partition. cbn [getitem]. rewrite Hl.
  cbn [for_each getitem]. destruct (lookup t pd) as [v|]; [|reflexivity].
  cbn [rbind]. destruct v as [| | |s| |]; simpl; try reflexivity.
  now destruct (has_key s d).
Qed.

(** X13.  Validating a validated emissions configuration again, as the
    adapter does.  When the partition dict has no entry for the
    emissions table, or its entry names one of the three fields that the
    validated configuration keeps, the configuration validates to
    itself.  When the entry names any other field of the raw
    configuration, the first validation accepts it and the second one
    raises "Partion not recognized". *)
Theorem validate_input_epacems_revalidation :
  forall (pc : Constants) (etl_params cfg : pyval),
    _validate_input_epacems pc etl_params = Ok cfg ->
    truthy cfg = true ->
    epacems_tables pc <> "partition" ->
    exists d' p,
      cfg = VDict d' /\
      keys d' = ["epacems_years"; "epacems_states"; "partition"] /\
      getitem cfg "partition" = Ok p /\
      _validate_input_epacems pc cfg
      = match getitem p (epacems_tables pc) with
        | Ok (VStr s) =>
            if has_key s d' then Ok cfg
            else Err (AssertionError "Partion not recognized")
        | _ => Ok cfg
        end.
Proof.
  intros pc etl_params cfg H Hc Ht.
  destruct etl_params as [| | | | |d]; try discriminate H.
  rewrite validate_input_epacems_unfold in H.
  destruct (epacems_states_expanded pc d) as [sts|] eqn:Hs; [|discriminate].
  cbn [rbind] in H.
  destruct (_validate_input_partition (VDict d) [epacems_tables pc])
    as [p|] eqn:Hp; [|discriminate].
  cbn [rbind] in H.
  assert (Hpt : truthy p = true).
  { apply nonempty_dict_truthy.
    eapply partition_result_nonempty; [|eassumption]. discriminate. }
  rewrite Hpt in H. cbn [negb rbind] in H. cbv zeta in H.
  set (ys := resolved d "epacems_years" (VList [VNone])) in *.
  destruct (truthy ys) eqn:Hy; [|inversion H; subst; discriminate Hc].
  destruct (truthy sts) eqn:Hst; [|inversion H; subst; discriminate Hc].
  cbn [negb orb] in H. inversion H as [Hcfg]. clear H.
  set (d' := [("epacems_years", ys); ("epacems_states", sts);
              ("partition", p)]).
  exists d', p. split; [reflexivity|]. split; [reflexivity|].
  split; [reflexivity|].
  rewrite validate_input_epacems_unfold.
  rewrite (@epacems_states_expanded_stable pc d d' sts Hs Hst eq_refl).
  cbn [rbind].
  change (resolved d' "epacems_years" (VList [VNone])) with ys.
  assert (Hne : String.eqb (epacems_tables pc) "partition" = false).
  { apply String.eqb_neq. exact Ht. }
  assert (Hfix : forall pd,
             p = VDict pd -> lookup (epacems_tables pc) pd = None ->
             dict_set "partition" VNone pd = pd ->
             (p0 <- _validate_input_partition (VDict d') [epacems_tables pc] ;;
              _ <- (if negb (truthy p0)
                    then Err (AssertionError no_partition_msg) else Ok tt) ;;
              (if negb (truthy ys) || negb (truthy sts) then Ok VNone
               else Ok (VDict [("epacems_years", ys); ("epacems_states", sts);
                               ("partition", p0)])))
             = match getitem p (epacems_tables pc) with
               | Ok (VStr s) =>
                   if has_key s d' then Ok (VDict d')
                   else Err (AssertionError "Partion not recognized")
               | _ => Ok (VDict d')
               end).
  { intros pd -> Hn Hset.
    rewrite (@partition_single d' pd (epacems_tables pc) eq_refl).
    cbn [getitem]. rewrite Hn, Hset. cbn [rbind]. rewrite Hpt.
    cbn [negb rbind]. now rewrite Hy, Hst. }
  apply partition_cases in Hp.
  destruct Hp as [(Hl & ->) | [(pdv & Hl & <- & Hall) | (pd & t & Hl & Hin & Hn & ->)]].
  - apply (Hfix [("partition", VNone)]); [reflexivity | | reflexivity].
    simpl. now rewrite Hne.
  - destruct (Hall (epacems_tables pc) (or_introl eq_refl))
      as (pd & s & -> & Hls & Hk).
    rewrite (@partition_single d' pd (epacems_tables pc) eq_refl).
    cbn [getitem]. rewrite Hls. cbn [in_keys rbind].
    destruct (has_key s d'); cbn [negb]; [|reflexivity].
    cbn [rbind]. rewrite Hpt. cbn [negb rbind]. now rewrite Hy, Hst.
  - destruct Hin as [<- | []].
    apply (Hfix (dict_set "partition" VNone pd)); [reflexivity | |].
    + now rewrite lookup_dict_set_other.
    + apply dict_set_twice.
Qed.

Lemma validate_input_epacems_revalidation_witness :
  exists d' p,
    VDict [("epacems_years", ints [2018]); ("epacems_states", strs ["CO"]);
           ("partition",
            VDict [("hourly_emissions_epacems", VStr "plant_ids")])]
    = VDict d' /\
    keys d' = ["epacems_years"; "epacems_states"; "partition"] /\
    getitem
      (VDict [("epacems_years", ints [2018]); ("epacems_states", strs ["CO"]);
              ("partition",
               VDict [("hourly_emissions_epacems", VStr "plant_ids")])])
      "partition" = Ok p /\
    _validate_input_epacems sample_pc
      (VDict [("epacems_years", ints [2018]); ("epacems_states", strs ["CO"]);
              ("partition",
               VDict [("hourly_emissions_epacems", VStr "plant_ids")])])
    = match getitem p (epacems_tables sample_pc) with
      | Ok (VStr s) =>
          if has_key s d'
          then Ok (VDict [("epacems_years", ints [2018]);
                          ("epacems_states", strs ["CO"]);
                          ("partition",
                           VDict [("hourly_emissions_epacems",
                                   VStr "plant_ids")])])
          else Err (AssertionError "Partion not recognized")
      | _ => Ok (VDict [("epacems_years", ints [2018]);
                        ("epacems_states", strs ["CO"]);
                        ("partition",
                         VDict [("hourly_emissions_epacems",
                                 VStr "plant_ids")])])
      end.
Proof.
  apply (@validate_input_epacems_revalidation sample_pc
           (VDict [("epacems_years", ints [2018]);
                   ("epacems_states", strs ["CO"]);
                   ("plant_ids", ints [3]);
                   ("partition",
                    VDict [("hourly_emissions_epacems", VStr "plant_ids")])])
           _ eq_refl eq_refl).
  discriminate.
Defined.

(** ** The adapters on configurations that are not requested *)

Lemma validate_input_ferc1_skips (pc : Constants) (d : dict) :
  truthy (resolved d "ferc1_years" (VList [VNone])) = false ->
  _validate_input_ferc1 pc (VDict d) = Ok (VDict []) \/
  exists e, _validate_input_ferc1 pc (VDict d) = Err e.
Proof.
  intros Hy. pose proof (validate_input_ferc1_unfold pc d) as F.
  cbv zeta in F. rewrite F. skip_or_continue. rewrite Hy. now left.
Qed.

Lemma validate_input_eia_skips (pc : Constants) (d : dict) :
  truthy (resolved d "eia860_years" (VList [])) = false ->
  truthy (resolved d "eia923_years" (VList [])) = false ->
  _validate_input_eia pc (VDict d) = Ok VNone \/
  exists e, _validate_input_eia pc (VDict d) = Err e.
Proof.
  intros H860 H923.
  pose proof (validate_input_eia_unfold pc d) as U. cbv zeta in U.
  assert (C : eia_companion_forced d = false).
  { unfold eia_companion_forced. now rewrite H860, andb_false_r. }
  assert (I923 : truthy (eia923_years_inferred d) = false).
  { unfold eia923_years_inferred. now rewrite C. }
  assert (I860 : truthy (eia860_years_inferred d) = false).
  { unfold eia860_years_inferred. rewrite I923, andb_false_r. exact H860. }
  rewrite U. do 6 skip_or_continue. rewrite I923, I860. now left.
Qed.

(** X14.  The adapters do not turn the "not requested" signal into an
    empty result: with empty FERC 1 years, with both EIA year lists
    empty, or with empty emissions years or states, the adapter raises
    and writes nothing.  When the validator accepted the parameters, the
    error comes from indexing its signal: [KeyError('ferc1_years')] on
    the empty dict, [TypeError] on [None]. *)
Theorem adapters_raise_on_skip_signal :
  forall (pc : Constants) (io : Collaborators) (d : dict) (aux : pyval)
         (pkg_dir : string) (w : world),
    (truthy (resolved d "ferc1_years" (VList [VNone])) = false ->
     exists e,
       _etl_ferc1_pkg pc io (VDict d) aux pkg_dir w = (Err e, w) /\
       (_validate_input_ferc1 pc (VDict d) = Ok (VDict []) ->
        e = KeyError "ferc1_years")) /\
    (truthy (resolved d "eia860_years" (VList [])) = false ->
     truthy (resolved d "eia923_years" (VList [])) = false ->
     exists e,
       _etl_eia_pkg pc io (VDict d) aux pkg_dir w = (Err e, w) /\
       (_validate_input_eia pc (VDict d) = Ok VNone -> e = TypeError)) /\
    (truthy (resolved d "epacems_years" (VList [VNone])) = false \/
     truthy (resolved d "epacems_states" (VList [])) = false ->
     exists e,
       _etl_epacems_pkg pc io (VDict d) aux pkg_dir w = (Err e, w) /\
       (_validate_input_epacems pc (VDict d) = Ok VNone -> e = TypeError)).
Proof.
  intros pc io d aux pkg_dir w. split; [|split].
  - intros Hy. unfold _etl_ferc1_pkg, bind, lift.
    destruct (validate_input_ferc1_skips pc d Hy) as [-> | [e ->]].
    + simpl. eexists. split; [reflexivity | reflexivity].
    + exists e. split; [reflexivity | discriminate].
  - intros H860 H923. unfold _etl_eia_pkg, bind, lift.
    destruct (validate_input_eia_skips pc d H860 H923) as [-> | [e ->]].
    + simpl. eexists. split; [reflexivity | reflexivity].
    + exists e. split; [reflexivity | discriminate].
  - intros Hs. unfold _etl_epacems_pkg, bind, lift.
    destruct (validate_input_epacems_skips pc d Hs) as [-> | [e ->]].
    + simpl. eexists. split; [reflexivity | reflexivity].
    + exists e. split; [reflexivity | discriminate].
Qed.

Lemma adapters_raise_on_skip_signal_witness :
  exists e,
    _etl_ferc1_pkg sample_pc sample_io (VDict [("ferc1_years", VList [])])
      (VDict []) "pkg" empty_world = (Err e, empty_world) /\
    (_validate_input_ferc1 sample_pc (VDict [("ferc1_years", VList [])])
       = Ok (VDict []) ->
     e = KeyError "ferc1_years").
Proof.
  apply (proj1 (adapters_raise_on_skip_signal sample_pc sample_io
                  [("ferc1_years", VList [])] (VDict []) "pkg"
                  empty_world)).
  reflexivity.
Defined.

(** X15.  A raw emissions configuration without a ['partition'] entry
    that the validator accepts makes the adapter raise
    [KeyError(pc.epacems_tables)] before anything is extracted or
    written: the validated partition [{'partition': None}] has no entry
    for the emissions table. *)
Theorem etl_epacems_pkg_needs_partition :
  forall (pc : Constants) (io : Collaborators) (d : dict)
         (data_dir cfg : pyval) (pkg_dir : string) (w : world),
    lookup "partition" d = None ->
    epacems_tables pc <> "partition" ->
    _validate_input_epacems pc (VDict d) = Ok cfg ->
    truthy cfg = true ->
    _etl_epacems_pkg pc io (VDict d) data_dir pkg_dir w
    = (Err (KeyError (epacems_tables pc)), w).
Proof.
  intros pc io d data_dir cfg pkg_dir w Hl Ht H Hc.
  unfold _etl_epacems_pkg, bind, lift. rewrite H.
  rewrite validate_input_epacems_unfold in H.
  destruct (epacems_states_expanded pc d) as [sts|]; [|discriminate].
  cbn [rbind] in H.
  assert (Hp : _validate_input_partition (VDict d) [epacems_tables pc]
               = Ok (VDict [("partition", VNone)])).
  { unfold _validate_input_partition. cbn [getitem]. now rewrite Hl. }
  rewrite Hp in H. cbn [rbind truthy negb] in H. cbv zeta in H.
  destruct (truthy (resolved d "epacems_years" (VList [VNone]))) eqn:Hy;
    [|inversion H; subst; discriminate Hc].
  destruct (truthy sts) eqn:Hs; [|inversion H; subst; discriminate Hc].
  cbn [negb orb] in H. inversion H; subst cfg.
  cbn [getitem lookup String.eqb Ascii.eqb Bool.eqb]. rewrite Hy, Hs.
  cbn [negb orb].
  assert (Hne : String.eqb (epacems_tables pc) "partition" = false).
  { apply String.eqb_neq. exact Ht. }
  rewrite Hne. reflexivity.
Qed.

Lemma etl_epacems_pkg_needs_partition_witness :
  _etl_epacems_pkg sample_pc sample_io
    (VDict [("epacems_years", ints [2018]); ("epacems_states", strs ["CO"])])
    (VStr "data") "pkg" empty_world
  = (Err (KeyError "hourly_emissions_epacems"), empty_world).
Proof.
  apply (@etl_epacems_pkg_needs_partition sample_pc sample_io
           [("epacems_years", ints [2018]); ("epacems_states", strs ["CO"])]
           (VStr "data")
           (VDict [("epacems_years", ints [2018]);
                   ("epacems_states", strs ["CO"]);
                   ("partition", VDict [("partition", VNone)])])
           "pkg" empty_world eq_refl).
  - discriminate.
  - reflexivity.
  - reflexivity.
Defined.

(** ** What a validated configuration guarantees *)

Lemma check_members_all xs universe msg tail :
  check_members xs universe msg tail = Ok tt ->
  forall x, In x xs -> mem x universe = true.
Proof.
  unfold check_members. intros H x Hin.
  apply (for_each_ok _ _ H) in Hin.
  destruct (mem x universe); [reflexivity | discriminate Hin].
Qed.

Lemma checked_list_all (v : pyval) universe msg tail (u : unit) :
  (if truthy v then ts <- iter v ;; check_members ts universe msg tail
   else Ok tt) = Ok u ->
  forall ts t, v = VList ts -> In t ts -> mem t universe = true.
Proof.
  intros H ts t -> Hin. rewrite (@nonempty_list_truthy _ _ Hin) in H.
  cbn [iter rbind] in H. destruct u.
  eapply check_members_all; eassumption.
Qed.

(** X16.  What the validators let through is in the universe.  In every
    config that [_validate_input_eia] returns, the tables and the years
    of both forms, when they are lists, only hold members of
    [pc.eia860_pudl_tables], [pc.eia923_pudl_tables] and
    [pc.working_years]; in every config that [_validate_input_ferc1]
    returns with a falsy [debug], the tables, when they are a list, only
    hold members of [pc.ferc1_pudl_tables]. *)
Theorem validated_requests_in_universe :
  forall (pc : Constants) (etl_params cfg : pyval),
    truthy cfg = true ->
    (_validate_input_eia pc etl_params = Ok cfg ->
     (forall ts t, getitem cfg "eia860_tables" = Ok (VList ts) -> In t ts ->
                   mem t (map VStr (eia860_pudl_tables pc)) = true) /\
     (forall ts t, getitem cfg "eia923_tables" = Ok (VList ts) -> In t ts ->
                   mem t (map VStr (eia923_pudl_tables pc)) = true) /\
     (forall ys y, getitem cfg "eia860_years" = Ok (VList ys) -> In y ys ->
                   mem y (map VInt (working_years pc "eia860")) = true) /\
     (forall ys y, getitem cfg "eia923_years" = Ok (VList ys) -> In y ys ->
                   mem y (map VInt (working_years pc "eia923")) = true)) /\
    (_validate_input_ferc1 pc etl_params = Ok cfg ->
     forall dbg ts t,
       getitem cfg "debug" = Ok dbg -> truthy dbg = false ->
       getitem cfg "ferc1_tables" = Ok (VList ts) -> In t ts ->
       mem t (map VStr (ferc1_pudl_tables pc)) = true).
Proof.
  intros pc etl_params cfg Hc. split.
  - intros H. destruct etl_params as [| | | | |d]; try discriminate H.
    pose proof (validate_input_eia_unfold pc d) as U. cbv zeta in U.
    rewrite U in H. clear U.
    destruct (if truthy (resolved d "eia860_tables" _) then _ else _)
      as [u1|] eqn:S1; [|discriminate]. cbn [rbind] in H.
    destruct (if truthy (eia923_tables_inferred pc d) then _ else _)
      as [u2|] eqn:S2; [|discriminate]. cbn [rbind] in H.
    destruct (iter (eia860_years_inferred d)) as [l860|] eqn:I1;
      [|discriminate]. cbn [rbind] in H.
    destruct (check_members l860 _ _ _) as [u3|] eqn:S3; [|discriminate].
    cbn [rbind] in H.
    destruct (iter (eia923_years_inferred d)) as [l923|] eqn:I2;
      [|discriminate]. cbn [rbind] in H.
    destruct (check_members l923 _ _ _) as [u4|] eqn:S4; [|discriminate].
    cbn [rbind] in H.
    destruct (negb _ && negb _); inversion H; subst cfg;
      [discriminate Hc|].
    cbn [getitem lookup String.eqb Ascii.eqb Bool.eqb].
    repeat split; intros l x E Hin; inversion E as [E'].
    + eapply checked_list_all; eassumption.
    + eapply checked_list_all; eassumption.
    + rewrite E' in I1. inversion I1; subst l860. destruct u3.
      eapply check_members_all; eassumption.
    + rewrite E' in I2. inversion I2; subst l923. destruct u4.
      eapply check_members_all; eassumption.
  - intros H. destruct etl_params as [| | | | |d]; try discriminate H.
    pose proof (validate_input_ferc1_unfold pc d) as F. cbv zeta in F.
    rewrite F in H. clear F.
    intros dbg ts t Hd Hdbg Ht Hin.
    destruct (truthy (resolved d "ferc1_years" (VList [VNone]))).
    2:{ returned_step H. inversion H; subst. discriminate Hc. }
    destruct (if negb (truthy (flag d "debug")) then _ else _)
      as [u|] eqn:S; [|discriminate].
    cbn [rbind negb] in H. inversion H; subst cfg.
    cbn [getitem lookup String.eqb Ascii.eqb Bool.eqb] in Hd, Ht.
    inversion Hd as [Ed]. inversion Ht as [Et].
    rewrite Ed, Hdbg in S. cbn [negb] in S.
    eapply checked_list_all; eassumption.
Qed.

Lemma validated_requests_in_universe_witness :
  mem (VInt 2018) (map VInt (working_years sample_pc "eia860")) = true.
Proof.
  apply (proj1 (proj2 (proj2 (proj1
           (@validated_requests_in_universe sample_pc
              (VDict [("eia860_years", ints [2018])])
              (VDict [("eia860_years", ints [2018]);
                      ("eia860_tables",
                       strs ["plants_eia860"; "generators_eia860"]);
                      ("eia923_years", ints [2018]);
                      ("eia923_tables",
                       strs ["boiler_fuel_eia923"; "generation_eia923"])])
              eq_refl)
           eq_refl))) [VInt 2018] (VInt 2018)).
  - reflexivity.
  - left. reflexivity.
Defined.

(** ** The years handed to the datastore *)

Section DatastoreYears.

Variable py_int : string -> result Z.
Variable data_years : list (string * list Z).

Lemma select_years_kept (source : string) (years : list string) :
  forall kept,
    select_years py_int data_years true source years = Ok kept ->
    forall n, In n kept ->
      (exists y, In y years /\ py_int y = Ok n) /\
      (exists valid, data_years_of data_years source = Ok valid /\
                     In n valid).
Proof.
  induction years as [|year years IH]; intros kept H n Hin.
  - inversion H; subst. contradiction.
  - cbn [select_years] in H.
    destruct (py_int year) as [m|] eqn:Hm; [|discriminate].
    cbn [rbind] in H.
    destruct (data_years_of data_years source) as [valid|] eqn:Hv;
      [|discriminate].
    cbn [rbind] in H.
    destruct (existsb (Z.eqb m) valid) eqn:Hex; cbn [Bool.eqb] in H.
    + cbn [rbind] in H.
      destruct (select_years py_int data_years true source years)
        as [rest|] eqn:Hr; [|discriminate].
      cbn [rbind] in H. inversion H; subst kept.
      destruct Hin as [<- | Hin].
      * split; [exists year; split; [now left | assumption]|].
        exists valid. split; [reflexivity|].
        apply existsb_exists in Hex. destruct Hex as (x & Hx & E).
        apply Z.eqb_eq in E. now subst.
      * destruct (IH rest eq_refl n Hin) as ((y & Hy & Hp) & Hval).
        split; [exists y; split; [now right | assumption] | exact Hval].
    + destruct (IH kept H n Hin) as ((y & Hy & Hp) & Hval).
      split; [exists y; split; [now right | assumption] | exact Hval].
Qed.

Lemma years_by_source_loop_ok (verbose : bool) (years sources : list string) :
  forall acc warns out ws,
    Forall (years_ok py_int data_years years) acc ->
    years_by_source_loop py_int data_years verbose years sources acc warns
      = Ok (out, ws) ->
    Forall (years_ok py_int data_years years) out.
Proof.
  induction sources as [|source sources IH]; intros acc warns out ws Hacc H.
  - inversion H. now subst.
  - cbn [years_by_source_loop] in H.
    assert (Hassign : forall v,
      years_ok py_int data_years years (source, v) ->
      Forall (years_ok py_int data_years years)
        (if existsb (fun kv => String.eqb source (fst kv)) acc
         then map (fun kv => if String.eqb source (fst kv)
                             then (source, v) else kv) acc
         else (acc ++ [(source, v)])%list)).
    { intros v Hv. destruct (existsb _ acc).
      - apply Forall_forall. intros kv Hkv. apply in_map_iff in Hkv.
        destruct Hkv as (kv0 & <- & Hin0).
        destruct (String.eqb source (fst kv0)); [exact Hv|].
        eapply Forall_forall; eassumption.
      - apply Forall_app. split; [assumption|]. now constructor. }
    destruct years as [|y0 years0].
    + destruct (data_years_of data_years source) as [valid|] eqn:Hv;
        [|discriminate].
      cbn [rbind] in H. eapply IH; [|exact H]. apply Hassign.
      exists valid. cbn [fst snd]. repeat split; auto.
      * apply incl_refl.
      * intros Hne. now contradiction Hne.
    + destruct (select_years py_int data_years true source (y0 :: years0))
        as [kept|] eqn:Hk; [|discriminate].
      cbn [rbind] in H.
      destruct (select_years py_int data_years false source (y0 :: years0))
        as [bad|] eqn:Hb; [|discriminate].
      cbn [rbind] in H. eapply IH; [|exact H]. apply Hassign.
      assert (Hvalid : exists valid,
                 data_years_of data_years source = Ok valid).
      { cbn [select_years] in Hk.
        destruct (py_int y0); [|discriminate]. cbn [rbind] in Hk.
        destruct (data_years_of data_years source) as [valid|];
          [|discriminate].
        now exists valid. }
      destruct Hvalid as (valid & Hvalid).
      exists valid. cbn [fst snd]. split; [exact Hvalid|]. split; [|split].
      * intros n Hn.
        destruct (select_years_kept _ _ Hk n Hn) as (_ & valid' & Hv' & Hin).
        rewrite Hvalid in Hv'. inversion Hv'. now subst.
      * discriminate.
      * intros _ n Hn. exact (proj1 (select_years_kept _ _ Hk n Hn)).
Qed.

End DatastoreYears.

(** X17.  The years that [main] of the datastore command line records
    for a source are always valid years of that source
    ([pc.data_years[source]]): with no year on the command line they are
    all the valid years; otherwise each of them is the value of a year
    given on the command line, and the years that are not valid for the
    source are left out. *)
Theorem datastore_years_are_valid :
  forall (py_int : string -> result Z) (data_years : list (string * list Z))
         (verbose : bool) (years sources : list string)
         (years_by_source warnings : list (string * list Z)),
    years_by_source_loop py_int data_years verbose years sources [] []
      = Ok (years_by_source, warnings) ->
    forall source ys,
      In (source, ys) years_by_source ->
      exists valid,
        data_years_of data_years source = Ok valid /\
        incl ys valid /\
        (years = [] -> ys = valid) /\
        (years <> [] ->
         forall n, In n ys -> exists y, In y years /\ py_int y = Ok n).
Proof.
  intros py_int data_years verbose years sources ybs ws H source ys Hin.
  eapply years_by_source_loop_ok in H; [|constructor].
  apply (proj1 (Forall_forall _ _) H (source, ys) Hin).
Qed.

Lemma datastore_years_are_valid_witness :
  exists valid,
    data_years_of [("eia923", [2016; 2017; 2018])] "eia923" = Ok valid /\
    incl [2017] valid /\
    (["2017"; "1900"] = [] -> [2017] = valid) /\
    (["2017"; "1900"] <> [] ->
     forall n, In n [2017] ->
       exists y, In y ["2017"; "1900"] /\ decimal_int y = Ok n).
Proof.
  apply (@datastore_years_are_valid decimal_int
           [("eia923", [2016; 2017; 2018])] true ["2017"; "1900"]
           ["eia923"] [("eia923", [2017])] [("eia923", [1900])]).
  - reflexivity.
  - left. reflexivity.
Defined.

(** ** All the chunks of a partition are loaded *)

Lemma body_all (io : Collaborators)
    (writer_accepts : forall ev, write_error io ev = None)
    (t : string) (chunks : list dict) (w : world) :
  for_gen (map Yield chunks)
    (fun d => for_eachM (map snd d) (loader_add io t)) w
  = (Ok tt, logged w (adds_of t chunks)).
Proof.
  revert w. induction chunks as [|d chunks IH]; intros w; simpl.
  - unfold ret. now rewrite logged_nil.
  - unfold bind. rewrite (add_chunk_accepted io writer_accepts), IH.
    now rewrite logged_app.
Qed.

(** X18.  When the writer accepts every call and the transformation
    yields the sub-chunks [chunks] without raising, [_etl_epacems_part]
    returns the name of the partition's table after exactly these calls:
    the session is opened, every dataframe of every sub-chunk is added,
    in the order in which they were yielded, and the session is closed.
    No chunk is dropped and none is added twice. *)
Theorem etl_epacems_part_loads_every_chunk :
  forall (io : Collaborators) (part years states data_dir : pyval)
         (pkg_dir : string) (w : world) (raw : generator dict)
         (chunks : list dict),
    (forall ev, write_error io ev = None) ->
    extract_epacems io (VList [part]) states data_dir = Ok raw ->
    transform_pkg_epacems io raw pkg_dir = Ok (map Yield chunks) ->
    _etl_epacems_part io part years states data_dir pkg_dir w
    = (Ok (partition_table part),
       logged w (SessionOpen (partition_table part) pkg_dir
                   :: adds_of (partition_table part) chunks
                   ++ [SessionClose (partition_table part)])).
Proof.
  intros io part years states data_dir pkg_dir w raw chunks Hw Hx Ht.
  unfold _etl_epacems_part, bind, lift. rewrite Hx, Ht.
  fold (partition_table part). set (t := partition_table part).
  unfold with_BulkCopyPkg. rewrite Hw.
  set (w1 := {| open_sessions := t :: open_sessions w;
                log := (log w ++ [SessionOpen t pkg_dir])%list |}).
  change (for_gen (map Yield chunks) _ w1)
    with (for_gen (map Yield chunks)
            (fun d => for_eachM (map snd d) (loader_add io t)) w1).
  rewrite (body_all io Hw). unfold ret, logged. simpl.
  rewrite String.eqb_refl. now rewrite <- !app_assoc.
Qed.

Lemma etl_epacems_part_loads_every_chunk_witness :
  _etl_epacems_part sample_io (VInt 2018) (ints [2018]) (strs ["CO"])
    (VStr "data") "pkg" empty_world
  = (Ok (partition_table (VInt 2018)),
     logged empty_world
       (SessionOpen (partition_table (VInt 2018)) "pkg"
          :: adds_of (partition_table (VInt 2018)) [[("raw", VNone)]]
          ++ [SessionClose (partition_table (VInt 2018))])).
Proof.
  apply (@etl_epacems_part_loads_every_chunk sample_io (VInt 2018)
           (ints [2018]) (strs ["CO"]) (VStr "data") "pkg" empty_world
           [Yield [("raw", VNone)]] [[("raw", VNone)]]);
    reflexivity.
Defined.

(** ** The states handed to the partitions *)

(** X19.  In the loop of [_etl_epacems_pkg], once the states have been
    narrowed to the single key [s], they stay [[s]] for every later
    partition key that differs from [s]: every such partition is
    extracted for the state [s], with its own key as the year. *)
Theorem epacems_parts_keep_first_state :
  forall (io : Collaborators) (parts years : list pyval)
         (s data_dir : pyval) (pkg_dir : string) (w : world),
    (forall part, In part parts -> eqb part s = false) ->
    epacems_parts io parts (VList years) (VList [s]) data_dir pkg_dir w
    = for_eachM parts
        (fun part =>
           _ <~ _etl_epacems_part io part (VList [part]) (VList [s])
                  data_dir pkg_dir ;;
           ret tt) w.
Proof.
  intros io parts. induction parts as [|part parts IH];
    intros years s data_dir pkg_dir w H; [reflexivity|].
  cbn [epacems_parts for_eachM contains]. unfold bind at 1 2. unfold lift.
  cbn [mem existsb]. rewrite (H part (or_introl eq_refl)). cbn [orb].
  assert (Hrest : forall p, In p parts -> eqb p s = false).
  { intros p Hp. apply H. now right. }
  assert (Hpart : forall ys,
            _etl_epacems_part io part ys (VList [s]) data_dir pkg_dir
            = _etl_epacems_part io part (VList [part]) (VList [s])
                data_dir pkg_dir) by reflexivity.
  rewrite (Hpart (if mem part years then VList [part] else VList years)).
  unfold bind.
  destruct (_etl_epacems_part io part (VList [part]) (VList [s])
              data_dir pkg_dir w) as [[t|e] w1]; [|reflexivity].
  unfold ret. destruct (mem part years); apply IH; assumption.
Qed.

Lemma epacems_parts_keep_first_state_witness :
  epacems_parts sample_io [VStr "ID"; VStr "TX"] (VList [VInt 2018])
    (VList [VStr "CO"]) (VStr "data") "pkg" empty_world
  = for_eachM [VStr "ID"; VStr "TX"]
      (fun part =>
         _ <~ _etl_epacems_part sample_io part (VList [part])
                (VList [VStr "CO"]) (VStr "data") "pkg" ;;
         ret tt) empty_world.
Proof.
  apply (epacems_parts_keep_first_state sample_io [VStr "ID"; VStr "TX"]
           [VInt 2018] (VStr "CO") (VStr "data") "pkg" empty_world).
  intros part [<- | [<- | []]]; reflexivity.
Defined.

(* ================================================================== *)
(** ** Static tables: when they are loaded *)

Section StaticFirst.

Variable pc : Constants.
Variable io : Collaborators.

Lemma logged_cons w ev evs :
  logged (logged w [ev]) evs = logged w (ev :: evs).
Proof. unfold logged. cbn. now rewrite <- app_assoc. Qed.

(** A run that raised after its static dump, the only call it logged. *)
Lemma static_then_raised label statics pkg_dir w (e : exn) :
  exists evs,
    snd (@Err pyval e, logged w [DictDump label statics pkg_dir])
    = logged w (DictDump label statics pkg_dir :: evs) /\
    forall tbls,
      fst (@Err pyval e, logged w [DictDump label statics pkg_dir])
      = Ok tbls ->
      static_loaded label statics pkg_dir tbls
        (snd (@Err pyval e, logged w [DictDump label statics pkg_dir])).
Proof.
  exists []. split; [reflexivity|]. intros tbls Hx. discriminate Hx.
Qed.

(** A FERC 1 configuration that is no skip signal holds non-empty years
    and the resolved tables. *)
Lemma validate_input_ferc1_requested (d : dict) (cfg : pyval) :
  _validate_input_ferc1 pc (VDict d) = Ok cfg ->
  truthy cfg = true ->
  truthy (resolved d "ferc1_years" (VList [VNone])) = true /\
  cfg = VDict [("ferc1_years", resolved d "ferc1_years" (VList [VNone]));
               ("ferc1_tables",
                resolved d "ferc1_tables" (strs (pudl_tables pc "ferc1")));
               ("ferc1_testing", resolved d "ferc1_testing" (VBool false));
               ("debug", flag d "debug")].
Proof.
  intros H Hc.
  pose proof (validate_input_ferc1_unfold pc d) as U. cbv zeta in U.
  rewrite U in H. clear U. returned_step H.
  destruct (truthy (resolved d "ferc1_years" (VList [VNone])));
    cbn [negb] in H; inversion H; subst; [now split | discriminate Hc].
Qed.

Lemma etl_ferc1_pkg_static (d : dict) (aux : pyval) (pkg_dir : string)
    (w : world) (cfg : pyval) :
  _validate_input_ferc1 pc (VDict d) = Ok cfg ->
  truthy cfg = true ->
  if truthy (resolved d "ferc1_tables" (strs (pudl_tables pc "ferc1")))
  then static_materialized io "Static FERC Tables" static_ferc pkg_dir w
         (_etl_ferc1_pkg pc io (VDict d) aux pkg_dir w)
  else _etl_ferc1_pkg pc io (VDict d) aux pkg_dir w = (Ok (VList []), w).
Proof.
  intros H Hc.
  destruct (validate_input_ferc1_requested d H Hc) as [Hy Hcfg].
  unfold _etl_ferc1_pkg, bind, lift. rewrite H, Hcfg.
  cbn [getitem lookup String.eqb Ascii.eqb Bool.eqb].
  rewrite Hy. cbn [negb orb].
  destruct (truthy (resolved d "ferc1_tables"
                      (strs (pudl_tables pc "ferc1")))); cbn [negb];
    [|reflexivity].
  unfold _load_static_tables_ferc, bind, dict_dump, emit. simpl keys.
  fold static_ferc.
  destruct (write_error io
              (DictDump "Static FERC Tables" static_ferc pkg_dir))
    as [e|] eqn:Hw.
  { left. exists e. now split. }
  right. unfold ret at 1.
  fold (logged w [DictDump "Static FERC Tables" static_ferc pkg_dir]).
  destruct (extract_ferc1 io _ _ aux _) as [raw|e];
    [|apply static_then_raised].
  destruct (transform_ferc1 io raw _) as [dfs|e];
    [|apply static_then_raised].
  destruct (write_error io (DictDump "FERC 1" (keys dfs) pkg_dir)) as [e|];
    [apply static_then_raised|].
  fold (logged (logged w [DictDump "Static FERC Tables" static_ferc pkg_dir])
          [DictDump "FERC 1" (keys dfs) pkg_dir]).
  unfold ret. exists [DictDump "FERC 1" (keys dfs) pkg_dir].
  cbn [fst snd]. split; [apply logged_cons|].
  intros tbls Ht. inversion Ht; subst.
  exists (keys dfs ++ static_ferc)%list. split; [reflexivity|]. split.
  - apply incl_appr, incl_refl.
  - apply in_or_app. left. apply logged_last.
Qed.

(** An EIA configuration that is no skip signal holds the four fields
    after the inferences, with both year lists non-empty. *)
Lemma validate_input_eia_requested (d : dict) (cfg : pyval) :
  _validate_input_eia pc (VDict d) = Ok cfg ->
  truthy cfg = true ->
  truthy (eia923_years_inferred d) = true /\
  truthy (eia860_years_inferred d) = true /\
  cfg = VDict [("eia860_years", eia860_years_inferred d);
               ("eia860_tables",
                resolved d "eia860_tables" (strs (pudl_tables pc "eia860")));
               ("eia923_years", eia923_years_inferred d);
               ("eia923_tables", eia923_tables_inferred pc d)].
Proof.
  intros H Hc.
  pose proof (validate_input_eia_unfold pc d) as U. cbv zeta in U.
  rewrite U in H. clear U.
  destruct (eia_years_inferred_together d)
    as [(H923 & H860 & _) | (H923 & H860)];
    do 6 returned_step H; rewrite H923, H860 in H; cbn [negb andb] in H;
    inversion H; subst; [now repeat split | discriminate Hc].
Qed.

Lemma etl_eia_pkg_static (d : dict) (aux : pyval) (pkg_dir : string)
    (w : world) (cfg : pyval) :
  _validate_input_eia pc (VDict d) = Ok cfg ->
  truthy cfg = true ->
  if truthy (resolved d "eia860_tables" (strs (pudl_tables pc "eia860")))
     || truthy (eia923_tables_inferred pc d)
  then static_materialized io "Static EIA Tables" static_eia pkg_dir w
         (_etl_eia_pkg pc io (VDict d) aux pkg_dir w)
  else _etl_eia_pkg pc io (VDict d) aux pkg_dir w = (Ok (VList []), w).
Proof.
  intros H Hc.
  destruct (validate_input_eia_requested d H Hc) as (H923 & H860 & Hcfg).
  unfold _etl_eia_pkg, bind, lift. rewrite H, Hcfg.
  cbn [getitem lookup String.eqb Ascii.eqb Bool.eqb].
  rewrite H923, H860. cbn [negb]. rewrite !orb_false_r.
  rewrite <- negb_orb.
  rewrite (orb_comm (truthy (eia923_tables_inferred pc d))).
  destruct (truthy (resolved d "eia860_tables"
                      (strs (pudl_tables pc "eia860")))
            || truthy (eia923_tables_inferred pc d));
    cbn [negb]; [|reflexivity].
  unfold _load_static_tables_eia, bind, dict_dump, emit. simpl keys.
  fold static_eia.
  destruct (write_error io
              (DictDump "Static EIA Tables" static_eia pkg_dir))
    as [e|] eqn:Hw.
  { left. exists e. now split. }
  right. unfold ret at 1.
  fold (logged w [DictDump "Static EIA Tables" static_eia pkg_dir]).
  destruct (extract_eia923 io _ aux) as [r923|e];
    [|apply static_then_raised].
  destruct (extract_eia860 io _ aux) as [r860|e];
    [|apply static_then_raised].
  destruct (transform_eia923 io r923 _) as [d923|e];
    [|apply static_then_raised].
  destruct (transform_eia860 io r860 _) as [d860|e];
    [|apply static_then_raised].
  destruct (transform_eia io _ _ _) as [[ents dfs]|e];
    [|apply static_then_raised].
  cbn [fst snd].
  destruct (write_error io (DictDump "Entities" (keys ents) pkg_dir))
    as [e|]; [apply static_then_raised|].
  destruct (write_error io (DictDump "EIA" (keys dfs) pkg_dir)) as [e|].
  { exists [DictDump "Entities" (keys ents) pkg_dir]. split.
    - apply logged_cons.
    - intros tbls Hx. discriminate Hx. }
  unfold ret.
  exists [DictDump "Entities" (keys ents) pkg_dir;
          DictDump "EIA" (keys dfs) pkg_dir].
  cbn [fst snd]. split.
  { unfold logged. cbn [log open_sessions]. now rewrite <- !app_assoc. }
  intros tbls Ht. inversion Ht; subst.
  exists (keys dfs ++ keys ents ++ static_eia)%list.
  split; [reflexivity|]. split.
  - apply incl_appr, incl_appr, incl_refl.
  - cbn [log]. apply in_or_app. left. apply in_or_app. left.
    apply logged_last.
Qed.

Lemma etl_epaipm_static (d : dict) (aux : pyval) (pkg_dir : string)
    (w : world) :
  static_materialized io "Static IPM Tables" static_epaipm pkg_dir w
    (_etl_epaipm io (VDict d) aux pkg_dir w).
Proof.
  unfold _etl_epaipm, _validate_input_epaipm, bind, lift.
  rewrite get_or_dict.
  cbn [setitem rbind getitem lookup dict_set String.eqb Ascii.eqb Bool.eqb].
  unfold _load_static_tables_epaipm, bind, dict_dump, emit. simpl keys.
  fold static_epaipm.
  destruct (write_error io
              (DictDump "Static IPM Tables" static_epaipm pkg_dir))
    as [e|] eqn:Hw.
  { left. exists e. now split. }
  right. unfold ret at 1.
  fold (logged w [DictDump "Static IPM Tables" static_epaipm pkg_dir]).
  destruct (extract_epaipm io _ aux) as [raw|e];
    [|apply static_then_raised].
  destruct (transform_epaipm io raw _) as [dfs|e];
    [|apply static_then_raised].
  destruct (write_error io (DictDump "EPA IPM" (keys dfs) pkg_dir)) as [e|];
    [apply static_then_raised|].
  fold (logged (logged w [DictDump "Static IPM Tables" static_epaipm pkg_dir])
          [DictDump "EPA IPM" (keys dfs) pkg_dir]).
  unfold ret. exists [DictDump "EPA IPM" (keys dfs) pkg_dir].
  cbn [fst snd]. split; [apply logged_cons|].
  intros tbls Ht. inversion Ht; subst.
  exists (keys dfs ++ static_epaipm)%list. split; [reflexivity|]. split.
  - apply incl_appr, incl_refl.
  - apply in_or_app. left. apply logged_last.
Qed.

End StaticFirst.

(** C8 (amended).  The EPA IPM adapter begins every run on a dict of
    parameters with the dump of its static table, whatever tables are
    requested, and every list it returns holds the static name.  For
    FERC 1 and EIA parameters that validate to a configuration (not to
    the skip signal, so the years are not empty) the tables decide: when
    the tables of the configuration are empty ([ferc1_tables] for
    FERC 1; both [eia860_tables] and the [eia923] tables after the
    inference for EIA) the adapter returns the empty list and writes
    nothing, static tables included; otherwise the dump of the static
    tables is the first call of the run, refused by the writer or
    logged first, and every list the run returns holds the static
    names. *)
Theorem static_tables_loaded_past_the_guard :
  forall (pc : Constants) (io : Collaborators) (d : dict) (aux : pyval)
         (pkg_dir : string) (w : world),
    static_materialized io "Static IPM Tables" static_epaipm pkg_dir w
      (_etl_epaipm io (VDict d) aux pkg_dir w) /\
    (forall cfg,
        _validate_input_ferc1 pc (VDict d) = Ok cfg ->
        truthy cfg = true ->
        if truthy (resolved d "ferc1_tables" (strs (pudl_tables pc "ferc1")))
        then static_materialized io "Static FERC Tables" static_ferc
               pkg_dir w (_etl_ferc1_pkg pc io (VDict d) aux pkg_dir w)
        else _etl_ferc1_pkg pc io (VDict d) aux pkg_dir w
             = (Ok (VList []), w)) /\
    (forall cfg,
        _validate_input_eia pc (VDict d) = Ok cfg ->
        truthy cfg = true ->
        if truthy (resolved d "eia860_tables"
                     (strs (pudl_tables pc "eia860")))
           || truthy (eia923_tables_inferred pc d)
        then static_materialized io "Static EIA Tables" static_eia
               pkg_dir w (_etl_eia_pkg pc io (VDict d) aux pkg_dir w)
        else _etl_eia_pkg pc io (VDict d) aux pkg_dir w
             = (Ok (VList []), w)).
Proof.
  intros pc io d aux pkg_dir w. split; [|split].
  - apply etl_epaipm_static.
  - intros cfg H Hc. exact (@etl_ferc1_pkg_static pc io d aux pkg_dir w cfg H Hc).
  - intros cfg H Hc. exact (@etl_eia_pkg_static pc io d aux pkg_dir w cfg H Hc).
Qed.

Lemma static_tables_loaded_past_the_guard_witness :
  static_materialized sample_io "Static FERC Tables" static_ferc "pkg"
    empty_world
    (_etl_ferc1_pkg sample_pc sample_io
       (VDict [("ferc1_years", ints [2018])]) (VStr "data") "pkg"
       empty_world) /\
  static_materialized sample_io "Static EIA Tables" static_eia "pkg"
    empty_world
    (_etl_eia_pkg sample_pc sample_io
       (VDict [("eia860_years", ints [2018]); ("eia860_tables", VList [])])
       (VStr "data") "pkg" empty_world) /\
  _etl_eia_pkg sample_pc sample_io
    (VDict [("eia923_years", ints [2018]); ("eia860_tables", VList []);
            ("eia923_tables", VList [])])
    (VStr "data") "pkg" empty_world
  = (Ok (VList []), empty_world).
Proof.
  split; [|split].
  - exact (proj1 (proj2 (static_tables_loaded_past_the_guard
                           sample_pc sample_io
                           [("ferc1_years", ints [2018])]
                           (VStr "data") "pkg" empty_world))
             _ eq_refl eq_refl).
  - exact (proj2 (proj2 (static_tables_loaded_past_the_guard
                           sample_pc sample_io
                           [("eia860_years", ints [2018]);
                            ("eia860_tables", VList [])]
                           (VStr "data") "pkg" empty_world))
             _ eq_refl eq_refl).
  - exact (proj2 (proj2 (static_tables_loaded_past_the_guard
                           sample_pc sample_io
                           [("eia923_years", ints [2018]);
                            ("eia860_tables", VList []);
                            ("eia923_tables", VList [])]
                           (VStr "data") "pkg" empty_world))
             _ eq_refl eq_refl).
Defined.
